(** * 3D bot pipeline server: model residency, slot placement and assembly

    A shallow embedding of [tools/3d-gen/server.py].  Module-level model
    handles become an explicit [Globals] record, Python exceptions become
    the [Raise] branch of [Result], and everything the server consumes
    through a library or an external process (trimesh, PIL, the model
    pipelines, the file system, UniRig) is an operation of the [External]
    class.  numpy's float64 is Rocq's primitive binary64 [float].  A
    [string] stands for a Python [str] of code points below 256, one
    character for each. *)

From Stdlib Require Import Floats.PrimFloat Strings.Ascii.
From stdpp Require Import base option list strings pretty gmap.

Set Default Proof Using "Type".
#[local] Set Warnings "-inexact-float,-register-all".
#[local] Open Scope string_scope.

(** ** float64 vectors (numpy arrays of shape (3,)) *)

Module Vec.

Record Vec3 : Type := mk { x : float; y : float; z : float }.

Definition add (a b : Vec3) : Vec3 :=
  mk (x a + x b)%float (y a + y b)%float (z a + z b)%float.

Definition sub (a b : Vec3) : Vec3 :=
  mk (x a - x b)%float (y a - y b)%float (z a - z b)%float.

(** [a * b] on arrays: componentwise product. *)
Definition mul (a b : Vec3) : Vec3 :=
  mk (x a * x b)%float (y a * y b)%float (z a * z b)%float.

Definition zero : Vec3 := mk 0 0 0.

End Vec.

Abbreviation Vec3 := Vec.Vec3.

(** ** Slot table *)

(** [SLOT_MAP]: fractions of the bounding-box size, from the min corner. *)
Definition SLOT_MAP : gmap string Vec3 :=
  <[ "head"        := Vec.mk 0.50 1.00 0.50 ]> (
  <[ "left_hand"   := Vec.mk 0.10 0.55 0.50 ]> (
  <[ "right_hand"  := Vec.mk 0.90 0.55 0.50 ]> (
  <[ "left_arm"    := Vec.mk 0.15 0.65 0.50 ]> (
  <[ "right_arm"   := Vec.mk 0.85 0.65 0.50 ]> (
  <[ "chest_front" := Vec.mk 0.50 0.65 0.85 ]> (
  <[ "chest_back"  := Vec.mk 0.50 0.65 0.15 ]> (
  <[ "waist"       := Vec.mk 0.50 0.40 0.50 ]> (
  <[ "left_leg"    := Vec.mk 0.30 0.10 0.50 ]> (
  <[ "right_leg"   := Vec.mk 0.70 0.10 0.50 ]> (
  <[ "top"         := Vec.mk 0.50 1.10 0.50 ]> (
  <[ "bottom"      := Vec.mk 0.50 (-0.05) 0.50 ]> ∅))))))))))).

(** The arithmetic of [get_slot_position] once [base_mesh.bounds] has been
    unpacked: the fallback to ["top"], then [bb_min + size * fracs]. *)
Definition slot_position_of_bounds (bounds : Vec3 * Vec3) (slot : string) : Vec3 :=
  let slot := if decide (is_Some (SLOT_MAP !! slot)) then slot else "top" in
  let '(bb_min, bb_max) := bounds in
  let size := Vec.sub bb_max bb_min in
  let fracs := default Vec.zero (SLOT_MAP !! slot) in
  Vec.add bb_min (Vec.mul size fracs).

(** ** The placement contract in the specification's words *)

Module PlaceSpec.

Inductive SlotName : Type :=
| head | left_hand | right_hand | left_arm | right_arm | chest_front
| chest_back | waist | left_leg | right_leg | top | bottom.

Definition name (s : SlotName) : string :=
  match s with
  | head => "head" | left_hand => "left_hand" | right_hand => "right_hand"
  | left_arm => "left_arm" | right_arm => "right_arm"
  | chest_front => "chest_front" | chest_back => "chest_back"
  | waist => "waist" | left_leg => "left_leg" | right_leg => "right_leg"
  | top => "top" | bottom => "bottom"
  end.

Definition fractions (s : SlotName) : Vec3 :=
  match s with
  | head => Vec.mk 0.5 1 0.5
  | left_hand => Vec.mk 0.1 0.55 0.5
  | right_hand => Vec.mk 0.9 0.55 0.5
  | left_arm => Vec.mk 0.15 0.65 0.5
  | right_arm => Vec.mk 0.85 0.65 0.5
  | chest_front => Vec.mk 0.5 0.65 0.85
  | chest_back => Vec.mk 0.5 0.65 0.15
  | waist => Vec.mk 0.5 0.4 0.5
  | left_leg => Vec.mk 0.3 0.1 0.5
  | right_leg => Vec.mk 0.7 0.1 0.5
  | top => Vec.mk 0.5 1.1 0.5
  | bottom => Vec.mk 0.5 (-0.05) 0.5
  end.

(** [target = min + size ⊙ fractions[slot]] with [size = max - min]. *)
Definition place (bounds : Vec3 * Vec3) (s : SlotName) : Vec3 :=
  Vec.add (fst bounds) (Vec.mul (Vec.sub (snd bounds) (fst bounds)) (fractions s)).

End PlaceSpec.

(** ** Python exceptions and the server monad *)

(** [HTTPException(status_code, detail)] is what the endpoints raise on
    purpose; [Exception] stands for every other subclass of Python's
    [Exception], with its message. *)
Inductive Exn : Type :=
| HTTPException (status_code : Z) (detail : string)
| Exception (msg : string).

(** [str(e)]; Starlette renders an [HTTPException] as ["{status_code}: {detail}"]. *)
Definition str_exn (e : Exn) : string :=
  match e with
  | HTTPException c d => pretty c ++ ": " ++ d
  | Exception m => m
  end.

Inductive Result (A : Type) : Type :=
| Ok (a : A)
| Raise (e : Exn).
Arguments Ok {A} a.
Arguments Raise {A} e.

Definition is_ok {A} (r : Result A) : bool :=
  match r with Ok _ => true | Raise _ => false end.

(** Python truthiness of a [str]. *)
Definition truthy (s : string) : bool :=
  match s with EmptyString => false | String _ _ => true end.

(** [s.lstrip("/")]. *)
Fixpoint lstrip_slash (s : string) : string :=
  match s with
  | String "/"%char rest => lstrip_slash rest
  | _ => s
  end.

(** [s[-n:]] for a positive [n]. *)
Definition str_tail (n : nat) (s : string) : string :=
  String.substring (String.length s - n) n s.

(** [a / b] on [pathlib.Path] for a relative [b]. *)
Definition pjoin (a b : string) : string :=
  if truthy b then a ++ "/" ++ b else a.
Infix "//" := pjoin (at level 40, left associativity).

(** ** trimesh *)

Class MeshLib : Type := {
  Mesh : Type;
  (** [len(mesh.vertices)], [len(mesh.faces)] *)
  len_vertices : Mesh → Z;
  len_faces : Mesh → Z;
  (** [mesh.bounds] is [None] for an empty mesh *)
  bounds : Mesh → option (Vec3 * Vec3);
  centroid : Mesh → Vec3;
  apply_scale : float → Mesh → Mesh;
  apply_translation : Vec3 → Mesh → Mesh;
  (** [trimesh.util.concatenate] *)
  concatenate : list Mesh → Result Mesh;
}.

(** What [trimesh.load] hands back: a mesh, a scene of named geometries, or
    something that is neither. *)
Inductive Loaded `{MeshLib} : Type :=
| LoadedTrimesh (m : Mesh)
| LoadedScene (geometry : list (string * Mesh))
| LoadedOther.

(** ** Model kinds and what generation returns *)

Inductive ModelKind : Type := TripoSG | Hunyuan3DShape | Hunyuan3DText2Img | Hunyuan3DPaint.

#[global] Instance ModelKind_eq_dec : EqDecision ModelKind.
Proof. solve_decision. Defined.

(** The dict returned by [_generate_from_bytes] and [_generate_hunyuan3d]. *)
Record GenResult : Type := {
  part_id : string;
  gen_glb_path : string;
  vertices : Z;
  faces : Z;
  elapsed_s : float;
  gen_engine : option string;
  ref_image_path : option string;
}.

(** An entry of [generated_parts]: [{"role": ..., "slot": ..., **result}]. *)
Record GeneratedPart : Type := {
  role : string;
  part_slot : option string;
  part_result : GenResult;
}.

(** What the mesh-producing part of a generation call yields before the
    result dict is built: [uuid.uuid4().hex[:8]] and the counts of the
    saved mesh. *)
Record SavedMesh : Type := {
  saved_uuid : string;
  saved_vertices : Z;
  saved_faces : Z;
  saved_elapsed : float;
}.

(** Outcome of [TripoSGPipeline]/[BriaRMBG] loading in [get_triposg_models]:
    both loaded, an [ImportError], or another exception, raised either
    before [rmbg_net] was assigned or after it. *)
Inductive TripoLoad (Pipe : Type) : Type :=
| TripoLoaded (pipe rmbg : Pipe)
| TripoImportError
| TripoLoadFailed (rmbg_assigned : option Pipe).
Arguments TripoLoaded {Pipe} pipe rmbg.
Arguments TripoImportError {Pipe}.
Arguments TripoLoadFailed {Pipe} rmbg_assigned.

(** Outcome of the DuckDuckGo search, download and background removal. *)
Inductive SearchOutcome : Type :=
| SearchImportError
| SearchNoResults
| SearchFound (img_id : string)
| SearchFailed (e : Exn).

(** Outcome of [subprocess.run(..., timeout=t)]. *)
Inductive ProcOutcome : Type :=
| Completed (returncode : Z) (stdout stderr : string)
| TimeoutExpired
| RunFailed (e : Exn).

(** JSON values carried by the [dict]s of a merge request. *)
Inductive JVal : Type :=
| JNull
| JNum (v : float)
| JStr (s : string)
| JArr (items : list JVal).

(** ** Everything outside the server *)

(** The file system, the model back ends and the external tools, each as a
    function of the state of the outside [World]. *)
Class External `{MeshLib} : Type := {
  World : Type;
  Pipe : Type;
  Image : Type;
  Bytes : Type;
  TexturedMesh : Type;
  Transform : Type;
  PROJECT_ROOT : string;
  (** [Path.exists], [os.path.getsize], [open(p, "rb").read()];
      [Path.exists] is taken to answer: the [OSError] it passes on for a
      name the file system refuses (too long, no permission) is left out *)
  path_exists : string → World → bool;
  getsize : string → World → Result Z;
  read_bytes : string → World → Result Bytes;
  (** [Image.open(p)] and [image.convert("RGBA")] *)
  image_open : string → World → Result Image;
  to_rgba : Image → Result Image;
  image_save : Image → string → World → Result () * World;
  trimesh_load : string → World → Result Loaded;
  mesh_export : Mesh → string → World → Result () * World;
  (** [scene.export(p)]; a node is a name, a geometry (a mesh, or [None]
      for a loaded object that is not one) and its transform *)
  scene_export : list (string * option Mesh * Transform) → string → World → Result () * World;
  textured_export : TexturedMesh → string → World → Result () * World;
  (** [mesh.simplify_quadric_decimation(face_count=n)] *)
  simplify_quadric_decimation : Mesh → Z → World → Result Mesh;
  (** the bodies of the four lazy loaders below their early return *)
  load_triposg : World → TripoLoad Pipe * World;
  load_hunyuan3d_shape : World → option Pipe * World;
  load_hunyuan3d_text2img : World → option Pipe * World;
  load_hunyuan3d_paint : World → option Pipe * World;
  (** [import torch], [from image_process import prepare_image], [import tempfile] *)
  import_triposg_deps : World → Result ();
  (** TripoSG from image bytes to a saved [.glb]: preprocessing, inference
      with the given steps, guidance scale, seed and face cap, export *)
  triposg_generate :
    Pipe → option Pipe → Bytes → Z → float → Z → Z → World → Result SavedMesh * World;
  (** [text2img(prompt, seed=seed)] *)
  text2img_call : Pipe → string → Z → World → Result Image * World;
  (** Hunyuan3D from an image to a saved [.glb]: RGBA conversion, shape
      generation with the given seed, [_reduce_faces], export *)
  hunyuan3d_generate : Pipe → Image → Z → Z → World → Result SavedMesh * World;
  image_search : string → bool → World → SearchOutcome * World;
  subprocess_run : list string → string → Z → World → ProcOutcome * World;
  (** [paint_pipe(mesh, image=ref_image)], with the seconds it took rounded
      to one decimal *)
  paint_call : Pipe → Mesh → Image → World → Result (TexturedMesh * float) * World;
  (** [trimesh.transformations.compose_matrix(translate=, angles=)] and [np.radians] *)
  compose_matrix : JVal → list float → Result Transform;
  np_radians : float → float;
}.

Section Server.
Context {ML : MeshLib} {Ext : External}.

Definition OUTPUT_DIR : string := PROJECT_ROOT // "public" // "parts" // "generated".
Definition UNIRIG_DIR : string := PROJECT_ROOT // "tools" // "UniRig".

(** *** Module-level model handles *)

Record Globals : Type := {
  triposg_pipe : option Pipe;
  rmbg_net : option Pipe;
  hunyuan3d_pipe : option Pipe;
  hunyuan3d_text2img : option Pipe;
  hunyuan3d_paint : option Pipe;
}.

Definition no_models : Globals :=
  {| triposg_pipe := None; rmbg_net := None; hunyuan3d_pipe := None;
     hunyuan3d_text2img := None; hunyuan3d_paint := None |}.

(** The main handle of a model kind; [/status] reports a kind as loaded
    when this handle is not [None]. *)
Definition handle (k : ModelKind) (g : Globals) : option Pipe :=
  match k with
  | TripoSG => triposg_pipe g
  | Hunyuan3DShape => hunyuan3d_pipe g
  | Hunyuan3DText2Img => hunyuan3d_text2img g
  | Hunyuan3DPaint => hunyuan3d_paint g
  end.

Definition resident (k : ModelKind) (g : Globals) : Prop := is_Some (handle k g).

Definition resident_kinds (g : Globals) : list ModelKind :=
  filter (λ k, resident k g) [TripoSG; Hunyuan3DShape; Hunyuan3DText2Img; Hunyuan3DPaint].

(** Ghost events, for stating what happened during a call: a loader
    finished loading kind [k] and left the handles [after]; the paint
    back end was invoked on [mesh]. *)
Inductive Event : Type :=
| EvLoad (k : ModelKind) (after : Globals)
| EvPaint (mesh : Mesh).

Record Server : Type := {
  globals : Globals;
  world : World;
  trace : list Event;
}.

Definition M (A : Type) : Type := Server → Result A * Server.

Definition ret {A} (a : A) : M A := λ s, (Ok a, s).
Definition raise {A} (e : Exn) : M A := λ s, (Raise e, s).
Definition bind {A B} (m : M A) (k : A → M B) : M B :=
  λ s, match m s with
       | (Ok a, s') => k a s'
       | (Raise e, s') => (Raise e, s')
       end.
(** [try: m  except Exception as e: h e] *)
Definition try_except {A} (m : M A) (h : Exn → M A) : M A :=
  λ s, match m s with
       | (Ok a, s') => (Ok a, s')
       | (Raise e, s') => h e s'
       end.

Definition get_globals : M Globals := λ s, (Ok (globals s), s).
Definition set_globals (g : Globals) : M () :=
  λ s, (Ok (), {| globals := g; world := world s; trace := trace s |}).
Definition emit (ev : Event) : M () :=
  λ s, (Ok (), {| globals := globals s; world := world s; trace := trace s ++ [ev] |}).
(** An external call that reads the world. *)
Definition ask {A} (f : World → A) : M A := λ s, (Ok (f (world s)), s).
Definition ask_r {A} (f : World → Result A) : M A := λ s, (f (world s), s).
(** An external call that may change the world. *)
Definition ext {A} (f : World → A * World) : M A :=
  λ s, let '(a, w) := f (world s) in
       (Ok a, {| globals := globals s; world := w; trace := trace s |}).
Definition ext_r {A} (f : World → Result A * World) : M A :=
  λ s, let '(r, w) := f (world s) in
       (r, {| globals := globals s; world := w; trace := trace s |}).
Definition lift {A} (r : Result A) : M A := λ s, (r, s).

End Server.

Notation "x <- m ;; k" := (bind m (λ x, k))
  (at level 20, m at level 99, k at level 200, only parsing).
Notation "' p <- m ;; k" := (bind m (λ x, match x with p => k end))
  (at level 20, p pattern, m at level 99, k at level 200, only parsing).
Notation "m ;; k" := (bind m (λ _, k))
  (at level 100, k at level 200, right associativity, only parsing).

(** ** The server *)

Section Endpoints.
Context {ML : MeshLib} {Ext : External}.

Definition with_triposg (pipe rmbg : option Pipe) (g : Globals) : Globals :=
  {| triposg_pipe := pipe; rmbg_net := rmbg; hunyuan3d_pipe := hunyuan3d_pipe g;
     hunyuan3d_text2img := hunyuan3d_text2img g; hunyuan3d_paint := hunyuan3d_paint g |}.
Definition with_hunyuan3d_pipe (pipe : option Pipe) (g : Globals) : Globals :=
  {| triposg_pipe := triposg_pipe g; rmbg_net := rmbg_net g; hunyuan3d_pipe := pipe;
     hunyuan3d_text2img := hunyuan3d_text2img g; hunyuan3d_paint := hunyuan3d_paint g |}.
Definition with_hunyuan3d_text2img (pipe : option Pipe) (g : Globals) : Globals :=
  {| triposg_pipe := triposg_pipe g; rmbg_net := rmbg_net g;
     hunyuan3d_pipe := hunyuan3d_pipe g; hunyuan3d_text2img := pipe;
     hunyuan3d_paint := hunyuan3d_paint g |}.
Definition with_hunyuan3d_paint (pipe : option Pipe) (g : Globals) : Globals :=
  {| triposg_pipe := triposg_pipe g; rmbg_net := rmbg_net g;
     hunyuan3d_pipe := hunyuan3d_pipe g; hunyuan3d_text2img := hunyuan3d_text2img g;
     hunyuan3d_paint := pipe |}.

(** *** Lazy loaders and unloaders

    In the unloaders [import gc] and [import torch] are taken to succeed
    (no model can have been loaded without torch), and [gc.collect()] and
    [torch.cuda.empty_cache()] leave no mark on the state modelled here. *)

Definition get_triposg_models : M (option Pipe * option Pipe) :=
  g <- get_globals ;;
  match triposg_pipe g with
  | Some pipe => ret (Some pipe, rmbg_net g)
  | None =>
      o <- ext load_triposg ;;
      match o with
      | TripoLoaded pipe rmbg =>
          let g' := with_triposg (Some pipe) (Some rmbg) g in
          set_globals g' ;;
          emit (EvLoad TripoSG g') ;;
          ret (Some pipe, Some rmbg)
      | TripoImportError => ret (None, None)
      | TripoLoadFailed rmbg =>
          match rmbg with
          | Some _ => set_globals (with_triposg None rmbg g)
          | None => ret ()
          end ;;
          ret (None, None)
      end
  end.

Definition unload_triposg : M () :=
  g <- get_globals ;;
  if bool_decide (is_Some (triposg_pipe g) ∨ is_Some (rmbg_net g))
  then set_globals (with_triposg None None g)
  else ret ().

Definition get_hunyuan3d_model : M (option Pipe) :=
  g <- get_globals ;;
  match hunyuan3d_pipe g with
  | Some pipe => ret (Some pipe)
  | None =>
      o <- ext load_hunyuan3d_shape ;;
      match o with
      | Some pipe =>
          let g' := with_hunyuan3d_pipe (Some pipe) g in
          set_globals g' ;;
          emit (EvLoad Hunyuan3DShape g') ;;
          ret (Some pipe)
      | None => ret None
      end
  end.

Definition get_hunyuan3d_text2img : M (option Pipe) :=
  g <- get_globals ;;
  match hunyuan3d_text2img g with
  | Some pipe => ret (Some pipe)
  | None =>
      o <- ext load_hunyuan3d_text2img ;;
      match o with
      | Some pipe =>
          let g' := with_hunyuan3d_text2img (Some pipe) g in
          set_globals g' ;;
          emit (EvLoad Hunyuan3DText2Img g') ;;
          ret (Some pipe)
      | None => ret None
      end
  end.

Definition unload_hunyuan3d : M () :=
  g <- get_globals ;;
  (if bool_decide (is_Some (hunyuan3d_pipe g))
   then set_globals (with_hunyuan3d_pipe None g) else ret ()) ;;
  g <- get_globals ;;
  if bool_decide (is_Some (hunyuan3d_text2img g))
  then set_globals (with_hunyuan3d_text2img None g) else ret ().

Definition get_hunyuan3d_paint : M (option Pipe) :=
  g <- get_globals ;;
  match hunyuan3d_paint g with
  | Some pipe => ret (Some pipe)
  | None =>
      o <- ext load_hunyuan3d_paint ;;
      match o with
      | Some pipe =>
          let g' := with_hunyuan3d_paint (Some pipe) g in
          set_globals g' ;;
          emit (EvLoad Hunyuan3DPaint g') ;;
          ret (Some pipe)
      | None => ret None
      end
  end.

Definition unload_hunyuan3d_paint : M () :=
  g <- get_globals ;;
  if bool_decide (is_Some (hunyuan3d_paint g))
  then set_globals (with_hunyuan3d_paint None g) else ret ().

(** The four loaders under the name the specification gives them. *)
Definition acquire (k : ModelKind) : M (option Pipe) :=
  match k with
  | TripoSG => '(pipe, _) <- get_triposg_models ;; ret pipe
  | Hunyuan3DShape => get_hunyuan3d_model
  | Hunyuan3DText2Img => get_hunyuan3d_text2img
  | Hunyuan3DPaint => get_hunyuan3d_paint
  end.

(** *** Requests and responses *)

Record AttachmentPart : Type := {
  description : string;
  search_query : string;
  text_prompt : string;
  image_path : string;
  glb_path : string;
  slot : string;
  scale : float;
  engine : string;
}.

Record AssembleRequest : Type := {
  base_description : string;
  base_search_query : string;
  base_text_prompt : string;
  base_image_path : string;
  base_glb_path : string;
  base_engine : string;
  attachments : list AttachmentPart;
  output_name : string;
  auto_rig : bool;
  auto_paint : bool;
  paint_search_query : string;
  num_inference_steps : Z;
  guidance_scale : float;
}.

Record RigRequest : Type := {
  rig_glb_path : string;
  rig_output_name : string;
}.

Record PaintRequest : Type := {
  paint_glb_path : string;
  paint_image_path : string;
  paint_search : string;
  paint_output_name : string;
}.

Record MergeRequest : Type := {
  parts : list (gmap string JVal);
  merge_output_name : string;
}.

Record MergeResponse : Type := {
  merge_merged_path : string;
  parts_count : nat;
  merge_file_size : Z;
}.

(** [/rig] answers with ["rigged_path"] set to a path or to [None]. *)
Record RigResponse : Type := {
  glb_input : string;
  rig_response_name : string;
  rigged_path : option string;
  rig_file_size : option Z;
  rig_message : option string;
}.

Record PaintResponse : Type := {
  painted_path : string;
  paint_file_size : Z;
  elapsed : float;
  reference_image : string;
}.

(** The dict [assemble_bot] returns; a key that may be absent is an
    [option]. *)
Record AssemblyResult : Type := {
  merged_path : string;
  result_vertices : Z;
  result_faces : Z;
  parts_generated : list GeneratedPart;
  file_size : Z;
  rigged : option RigResponse;
  rig_error : option string;
  painted : option PaintResponse;
  paint_error : option string;
}.

(** *** Image search *)

(** [search_image]; the answer is reduced to its ["image_path"] key, which
    is absent when nothing was found. *)
Definition search_image (query : string) (remove_bg : bool) : M (option string) :=
  o <- ext (image_search query remove_bg) ;;
  match o with
  | SearchNoResults => ret None
  | SearchFound img_id => ret (Some ("/parts/generated/" ++ img_id ++ ".png"))
  | SearchImportError =>
      raise (HTTPException 503
               "duckduckgo_search not installed. pip install duckduckgo_search httpx")
  | SearchFailed e => raise (HTTPException 500 ("Image search failed: " ++ str_exn e))
  end.

(** *** Generation *)

Definition gen_result (prefix : string) (eng : option string) (sm : SavedMesh) : GenResult :=
  let pid := prefix ++ saved_uuid sm in
  {| part_id := pid;
     gen_glb_path := "/parts/generated/" ++ pid ++ ".glb";
     vertices := saved_vertices sm;
     faces := saved_faces sm;
     elapsed_s := saved_elapsed sm;
     gen_engine := eng;
     ref_image_path := None |}.

Definition with_ref_image_path (p : string) (r : GenResult) : GenResult :=
  {| part_id := part_id r; gen_glb_path := gen_glb_path r; vertices := vertices r;
     faces := faces r; elapsed_s := elapsed_s r; gen_engine := gen_engine r;
     ref_image_path := Some p |}.

(** [generate_3d], once [file.read()] has returned the upload's bytes. *)
Definition generate_3d (file : Bytes) (steps : Z) (guidance : float) (seed faces_cap : Z)
  : M GenResult :=
  '(pipe, rmbg) <- get_triposg_models ;;
  match pipe with
  | None =>
      raise (HTTPException 503 "TripoSG model not available. Install dependencies first.")
  | Some pipe =>
      try_except
        (ask_r import_triposg_deps ;;
         sm <- ext_r (triposg_generate pipe rmbg file steps guidance seed faces_cap) ;;
         ret (gen_result "gen_" None sm))
        (λ e, raise (HTTPException 500 ("Generation failed: " ++ str_exn e)))
  end.

(** [_generate_from_bytes]; [filename] only reaches a log line. *)
Definition _generate_from_bytes (image_bytes : Bytes) (steps : Z) (guidance : float)
  : M GenResult :=
  ask_r import_triposg_deps ;;
  '(pipe, rmbg) <- get_triposg_models ;;
  match pipe with
  | None => raise (HTTPException 503 "TripoSG model not available")
  | Some pipe =>
      sm <- ext_r (triposg_generate pipe rmbg image_bytes steps guidance 42 (-1)) ;;
      ret (gen_result "gen_" None sm)
  end.

(** [_generate_hunyuan3d]; its [import torch] is taken to succeed. *)
Definition _generate_hunyuan3d (prompt : option string) (image : option Image)
    (seed faces_cap : Z) : M GenResult :=
  pipe <- get_hunyuan3d_model ;;
  match pipe with
  | None => raise (HTTPException 503 "Hunyuan3D model not available. Check installation.")
  | Some pipe =>
      let has_prompt := truthy (default "" prompt) in
      image <-
        match image with
        | None =>
            if has_prompt then
              text2img <- get_hunyuan3d_text2img ;;
              match text2img with
              | None =>
                  raise (HTTPException 503
                    "HunyuanDiT text-to-image model not available. Provide an image instead of a text prompt.")
              | Some text2img =>
                  img <- ext_r (text2img_call text2img (default "" prompt) seed) ;;
                  ret (Some img)
              end
            else ret None
        | Some img => ret (Some img)
        end ;;
      match image with
      | None => raise (HTTPException 400 "No image or text prompt provided")
      | Some image =>
          image <- lift (to_rgba image) ;;
          sm <- ext_r (hunyuan3d_generate pipe image seed faces_cap) ;;
          let result := gen_result "h3d_" (Some "hunyuan3d") sm in
          if has_prompt then
            let paint_ref_id := "paintref_" ++ part_id result in
            ext_r (image_save image (OUTPUT_DIR // (paint_ref_id ++ ".png"))) ;;
            ret (with_ref_image_path ("/parts/generated/" ++ paint_ref_id ++ ".png") result)
          else ret result
      end
  end.

(** [str.isspace] on the code points below 256: the ASCII white space
    U+0009 to U+000D, U+001C to U+001F and U+0020, then U+0085 and
    U+00A0.  These are the characters [str.strip] removes. *)
Definition is_space (c : ascii) : bool :=
  let n := nat_of_ascii c in
  bool_decide (n = 32 ∨ (9 ≤ n ∧ n ≤ 13) ∨ (28 ≤ n ∧ n ≤ 31) ∨ n = 133 ∨ n = 160)%nat.

Fixpoint lstrip (s : string) : string :=
  match s with
  | String c rest => if is_space c then lstrip rest else s
  | EmptyString => s
  end.

Definition strip (s : string) : string :=
  String.rev (lstrip (String.rev (lstrip s))).

(** Re-raise an [HTTPException], wrap anything else in a 500. *)
Definition http_or_500 {A} (what : string) (e : Exn) : M A :=
  match e with
  | HTTPException _ _ => raise e
  | Exception _ => raise (HTTPException 500 (what ++ str_exn e))
  end.

Definition generate_text_3d (prompt : string) (seed faces_cap : Z) : M GenResult :=
  if truthy (strip prompt) then
    try_except
      (unload_triposg ;;
       _generate_hunyuan3d (Some (strip prompt)) None seed faces_cap)
      (http_or_500 "Text-to-3D generation failed: ")
  else raise (HTTPException 400 "Text prompt cannot be empty").

(** *** Merge *)

Definition zeros : JVal := JArr [JNum 0; JNum 0; JNum 0].

(** [[np.radians(r) for r in rot]] *)
Definition radians_of (rot : JVal) : Result (list float) :=
  match rot with
  | JArr items =>
      foldr (λ r acc,
               match r, acc with
               | JNum v, Ok l => Ok (np_radians v :: l)
               | _, Raise e => Raise e
               | _, _ => Raise (Exception "TypeError: np.radians of a non-number")
               end) (Ok []) items
  | _ => Raise (Exception "TypeError: rotation is not iterable")
  end.

(** [part["path"]] *)
Definition part_path_of (part : gmap string JVal) : Result string :=
  match part !! "path" with
  | Some (JStr p) => Ok p
  | Some _ => Raise (Exception "AttributeError: path has no attribute lstrip")
  | None => Raise (Exception "KeyError: path")
  end.

(** A node added to the merged [trimesh.Scene]. *)
Definition SceneNode : Type := string * option Mesh * Transform.

(** The nodes part [i] contributes: one per geometry of a scene, else one. *)
Definition part_nodes (i : nat) (mesh : Loaded) (transform : Transform) : list SceneNode :=
  match mesh with
  | LoadedScene geometry =>
      map (λ '(name, geom), ("part_" ++ pretty i ++ "_" ++ name, Some geom, transform))
          geometry
  | LoadedTrimesh m => [("part_" ++ pretty i, Some m, transform)]
  | LoadedOther => [("part_" ++ pretty i, None, transform)]
  end.

(** One iteration of the loop over [enumerate(req.parts)]. *)
Definition merge_part (i : nat) (part : gmap string JVal) (combined : list SceneNode)
  : M (list SceneNode) :=
  path <- lift (part_path_of part) ;;
  let part_path := PROJECT_ROOT // lstrip_slash path in
  found <- ask (path_exists part_path) ;;
  if negb found then raise (HTTPException 404 ("Part not found: " ++ path)) else
  mesh <- ask_r (trimesh_load part_path) ;;
  let pos := default zeros (part !! "position") in
  let rot := default zeros (part !! "rotation") in
  angles <- lift (radians_of rot) ;;
  transform <- lift (compose_matrix pos angles) ;;
  ret (app combined (part_nodes i mesh transform)).

Fixpoint merge_loop (i : nat) (ps : list (gmap string JVal)) (combined : list SceneNode)
  : M (list SceneNode) :=
  match ps with
  | [] => ret combined
  | part :: rest =>
      combined <- merge_part i part combined ;;
      merge_loop (S i) rest combined
  end.

Definition merge_parts (req : MergeRequest) : M MergeResponse :=
  combined <- merge_loop 0 (parts req) [] ;;
  let output_path := OUTPUT_DIR // (merge_output_name req ++ ".glb") in
  ext_r (scene_export combined output_path) ;;
  size <- ask_r (getsize output_path) ;;
  ret {| merge_merged_path := "/parts/generated/" ++ merge_output_name req ++ ".glb";
         parts_count := length (parts req);
         merge_file_size := size |}.

(** *** Slot placement *)

Definition get_slot_position (base_mesh : Mesh) (slot : string) : Result Vec3 :=
  match bounds base_mesh with
  | Some b => Ok (slot_position_of_bounds b slot)
  | None => Raise (Exception "TypeError: cannot unpack non-iterable NoneType object")
  end.

Definition extract_single_mesh (loaded : Loaded) : Result Mesh :=
  match loaded with
  | LoadedTrimesh m => Ok m
  | LoadedScene [] | LoadedOther =>
      Raise (Exception "Could not extract a valid mesh from the loaded file")
  | LoadedScene [(_, m)] => Ok m
  | LoadedScene geometry => concatenate (geometry.*2)
  end.

(** [att.scale != 1.0] *)
Definition scale_differs (sc : float) : bool := negb (PrimFloat.eqb sc 1).

(** The block of [assemble_bot] that scales a loaded attachment and moves
    it to its slot; the result is the mesh appended to
    [positioned_meshes]. *)
Definition position_attachment (base_mesh : Mesh) (att : AttachmentPart) (att_mesh : Mesh)
  : Result Mesh :=
  let att_mesh := if scale_differs (scale att) then apply_scale (scale att) att_mesh
                  else att_mesh in
  match get_slot_position base_mesh (slot att) with
  | Raise e => Raise e
  | Ok slot_pos =>
      let att_center := centroid att_mesh in
      let translation := Vec.sub slot_pos att_center in
      Ok (apply_translation translation att_mesh)
  end.

(** *** Rig *)

Definition unirig_python : string := "D:\Miniconda3\envs\UniRig\python.exe".

(** Web path to disk path, as [rig_bot] and [paint_bot] do it: under
    [public/] when that exists, else directly under the project root. *)
Definition resolve_public (web_path : string) : M string :=
  let raw_path := lstrip_slash web_path in
  found <- ask (path_exists (PROJECT_ROOT // "public" // raw_path)) ;;
  ret (if found then PROJECT_ROOT // "public" // raw_path else PROJECT_ROOT // raw_path).

Definition rig_bot (req : RigRequest) : M RigResponse :=
  glb <- resolve_public (rig_glb_path req) ;;
  found <- ask (path_exists glb) ;;
  if negb found then raise (HTTPException 404 ("GLB not found: " ++ rig_glb_path req)) else
  unload_triposg ;;
  try_except
    (has_env <- ask (path_exists unirig_python) ;;
     if negb has_env then
       raise (HTTPException 503
         "UniRig Conda env not found at D:\Miniconda3\envs\UniRig. Create it with: conda create -n UniRig python=3.11")
     else
     let rig_wrapper := UNIRIG_DIR // "rig_bot.py" in
     has_wrapper <- ask (path_exists rig_wrapper) ;;
     if negb has_wrapper then
       raise (HTTPException 503 ("UniRig wrapper not found: " ++ rig_wrapper))
     else
     let output_glb := OUTPUT_DIR // (rig_output_name req ++ ".glb") in
     let cmd := [unirig_python; rig_wrapper; "--input=" ++ glb; "--output=" ++ output_glb] in
     result <- ext (subprocess_run cmd UNIRIG_DIR 300) ;;
     match result with
     | TimeoutExpired => raise (HTTPException 504 "Rigging timed out (300s limit)")
     | RunFailed e => raise e
     | Completed returncode _ stderr =>
         if bool_decide (returncode ≠ 0%Z) then
           raise (HTTPException 500
                    ("UniRig rigging failed: " ++
                     (if truthy stderr then str_tail 500 stderr else "unknown error")))
         else
         written <- ask (path_exists output_glb) ;;
         if written then
           size <- ask_r (getsize output_glb) ;;
           ret {| glb_input := rig_glb_path req; rig_response_name := rig_output_name req;
                  rigged_path := Some ("/parts/generated/" ++ rig_output_name req ++ ".glb");
                  rig_file_size := Some size; rig_message := None |}
         else
           ret {| glb_input := rig_glb_path req; rig_response_name := rig_output_name req;
                  rigged_path := None; rig_file_size := None;
                  rig_message := Some "UniRig completed but output GLB not generated" |}
     end)
    (http_or_500 "Rigging failed: ").

(** *** Paint *)

Definition MAX_PAINT_FACES : Z := 50000.

(** Open the image behind a web path as RGBA if the file is there. *)
Definition open_reference (web_path : string) : M (option Image) :=
  img_path <- resolve_public web_path ;;
  found <- ask (path_exists img_path) ;;
  if found then
    img <- ask_r (image_open img_path) ;;
    img <- lift (to_rgba img) ;;
    ret (Some img)
  else ret None.

(** The decimation block: above [MAX_PAINT_FACES] faces the mesh is
    simplified, and the original is kept when simplification raises. *)
Definition decimate_for_paint (mesh : Mesh) : M Mesh :=
  if bool_decide (len_faces mesh > MAX_PAINT_FACES)%Z then
    try_except (ask_r (simplify_quadric_decimation mesh MAX_PAINT_FACES))
               (λ _, ret mesh)
  else ret mesh.

Definition paint_bot (req : PaintRequest) : M PaintResponse :=
  glb <- resolve_public (paint_glb_path req) ;;
  found <- ask (path_exists glb) ;;
  if negb found then raise (HTTPException 404 ("GLB not found: " ++ paint_glb_path req)) else
  try_except
    (ref_image <-
       (if truthy (paint_image_path req) then open_reference (paint_image_path req)
        else ret None) ;;
     ref_image <-
       match ref_image with
       | None =>
           if truthy (paint_search req) then
             search_result <- search_image (paint_search req) true ;;
             let found_path := default "" search_result in
             if truthy found_path then open_reference found_path else ret None
           else ret None
       | Some img => ret (Some img)
       end ;;
     match ref_image with
     | None =>
         raise (HTTPException 400
           "No reference image provided. Please supply image_path or search_query for texture guidance.")
     | Some ref_image =>
         unload_hunyuan3d ;;
         unload_triposg ;;
         paint_pipe <- get_hunyuan3d_paint ;;
         match paint_pipe with
         | None => raise (HTTPException 503 "Hunyuan3D-Paint not available")
         | Some paint_pipe =>
             loaded <- ask_r (trimesh_load glb) ;;
             mesh <- lift (extract_single_mesh loaded) ;;
             mesh <- decimate_for_paint mesh ;;
             emit (EvPaint mesh) ;;
             '(textured_mesh, secs) <- ext_r (paint_call paint_pipe mesh ref_image) ;;
             let output_path := OUTPUT_DIR // (paint_output_name req ++ ".glb") in
             ext_r (textured_export textured_mesh output_path) ;;
             size <- ask_r (getsize output_path) ;;
             unload_hunyuan3d_paint ;;
             ret {| painted_path := "/parts/generated/" ++ paint_output_name req ++ ".glb";
                    paint_file_size := size;
                    elapsed := secs;
                    reference_image :=
                      if truthy (paint_image_path req) then paint_image_path req
                      else paint_search req |}
         end
     end)
    (λ e, unload_hunyuan3d_paint ;; http_or_500 "Painting failed: " e).

(** *** Assemble *)

Definition is_hunyuan3d (eng : string) : bool := bool_decide (eng = "hunyuan3d").

(** [image_path], or failing that the first hit of [search_query]. *)
Definition find_image (image_path search_query : string) : M string :=
  if negb (truthy image_path) && truthy search_query then
    search_result <- search_image search_query true ;;
    ret (default "" search_result)
  else ret image_path.

(** Image to mesh with the requested engine. *)
Definition generate_from_image (req : AssembleRequest) (eng image_path : string)
  : M GenResult :=
  if is_hunyuan3d eng then
    unload_triposg ;;
    img <- ask_r (image_open (PROJECT_ROOT // lstrip_slash image_path)) ;;
    _generate_hunyuan3d None (Some img) 42 (-1)
  else
    data <- ask_r (read_bytes (PROJECT_ROOT // lstrip_slash image_path)) ;;
    _generate_from_bytes data (num_inference_steps req) (guidance_scale req).

Definition generated_file (r : GenResult) : string := OUTPUT_DIR // (part_id r ++ ".glb").

(** Step 1: the path of the base mesh, [base_ref_image] ([""] when the
    local was never assigned) and the initial [generated_parts]. *)
Definition resolve_base (req : AssembleRequest) : M (string * string * list GeneratedPart) :=
  if truthy (base_glb_path req) then
    let base_path := PROJECT_ROOT // lstrip_slash (base_glb_path req) in
    found <- ask (path_exists base_path) ;;
    if found then ret (base_path, "", [])
    else raise (HTTPException 404 ("Base GLB not found: " ++ base_glb_path req))
  else if truthy (base_text_prompt req) && is_hunyuan3d (base_engine req) then
    unload_triposg ;;
    base_result <- _generate_hunyuan3d (Some (base_text_prompt req)) None 42 (-1) ;;
    ret (generated_file base_result, default "" (ref_image_path base_result),
         [ {| role := "base"; part_slot := None; part_result := base_result |} ])
  else
    base_image_path <- find_image (base_image_path req) (base_search_query req) ;;
    if negb (truthy base_image_path) then
      raise (HTTPException 400
        "No base mesh source: provide glb_path, text_prompt, image_path, or search_query")
    else
      base_result <- generate_from_image req (base_engine req) base_image_path ;;
      ret (generated_file base_result, "",
           [ {| role := "base"; part_slot := None; part_result := base_result |} ]).

(** The source of one attachment: [None] is the [continue] of the loop;
    otherwise the mesh file and what to append to [generated_parts]. *)
Definition resolve_attachment (req : AssembleRequest) (att : AttachmentPart)
  : M (option (string * list GeneratedPart)) :=
  let generated r :=
    [ {| role := description att; part_slot := Some (slot att); part_result := r |} ] in
  if truthy (glb_path att) then
    let att_path := PROJECT_ROOT // lstrip_slash (glb_path att) in
    found <- ask (path_exists att_path) ;;
    if found then ret (Some (att_path, []))
    else raise (HTTPException 404 ("Attachment GLB not found: " ++ glb_path att))
  else if truthy (text_prompt att) && is_hunyuan3d (engine att) then
    unload_triposg ;;
    att_result <- _generate_hunyuan3d (Some (text_prompt att)) None 42 (-1) ;;
    ret (Some (generated_file att_result, generated att_result))
  else
    att_image_path <- find_image (image_path att) (search_query att) ;;
    if negb (truthy att_image_path) then ret None
    else
      att_result <- generate_from_image req (engine att) att_image_path ;;
      ret (Some (generated_file att_result, generated att_result)).

(** Step 2, the loop over [req.attachments]; the accumulator is
    [(positioned_meshes, generated_parts)]. *)
Fixpoint attachments_loop (req : AssembleRequest) (base_mesh : Mesh)
    (atts : list AttachmentPart) (acc : list Mesh * list GeneratedPart)
  : M (list Mesh * list GeneratedPart) :=
  match atts with
  | [] => ret acc
  | att :: rest =>
      source <- resolve_attachment req att ;;
      match source with
      | None => attachments_loop req base_mesh rest acc
      | Some (att_path, generated) =>
          att_loaded <- ask_r (trimesh_load att_path) ;;
          att_mesh <- lift (extract_single_mesh att_loaded) ;;
          att_mesh <- lift (position_attachment base_mesh att att_mesh) ;;
          attachments_loop req base_mesh rest
            (app acc.1 [att_mesh], app acc.2 generated)
      end
  end.

Definition with_rigged (r : RigResponse) (res : AssemblyResult) : AssemblyResult :=
  {| merged_path := merged_path res; result_vertices := result_vertices res;
     result_faces := result_faces res; parts_generated := parts_generated res;
     file_size := file_size res; rigged := Some r; rig_error := rig_error res;
     painted := painted res; paint_error := paint_error res |}.
Definition with_rig_error (msg : string) (res : AssemblyResult) : AssemblyResult :=
  {| merged_path := merged_path res; result_vertices := result_vertices res;
     result_faces := result_faces res; parts_generated := parts_generated res;
     file_size := file_size res; rigged := rigged res; rig_error := Some msg;
     painted := painted res; paint_error := paint_error res |}.
Definition with_painted (r : PaintResponse) (res : AssemblyResult) : AssemblyResult :=
  {| merged_path := painted_path r; result_vertices := result_vertices res;
     result_faces := result_faces res; parts_generated := parts_generated res;
     file_size := paint_file_size r; rigged := rigged res; rig_error := rig_error res;
     painted := Some r; paint_error := paint_error res |}.
Definition with_paint_error (msg : string) (res : AssemblyResult) : AssemblyResult :=
  {| merged_path := merged_path res; result_vertices := result_vertices res;
     result_faces := result_faces res; parts_generated := parts_generated res;
     file_size := file_size res; rigged := rigged res; rig_error := rig_error res;
     painted := painted res; paint_error := Some msg |}.

(** Step 3: unload the shape models, concatenate, export. *)
Definition merge_stage (req : AssembleRequest) (positioned_meshes : list Mesh)
    (generated_parts : list GeneratedPart) : M AssemblyResult :=
  unload_hunyuan3d ;;
  unload_triposg ;;
  merged <- lift (concatenate positioned_meshes) ;;
  let merged_file := OUTPUT_DIR // (output_name req ++ ".glb") in
  ext_r (mesh_export merged merged_file) ;;
  size <- ask_r (getsize merged_file) ;;
  ret {| merged_path := "/parts/generated/" ++ output_name req ++ ".glb";
         result_vertices := len_vertices merged; result_faces := len_faces merged;
         parts_generated := generated_parts; file_size := size;
         rigged := None; rig_error := None; painted := None; paint_error := None |}.

(** Step 4: optional auto-rig. *)
Definition rig_stage (req : AssembleRequest) (result : AssemblyResult) : M AssemblyResult :=
  if auto_rig req then
    try_except
      (rig_result <- rig_bot {| rig_glb_path := "/parts/generated/" ++ output_name req ++ ".glb";
                                rig_output_name := output_name req ++ "_rigged" |} ;;
       ret (with_rigged rig_result result))
      (λ rig_err, ret (with_rig_error (str_exn rig_err) result))
  else ret result.

(** Step 5: optional auto-paint. *)
Definition paint_stage (req : AssembleRequest) (base_ref_image : string)
    (result : AssemblyResult) : M AssemblyResult :=
  if auto_paint req then
    try_except
      (let paint_image := base_ref_image in
       let paint_query :=
         if truthy (paint_search_query req) then paint_search_query req
         else if truthy (base_description req) then base_description req
         else "3D robot texture material" in
       paint_result <- paint_bot {| paint_glb_path := merged_path result;
                                    paint_image_path := paint_image;
                                    paint_search := if truthy paint_image then "" else paint_query;
                                    paint_output_name := output_name req ++ "_painted" |} ;;
       ret (with_painted paint_result result))
      (λ paint_err, ret (with_paint_error (str_exn paint_err) result))
  else ret result.

(** Steps 1 to 3: [base_ref_image] and the result dict as it stands
    before the optional stages. *)
Definition assemble_parts (req : AssembleRequest) : M (string * AssemblyResult) :=
  '(base_path, base_ref_image, generated_parts) <- resolve_base req ;;
  base_loaded <- ask_r (trimesh_load base_path) ;;
  base_mesh <- lift (extract_single_mesh base_loaded) ;;
  (* the log line reads base_mesh.bounds.tolist() *)
  lift (match bounds base_mesh with
        | Some _ => Ok ()
        | None => Raise (Exception "AttributeError: NoneType has no attribute tolist")
        end) ;;
  '(positioned_meshes, generated_parts) <-
     attachments_loop req base_mesh (attachments req) ([base_mesh], generated_parts) ;;
  result <- merge_stage req positioned_meshes generated_parts ;;
  ret (base_ref_image, result).

(** What [assemble_bot] runs inside its [try]. *)
Definition assemble_body (req : AssembleRequest) : M AssemblyResult :=
  '(base_ref_image, result) <- assemble_parts req ;;
  result <- rig_stage req result ;;
  paint_stage req base_ref_image result.

Definition assemble_bot (req : AssembleRequest) : M AssemblyResult :=
  try_except (assemble_body req) (http_or_500 "Assembly failed: ").

(** *** Requests, one after the other *)

Inductive Request : Type :=
| PostGenerate (file : Bytes) (steps : Z) (guidance : float) (seed faces_cap : Z)
| PostGenerateText (prompt : string) (seed faces_cap : Z)
| PostSearchImage (query : string) (remove_bg : bool)
| PostMerge (req : MergeRequest)
| PostAssemble (req : AssembleRequest)
| PostRig (req : RigRequest)
| PostPaint (req : PaintRequest).

(** The state a request leaves behind, whatever it answered. *)
Definition serve (r : Request) (s : Server) : Server :=
  match r with
  | PostGenerate file steps guidance seed cap =>
      (generate_3d file steps guidance seed cap s).2
  | PostGenerateText prompt seed cap => (generate_text_3d prompt seed cap s).2
  | PostSearchImage query remove_bg => (search_image query remove_bg s).2
  | PostMerge req => (merge_parts req s).2
  | PostAssemble req => (assemble_bot req s).2
  | PostRig req => (rig_bot req s).2
  | PostPaint req => (paint_bot req s).2
  end.

Definition serve_all (rs : list Request) (s : Server) : Server :=
  foldl (λ s r, serve r s) s rs.

(** The server after start-up: nothing loaded, nothing logged. *)
Definition boot (w : World) : Server :=
  {| globals := no_models; world := w; trace := [] |}.

(** What [lifespan] does after its [yield], when the server stops. *)
Definition shutdown : M () :=
  unload_triposg ;;
  unload_hunyuan3d.

(** *** Status and static files *)

(** What [/status] says about the models.  The GPU figures and the count
    of generated files are read from outside the server and left out. *)
Record StatusReport : Type := {
  triposg_loaded : bool;
  hunyuan3d_loaded : bool;
  engines_available : list string;
}.

Definition status : M StatusReport :=
  g <- get_globals ;;
  ret {| triposg_loaded := bool_decide (is_Some (triposg_pipe g));
         hunyuan3d_loaded := bool_decide (is_Some (hunyuan3d_pipe g));
         engines_available := app ["triposg"] (if true then ["hunyuan3d"] else []) |}.

(** [serve_generated], up to the path the [FileResponse] is made of. *)
Definition serve_generated (filename : string) : M string :=
  let file_path := OUTPUT_DIR // filename in
  found <- ask (path_exists file_path) ;;
  if negb found then raise (HTTPException 404 ("File not found: " ++ filename))
  else ret file_path.

End Endpoints.

(** ** Assertions about runs *)

Section Assertions.
Context {ML : MeshLib} {Ext : External}.

(** From [s], [m] either returns [a] in a state with [Q a] or raises in
    a state with [R]. *)
Definition wp {A} (m : M A) (Q : A → Server → Prop) (R : Server → Prop) (s : Server) : Prop :=
  match m s with
  | (Ok a, s') => Q a s'
  | (Raise _, s') => R s'
  end.

Definition hoare {A} (P : Server → Prop) (m : M A)
    (Q : A → Server → Prop) (R : Server → Prop) : Prop :=
  ∀ s, P s → wp m Q R s.

(** [m] touches neither the model handles nor the trace. *)
Definition quiet {A} (m : M A) : Prop :=
  ∀ s, globals (m s).2 = globals s ∧ trace (m s).2 = trace s.

(** [I] looks at the model handles and the trace only. *)
Definition stable (I : Server → Prop) : Prop :=
  ∀ s s', globals s' = globals s → trace s' = trace s → I s → I s'.

(** What a load of kind [k] may leave resident beside it: nothing beside
    Hunyuan3D-Paint; neither TripoSG nor Paint beside a Hunyuan3D shape or
    text-to-image model; no Paint beside TripoSG. *)
Definition load_ok (k : ModelKind) (after : Globals) : Prop :=
  match k with
  | Hunyuan3DPaint => ∀ k', resident k' after → k' = Hunyuan3DPaint
  | Hunyuan3DShape | Hunyuan3DText2Img =>
      ¬ resident TripoSG after ∧ ¬ resident Hunyuan3DPaint after
  | TripoSG => ¬ resident Hunyuan3DPaint after
  end.

Definition event_ok (ev : Event) : Prop :=
  match ev with
  | EvLoad k after => load_ok k after
  | EvPaint _ => True
  end.

Definition loads_ok (s : Server) : Prop := Forall event_ok (trace s).

(** Every load so far was fine, and of TripoSG, the two Hunyuan3D
    generation models and Paint, those whose flag is set are not
    resident now.  Between requests Paint is free; where Hunyuan3D
    generates TripoSG is free too; where Paint loads the others are. *)
Definition inv (tripo_free gen_free paint_free : bool) (s : Server) : Prop :=
  loads_ok s
  ∧ (tripo_free → triposg_pipe (globals s) = None)
  ∧ (gen_free → hunyuan3d_pipe (globals s) = None ∧ hunyuan3d_text2img (globals s) = None)
  ∧ (paint_free → hunyuan3d_paint (globals s) = None).

(** How the mesh [passed] to the paint back end relates to the [mesh]
    read from the file, in a world [w]. *)
Definition paint_input (mesh passed : Mesh) (w : World) : Prop :=
  if bool_decide (len_faces mesh > MAX_PAINT_FACES)%Z then
    match simplify_quadric_decimation mesh MAX_PAINT_FACES w with
    | Ok simplified => passed = simplified
    | Raise _ => passed = mesh
    end
  else passed = mesh.

(** A paint event is fine when the mesh passed on comes, in this way, from
    the mesh in the file at [glb]. *)
Definition paint_event_ok (glb : string) (ev : Event) : Prop :=
  match ev with
  | EvLoad _ _ => True
  | EvPaint passed =>
      ∃ w loaded mesh,
        trimesh_load glb w = Ok loaded ∧ extract_single_mesh loaded = Ok mesh
        ∧ paint_input mesh passed w
  end.

(** The trace has grown since [s0], by events satisfying [E]. *)
Definition grown (E : Event → Prop) (s0 s : Server) : Prop :=
  ∃ evs, trace s = app (trace s0) evs ∧ Forall E evs.

(** No constraint at all, and Paint not being resident. *)
Definition anything (s : Server) : Prop := True.
Definition paint_released (s : Server) : Prop := hunyuan3d_paint (globals s) = None.

(** The face counts the paint back end was invoked with, oldest first. *)
Definition painted_faces (t : list Event) : list Z :=
  omap (λ ev, match ev with EvPaint mesh => Some (len_faces mesh) | EvLoad _ _ => None end) t.

(** The disk path [rig_bot] and [paint_bot] settle on for a web path. *)
Definition disk_path (web_path : string) (w : World) : string :=
  let raw_path := lstrip_slash web_path in
  if path_exists (PROJECT_ROOT // "public" // raw_path) w
  then PROJECT_ROOT // "public" // raw_path else PROJECT_ROOT // raw_path.

Definition with_attachments (atts : list AttachmentPart) (req : AssembleRequest)
  : AssembleRequest :=
  {| base_description := base_description req;
     base_search_query := base_search_query req;
     base_text_prompt := base_text_prompt req;
     base_image_path := base_image_path req;
     base_glb_path := base_glb_path req;
     base_engine := base_engine req;
     attachments := atts;
     output_name := output_name req;
     auto_rig := auto_rig req;
     auto_paint := auto_paint req;
     paint_search_query := paint_search_query req;
     num_inference_steps := num_inference_steps req;
     guidance_scale := guidance_scale req |}.

(** An exception that FastAPI turns into the response it names. *)
Definition is_http (e : Exn) : Prop :=
  match e with
  | HTTPException _ _ => True
  | Exception _ => False
  end.


Definition with_paint_search (query : string) (req : PaintRequest) : PaintRequest :=
  {| paint_glb_path := paint_glb_path req; paint_image_path := paint_image_path req;
     paint_search := query; paint_output_name := paint_output_name req |}.

(** The handles of the two Hunyuan3D generation models and of Paint. *)
Definition hunyuan_handles (g : Globals) : option Pipe * option Pipe * option Pipe :=
  (hunyuan3d_pipe g, hunyuan3d_text2img g, hunyuan3d_paint g).

(** The handles of TripoSG and of its background remover. *)
Definition triposg_handles (g : Globals) : option Pipe * option Pipe :=
  (triposg_pipe g, rmbg_net g).

(** A result that is a value or an [HTTPException]. *)
Definition http_only {A} (r : Result A) : Prop :=
  match r with
  | Ok _ => True
  | Raise e => is_http e
  end.

(** [m] leaves the part [f] of the model handles as it finds it. *)
Definition keeps {A B} (f : Globals → B) (m : M A) : Prop :=
  ∀ s, f (globals (m s).2) = f (globals s).

(** Nothing is held at all; the Hunyuan3D generation models are not held;
    nothing but Paint may be held; the text-to-image model is held only
    beside the shape model; the shape model is held. *)
Definition idle (s : Server) : Prop := globals s = no_models.
Definition hunyuan3d_released (s : Server) : Prop :=
  hunyuan3d_pipe (globals s) = None ∧ hunyuan3d_text2img (globals s) = None.
Definition shape_models_released (s : Server) : Prop :=
  triposg_handles (globals s) = (None, None) ∧ hunyuan3d_released s.
Definition text2img_beside_shape (s : Server) : Prop :=
  hunyuan3d_pipe (globals s) = None → hunyuan3d_text2img (globals s) = None.
Definition shape_resident (s : Server) : Prop := is_Some (hunyuan3d_pipe (globals s)).

(** The exception a handler that lets an [HTTPException] through and
    wraps anything else in a 500 ends with. *)
Definition wrapped (what : string) (e : Exn) : Exn :=
  match e with
  | HTTPException _ _ => e
  | Exception _ => HTTPException 500 (what ++ str_exn e)
  end.

(** The reference image of a paint request, as [paint_bot] looks for it:
    the image path first, then the first hit of the search query. *)
Definition paint_reference (req : PaintRequest) : M (option Image) :=
  ref_image <-
    (if truthy (paint_image_path req) then open_reference (paint_image_path req)
     else ret None) ;;
  match ref_image with
  | None =>
      if truthy (paint_search req) then
        search_result <- search_image (paint_search req) true ;;
        let found_path := default "" search_result in
        if truthy found_path then open_reference found_path else ret None
      else ret None
  | Some img => ret (Some img)
  end.

(** The request the paint stage of [assemble_bot] sends to [paint_bot]. *)
Definition auto_paint_request (req : AssembleRequest) (base_ref_image : string)
    (result : AssemblyResult) : PaintRequest :=
  {| paint_glb_path := merged_path result;
     paint_image_path := base_ref_image;
     paint_search :=
       if truthy base_ref_image then ""
       else if truthy (paint_search_query req) then paint_search_query req
       else if truthy (base_description req) then base_description req
       else "3D robot texture material";
     paint_output_name := output_name req ++ "_painted" |}.

End Assertions.

(** ** A small concrete world

    Meshes are vertex and triangle lists, files are names on a list, every
    model loads, and a few switches decide whether decimation is installed,
    what the rigging tool answers and what the image search finds.  It is the
    world the concrete runs below are evaluated in. *)

Module Sim.

#[local] Open Scope float_scope.

Record TriMesh : Type := {
  tm_vertices : list Vec3;
  tm_faces : list (nat * nat * nat);
}.

Definition fmin (a b : float) : float := if a <? b then a else b.
Definition fmax (a b : float) : float := if a <? b then b else a.
Definition vmin (a b : Vec3) : Vec3 :=
  Vec.mk (fmin (Vec.x a) (Vec.x b)) (fmin (Vec.y a) (Vec.y b)) (fmin (Vec.z a) (Vec.z b)).
Definition vmax (a b : Vec3) : Vec3 :=
  Vec.mk (fmax (Vec.x a) (Vec.x b)) (fmax (Vec.y a) (Vec.y b)) (fmax (Vec.z a) (Vec.z b)).
Definition vscale (k : float) (a : Vec3) : Vec3 :=
  Vec.mk (k * Vec.x a) (k * Vec.y a) (k * Vec.z a).

Definition tm_bounds (m : TriMesh) : option (Vec3 * Vec3) :=
  match tm_vertices m with
  | [] => None
  | v :: vs => Some (foldl vmin v vs, foldl vmax v vs)
  end.

Definition cross (a b : Vec3) : Vec3 :=
  Vec.mk (Vec.y a * Vec.z b - Vec.z a * Vec.y b)
         (Vec.z a * Vec.x b - Vec.x a * Vec.z b)
         (Vec.x a * Vec.y b - Vec.y a * Vec.x b).
Definition norm (a : Vec3) : float :=
  sqrt (Vec.x a * Vec.x a + Vec.y a * Vec.y a + Vec.z a * Vec.z a).

Definition corners (m : TriMesh) (f : nat * nat * nat) : Vec3 * Vec3 * Vec3 :=
  let at_ i := nth i (tm_vertices m) Vec.zero in
  (at_ f.1.1, at_ f.1.2, at_ f.2).

(** The average of the triangle centres, weighted by triangle area. *)
Definition tm_centroid (m : TriMesh) : Vec3 :=
  let weighted :=
    map (λ f, let '(a, b, c) := corners m f in
              let area := norm (cross (Vec.sub b a) (Vec.sub c a)) / 2 in
              (area, vscale (area / 3) (Vec.add (Vec.add a b) c)))
        (tm_faces m) in
  let total := foldl (λ acc t, acc + t.1) 0 weighted in
  let sum := foldl (λ acc t, Vec.add acc t.2) Vec.zero weighted in
  vscale (1 / total) sum.

Definition tm_concatenate (ms : list TriMesh) : Result TriMesh :=
  match ms with
  | [] => Raise (Exception "concatenate of no meshes")
  | _ =>
      Ok (foldl (λ acc m,
                   let off := length (tm_vertices acc) in
                   {| tm_vertices := app (tm_vertices acc) (tm_vertices m);
                      tm_faces := app (tm_faces acc)
                        (map (λ '(a, b, c), (off + a, off + b, off + c)%nat) (tm_faces m)) |})
                {| tm_vertices := []; tm_faces := [] |} ms)
  end.

#[export] Instance mesh_lib : MeshLib := {|
  Mesh := TriMesh;
  len_vertices m := Z.of_nat (length (tm_vertices m));
  len_faces m := Z.of_nat (length (tm_faces m));
  bounds := tm_bounds;
  centroid := tm_centroid;
  apply_scale k m :=
    {| tm_vertices := map (vscale k) (tm_vertices m); tm_faces := tm_faces m |};
  apply_translation t m :=
    {| tm_vertices := map (λ v, Vec.add v t) (tm_vertices m); tm_faces := tm_faces m |};
  concatenate := tm_concatenate;
|}.

Record SimWorld : Type := {
  files : list string;
  glbs : list (string * TriMesh);
  decimation_installed : bool;
  rig_answer : ProcOutcome;
  rig_writes_output : bool;
  search_hit : option string;
  counter : nat;
}.

Definition root : string := "/srv/battle-bots".
Definition out_dir : string := "/srv/battle-bots/public/parts/generated".

Definition has_file (p : string) (w : SimWorld) : bool := bool_decide (p ∈ files w).

Definition write (p : string) (m : option TriMesh) (w : SimWorld) : SimWorld :=
  {| files := p :: files w;
     glbs := match m with Some m => (p, m) :: glbs w | None => glbs w end;
     decimation_installed := decimation_installed w;
     rig_answer := rig_answer w;
     rig_writes_output := rig_writes_output w;
     search_hit := search_hit w;
     counter := counter w |}.

Definition tick (w : SimWorld) : SimWorld :=
  {| files := files w; glbs := glbs w;
     decimation_installed := decimation_installed w;
     rig_answer := rig_answer w;
     rig_writes_output := rig_writes_output w;
     search_hit := search_hit w;
     counter := S (counter w) |}.

Definition read (p : string) (w : SimWorld) : Result string :=
  if has_file p w then Ok p else Raise (Exception ("FileNotFoundError: " ++ p)).

(** A flat square around the origin, as two triangles. *)
Definition square : TriMesh :=
  {| tm_vertices := [Vec.mk (-1) (-1) 0; Vec.mk 1 (-1) 0; Vec.mk 1 1 0; Vec.mk (-1) 1 0];
     tm_faces := [(0, 1, 2); (0, 2, 3)]%nat |}.

(** What a generator saves: the square under a fresh name. *)
Definition generate (prefix : string) (w : SimWorld) : Result SavedMesh * SimWorld :=
  let uuid := "0000000" ++ pretty (counter w) in
  (Ok {| saved_uuid := uuid; saved_vertices := 4; saved_faces := 2; saved_elapsed := 1.5 |},
   tick (write (out_dir ++ "/" ++ prefix ++ uuid ++ ".glb") (Some square) w)).

Definition run_tool (cmd : list string) (w : SimWorld) : ProcOutcome * SimWorld :=
  (rig_answer w,
   if rig_writes_output w
   then write (String.substring 9 (String.length (nth 3 cmd "") - 9) (nth 3 cmd "")) None w
   else w).

#[export] Instance external : External := {|
  World := SimWorld;
  Pipe := ModelKind;
  Image := string;
  Bytes := string;
  TexturedMesh := TriMesh;
  Transform := JVal * list float;
  PROJECT_ROOT := root;
  path_exists := has_file;
  getsize p w := if has_file p w then Ok 1024%Z else Raise (Exception "FileNotFoundError");
  read_bytes := read;
  image_open := read;
  to_rgba := Ok;
  image_save _ p w := (Ok (), write p None w);
  trimesh_load p w :=
    match list_find (λ e, e.1 = p) (glbs w) with
    | Some (_, (_, m)) => Ok (LoadedTrimesh m)
    | None => Raise (Exception ("could not load " ++ p))
    end;
  mesh_export m p w := (Ok (), write p (Some m) w);
  scene_export _ p w := (Ok (), write p None w);
  textured_export m p w := (Ok (), write p (Some m) w);
  simplify_quadric_decimation m n w :=
    if decimation_installed w
    then Ok {| tm_vertices := tm_vertices m; tm_faces := take (Z.to_nat n) (tm_faces m) |}
    else Raise (Exception "ModuleNotFoundError: No module named fast_simplification");
  load_triposg w := (TripoLoaded TripoSG TripoSG, w);
  load_hunyuan3d_shape w := (Some Hunyuan3DShape, w);
  load_hunyuan3d_text2img w := (Some Hunyuan3DText2Img, w);
  load_hunyuan3d_paint w := (Some Hunyuan3DPaint, w);
  import_triposg_deps _ := Ok ();
  triposg_generate _ _ _ _ _ _ _ := generate "gen_";
  text2img_call _ prompt _ w := (Ok ("image of " ++ prompt), w);
  hunyuan3d_generate _ _ _ _ := generate "h3d_";
  image_search _ _ w :=
    match search_hit w with
    | Some img_id => (SearchFound img_id, write (out_dir ++ "/" ++ img_id ++ ".png") None w)
    | None => (SearchNoResults, w)
    end;
  subprocess_run cmd _ _ := run_tool cmd;
  paint_call _ m _ w := (Ok (m, 1.5), w);
  compose_matrix pos angles := Ok (pos, angles);
  np_radians v := v * (0x1.921fb54442d18p+1 / 180);
|}.

(** *** Worlds and requests for concrete runs *)

(** A base mesh filling the box (0,0,0)-(2,4,2), and a mesh of 80,000
    faces. *)
Definition box : Mesh :=
  {| tm_vertices := [Vec.mk 0 0 0; Vec.mk 2 0 0; Vec.mk 2 4 2; Vec.mk 0 4 2];
     tm_faces := [(0, 1, 2); (0, 2, 3)]%nat |}.
Definition big : Mesh :=
  {| tm_vertices := [Vec.mk 0 0 0; Vec.mk 1 0 0; Vec.mk 0 1 0];
     tm_faces := repeat (0, 1, 2)%nat 80000 |}.

Definition hat_mesh : Mesh := square.

Definition base_file : string := "/srv/battle-bots/public/parts/base.glb".
Definition hat_file : string := "/srv/battle-bots/public/parts/hat.glb".
Definition big_file : string := "/srv/battle-bots/public/parts/generated/big.glb".
Definition ref_file : string := "/srv/battle-bots/public/parts/generated/ref.png".
Definition wrapper_file : string := "/srv/battle-bots/tools/UniRig/rig_bot.py".

(** A world with those files and the UniRig environment, no decimation
    package, no search hits, and a rigging tool that answers [answer] and
    writes its output or not. *)
Definition studio (answer : ProcOutcome) (writes : bool) : SimWorld :=
  {| files := [base_file; hat_file; ref_file; unirig_python; wrapper_file];
     glbs := [(base_file, box); (hat_file, hat_mesh)];
     decimation_installed := false;
     rig_answer := answer;
     rig_writes_output := writes;
     search_hit := None;
     counter := 0 |}.

(** The same with the 80,000-face mesh on disk. *)
Definition gallery : SimWorld := write big_file (Some big) (studio TimeoutExpired false).

(** A hat for the head at twice its size, and an attachment that names
    no source at all. *)
Definition hat : AttachmentPart :=
  {| description := "hat"; search_query := ""; text_prompt := ""; image_path := "";
     glb_path := "/public/parts/hat.glb"; slot := "head"; scale := 2;
     engine := "triposg" |}.
Definition nothing : AttachmentPart :=
  {| description := "nothing"; search_query := ""; text_prompt := ""; image_path := "";
     glb_path := ""; slot := "waist"; scale := 1; engine := "triposg" |}.

Definition assemble_req (atts : list AttachmentPart) (rig : bool) : AssembleRequest :=
  {| base_description := "humanoid in T-pose"; base_search_query := "";
     base_text_prompt := ""; base_image_path := "";
     base_glb_path := "/public/parts/base.glb"; base_engine := "triposg";
     attachments := atts; output_name := "assembled_bot";
     auto_rig := rig; auto_paint := false; paint_search_query := "";
     num_inference_steps := 50; guidance_scale := 7 |}.

Definition rig_req : RigRequest :=
  {| rig_glb_path := "/parts/base.glb"; rig_output_name := "rigged_bot" |}.

Definition paint_req (glb : string) : PaintRequest :=
  {| paint_glb_path := glb;
     paint_image_path := "/parts/generated/ref.png";
     paint_search := ""; paint_output_name := "painted_bot" |}.

(** A merge part that gives its path only. *)
Definition bare_part : gmap string JVal := {[ "path" := JStr "/public/parts/hat.glb" ]}.

(** A merge part whose file is not there. *)
Definition lost_part : gmap string JVal := {[ "path" := JStr "/public/parts/lost.glb" ]}.

(** The studio with an image search that finds an image. *)
Definition searching : SimWorld :=
  {| files := [base_file; hat_file; ref_file; unirig_python; wrapper_file];
     glbs := [(base_file, box); (hat_file, hat_mesh)];
     decimation_installed := false;
     rig_answer := TimeoutExpired;
     rig_writes_output := false;
     search_hit := Some "ref_1";
     counter := 0 |}.

(** An attachment described by a prompt for the default engine. *)
Definition sword : AttachmentPart :=
  {| description := "sword"; search_query := ""; text_prompt := "a rusty sword";
     image_path := ""; glb_path := ""; slot := "right_hand"; scale := 1;
     engine := "triposg" |}.

(** Assemblies from: the base file, painted afterwards; a base prompt for
    the default engine; a base to be searched for. *)
Definition painted_req : AssembleRequest :=
  {| base_description := "humanoid in T-pose"; base_search_query := "";
     base_text_prompt := ""; base_image_path := "";
     base_glb_path := "/public/parts/base.glb"; base_engine := "triposg";
     attachments := [hat]; output_name := "assembled_bot";
     auto_rig := false; auto_paint := true; paint_search_query := "";
     num_inference_steps := 50; guidance_scale := 7 |}.
Definition prompt_only_req : AssembleRequest :=
  {| base_description := "humanoid in T-pose"; base_search_query := "";
     base_text_prompt := "a humanoid robot"; base_image_path := "";
     base_glb_path := ""; base_engine := "triposg";
     attachments := []; output_name := "assembled_bot";
     auto_rig := false; auto_paint := false; paint_search_query := "";
     num_inference_steps := 50; guidance_scale := 7 |}.
Definition searched_req : AssembleRequest :=
  {| base_description := "humanoid in T-pose"; base_search_query := "humanoid robot";
     base_text_prompt := ""; base_image_path := "";
     base_glb_path := ""; base_engine := "triposg";
     attachments := []; output_name := "assembled_bot";
     auto_rig := false; auto_paint := false; paint_search_query := "";
     num_inference_steps := 50; guidance_scale := 7 |}.

(** The gallery with the decimation package installed. *)
Definition workshop : SimWorld :=
  {| files := files gallery; glbs := glbs gallery;
     decimation_installed := true;
     rig_answer := TimeoutExpired;
     rig_writes_output := false;
     search_hit := None;
     counter := 0 |}.


End Sim.

(** ** The same world on another machine

    The files and tools of [Sim], on a machine where loading TripoSG ends
    as [tripo] says and each of the Hunyuan3D models loads or not. *)

Module Machine.

Import Sim.

Definition external (tripo : TripoLoad ModelKind) (shape text2img paint : bool) : External := {|
  World := SimWorld;
  Pipe := ModelKind;
  Image := string;
  Bytes := string;
  TexturedMesh := TriMesh;
  Transform := JVal * list float;
  PROJECT_ROOT := root;
  path_exists := has_file;
  getsize := getsize (External:=Sim.external);
  read_bytes := read;
  image_open := read;
  to_rgba := Ok;
  image_save := image_save (External:=Sim.external);
  trimesh_load := trimesh_load (External:=Sim.external);
  mesh_export := mesh_export (External:=Sim.external);
  scene_export := scene_export (External:=Sim.external);
  textured_export := textured_export (External:=Sim.external);
  simplify_quadric_decimation := simplify_quadric_decimation (External:=Sim.external);
  load_triposg w := (tripo, w);
  load_hunyuan3d_shape w := (if shape then Some Hunyuan3DShape else None, w);
  load_hunyuan3d_text2img w := (if text2img then Some Hunyuan3DText2Img else None, w);
  load_hunyuan3d_paint w := (if paint then Some Hunyuan3DPaint else None, w);
  import_triposg_deps _ := Ok ();
  triposg_generate _ _ _ _ _ _ _ := generate "gen_";
  text2img_call := text2img_call (External:=Sim.external);
  hunyuan3d_generate _ _ _ _ := generate "h3d_";
  image_search := image_search (External:=Sim.external);
  subprocess_run cmd _ _ := run_tool cmd;
  paint_call := paint_call (External:=Sim.external);
  compose_matrix pos angles := Ok (pos, angles);
  np_radians := np_radians (External:=Sim.external);
|}.

End Machine.

(** * Properties *)

#[local] Arguments pjoin : simpl never.
#[local] Arguments OUTPUT_DIR : simpl never.
#[local] Arguments UNIRIG_DIR : simpl never.
#[local] Arguments String.append : simpl never.

(** ** The slot table *)

Lemma SLOT_MAP_defined (s : PlaceSpec.SlotName) :
  SLOT_MAP !! PlaceSpec.name s = Some (PlaceSpec.fractions s).
Proof. destruct s; vm_compute; reflexivity. Qed.

Lemma SLOT_MAP_undefined (slot : string) :
  (∀ s, slot ≠ PlaceSpec.name s) → SLOT_MAP !! slot = None.
Proof.
  intros Hne. unfold SLOT_MAP.
  pose proof (Hne PlaceSpec.head). pose proof (Hne PlaceSpec.left_hand).
  pose proof (Hne PlaceSpec.right_hand). pose proof (Hne PlaceSpec.left_arm).
  pose proof (Hne PlaceSpec.right_arm). pose proof (Hne PlaceSpec.chest_front).
  pose proof (Hne PlaceSpec.chest_back). pose proof (Hne PlaceSpec.waist).
  pose proof (Hne PlaceSpec.left_leg). pose proof (Hne PlaceSpec.right_leg).
  pose proof (Hne PlaceSpec.top). pose proof (Hne PlaceSpec.bottom).
  simpl in *. by repeat (rewrite lookup_insert_ne by done).
Qed.

Example head_of_2_4_2 :
  slot_position_of_bounds (Vec.mk 0 0 0, Vec.mk 2 4 2) "head" = Vec.mk 1 4 1.
Proof. vm_compute. reflexivity. Qed.

(** ** Rules for runs *)

Section Rules.
Context {ML : MeshLib} {Ext : External}.

Lemma wp_bind {A B} (m : M A) (k : A → M B) Q R s :
  wp m (λ a s', wp (k a) Q R s') R s → wp (bind m k) Q R s.
Proof. unfold wp, bind. by destruct (m s) as [[a|e] s']. Qed.

Lemma wp_try {A} (m : M A) (h : Exn → M A) Q R s :
  wp m Q (λ s', ∀ e, wp (h e) Q R s') s → wp (try_except m h) Q R s.
Proof. unfold wp, try_except. destruct (m s) as [[a|e] s']; [done|]. intros H. apply H. Qed.

Lemma wp_ret {A} (a : A) (Q : A → Server → Prop) R s : Q a s → wp (ret a) Q R s.
Proof. done. Qed.

Lemma wp_raise {A} e (Q : A → Server → Prop) (R : Server → Prop) s :
  R s → wp (raise e) Q R s.
Proof. done. Qed.

Lemma wp_http_or_500 {A} what e (Q : A → Server → Prop) (R : Server → Prop) s :
  R s → wp (http_or_500 what e) Q R s.
Proof. by destruct e. Qed.

Lemma wp_forall {A} (m : M A) (Q : A → Server → Prop) (R : Server → Prop) s :
  (∀ a s', Q a s') → (∀ s', R s') → wp m Q R s.
Proof. unfold wp. destruct (m s) as [[a|e] s']; auto. Qed.

Lemma wp_use {A} (m : M A) P Q1 R1 (Q : A → Server → Prop) (R : Server → Prop) s :
  hoare P m Q1 R1 → P s → (∀ a s', Q1 a s' → Q a s') → (∀ s', R1 s' → R s') →
  wp m Q R s.
Proof.
  unfold hoare, wp. intros Hm HP HQ HR. specialize (Hm s HP).
  destruct (m s) as [[a|e] s']; auto.
Qed.

Lemma wp_quiet {A} (m : M A) I (Q : A → Server → Prop) (R : Server → Prop) s :
  quiet m → stable I → I s → (∀ a s', I s' → Q a s') → (∀ s', I s' → R s') →
  wp m Q R s.
Proof.
  unfold quiet, wp. intros Hm HI Hs HQ HR. destruct (Hm s) as [Hg Ht].
  destruct (m s) as [[a|e] s']; simpl in *; eauto.
Qed.

Lemma wp_ask_r {A} (f : World → Result A) (Q : A → Server → Prop) (R : Server → Prop) s :
  (∀ a, f (world s) = Ok a → Q a s) → (∀ e, f (world s) = Raise e → R s) →
  wp (ask_r f) Q R s.
Proof. unfold wp, ask_r. destruct (f (world s)); eauto. Qed.

Lemma wp_lift {A} (r : Result A) (Q : A → Server → Prop) (R : Server → Prop) s :
  (∀ a, r = Ok a → Q a s) → (∀ e, r = Raise e → R s) → wp (lift r) Q R s.
Proof. unfold wp, lift. destruct r; eauto. Qed.

Lemma hoare_snd {A} (m : M A) (I : Server → Prop) s :
  hoare I m (λ _, I) I → I s → I (m s).2.
Proof. intros Hm Hs. specialize (Hm s Hs). unfold wp in Hm. by destruct (m s) as [[?|?] ?]. Qed.

(** *** Equations between runs *)

Lemma bind_ext {A B} (m m' : M A) (k k' : A → M B) s :
  m s = m' s → (∀ a s', k a s' = k' a s') → bind m k s = bind m' k' s.
Proof. intros Hm Hk. unfold bind. rewrite Hm. destruct (m' s) as [[a|e] s']; auto. Qed.

Lemma run_eq {A B} (p : A * B) (a : A) : p.1 = a → p = (a, p.2).
Proof. destruct p. by intros <-. Qed.

Lemma bind_ok {A B} (m : M A) (k : A → M B) s b s' :
  bind m k s = (Ok b, s') → ∃ a s1, m s = (Ok a, s1) ∧ k a s1 = (Ok b, s').
Proof. unfold bind. destruct (m s) as [[a|e] s1]; [eauto|done]. Qed.

Lemma resolve_public_run web_path s :
  resolve_public web_path s = (Ok (disk_path web_path (world s)), s).
Proof. done. Qed.

(** *** Quiet computations *)

Lemma quiet_ret {A} (a : A) : quiet (ret a).
Proof. done. Qed.
Lemma quiet_raise {A} e : quiet (raise (A:=A) e).
Proof. done. Qed.
Lemma quiet_lift {A} (r : Result A) : quiet (lift r).
Proof. done. Qed.
Lemma quiet_ask {A} (f : World → A) : quiet (ask f).
Proof. done. Qed.
Lemma quiet_ask_r {A} (f : World → Result A) : quiet (ask_r f).
Proof. done. Qed.
Lemma quiet_ext {A} (f : World → A * World) : quiet (ext f).
Proof. intros s. unfold ext. by destruct (f (world s)). Qed.
Lemma quiet_ext_r {A} (f : World → Result A * World) : quiet (ext_r f).
Proof. intros s. unfold ext_r. by destruct (f (world s)). Qed.
Lemma quiet_http_or_500 {A} what e : quiet (http_or_500 (A:=A) what e).
Proof. by destruct e. Qed.

Lemma quiet_bind {A B} (m : M A) (k : A → M B) :
  quiet m → (∀ a, quiet (k a)) → quiet (bind m k).
Proof.
  intros Hm Hk s. unfold bind. destruct (Hm s) as [Hg Ht].
  destruct (m s) as [[a|e] s']; simpl in *; [|done].
  destruct (Hk a s') as [Hg' Ht']. split; congruence.
Qed.

Lemma quiet_try {A} (m : M A) (h : Exn → M A) :
  quiet m → (∀ e, quiet (h e)) → quiet (try_except m h).
Proof.
  intros Hm Hh s. unfold try_except. destruct (Hm s) as [Hg Ht].
  destruct (m s) as [[a|e] s']; simpl in *; [done|].
  destruct (Hh e s') as [Hg' Ht']. split; congruence.
Qed.

End Rules.

Create HintDb quiet.
#[local] Hint Resolve quiet_ret quiet_raise quiet_lift quiet_ask quiet_ask_r quiet_ext
  quiet_ext_r quiet_http_or_500 : quiet.

(** Walk a computation built from quiet pieces. *)
Ltac quiet_walk :=
  repeat first
    [ solve [eauto with quiet]
    | lazymatch goal with
      | |- ∀ _, _ => intro
      | |- quiet (bind _ _) => apply quiet_bind
      | |- quiet (try_except _ _) => apply quiet_try
      | |- quiet (match ?x with _ => _ end) => destruct x
      end ].

Section Quiet.
Context {ML : MeshLib} {Ext : External}.

Lemma quiet_search_image query remove_bg : quiet (search_image query remove_bg).
Proof. unfold search_image. quiet_walk. Qed.

Lemma quiet_resolve_public web_path : quiet (resolve_public web_path).
Proof. unfold resolve_public. quiet_walk. Qed.

Hint Resolve quiet_search_image quiet_resolve_public : quiet.

Lemma quiet_open_reference web_path : quiet (open_reference web_path).
Proof. unfold open_reference. quiet_walk. Qed.

Lemma quiet_find_image image_path search_query : quiet (find_image image_path search_query).
Proof. unfold find_image. quiet_walk. Qed.

Lemma quiet_decimate_for_paint mesh : quiet (decimate_for_paint mesh).
Proof. unfold decimate_for_paint. quiet_walk. Qed.

Lemma quiet_merge_part i part combined : quiet (merge_part i part combined).
Proof. unfold merge_part. quiet_walk. Qed.

Hint Resolve quiet_merge_part : quiet.

Lemma quiet_merge_loop ps : ∀ i combined, quiet (merge_loop i ps combined).
Proof. induction ps as [|part ps IH]; simpl; quiet_walk. Qed.

Hint Resolve quiet_merge_loop : quiet.

Lemma quiet_merge_parts req : quiet (merge_parts req).
Proof. unfold merge_parts. quiet_walk. Qed.

End Quiet.

#[local] Hint Resolve quiet_search_image quiet_resolve_public quiet_open_reference
  quiet_find_image quiet_decimate_for_paint quiet_merge_parts : quiet.

(** ** Residency *)

Create HintDb stable.

(** One quiet step under whatever invariant is known of the current state. *)
Ltac wp_quiet_step :=
  match goal with
  | H : ?I ?s |- wp _ _ _ ?s =>
      eapply (wp_quiet _ I);
      [ solve [quiet_walk] | solve [eauto with stable] | exact H
      | intros ? ? ? | intros ? ? ]
  end.

(** Use a proved triple for the computation at hand. *)
Ltac wp_call lem close :=
  lazymatch goal with
  | |- wp _ _ _ _ =>
      eapply wp_use;
      [ apply lem | solve [close] | cbv beta; intros ? ? ? | cbv beta; intros ? ? ]
  end.

(** Walk a computation: [hook] treats the calls that are not quiet,
    [close] proves what is left at a return or a raise. *)
Ltac wp_walk hook close :=
  repeat first
    [ lazymatch goal with
      | |- ∀ _, _ => intro
      | |- wp (ret _) _ _ _ => apply wp_ret; cbv beta
      | |- wp (raise _) _ _ _ => apply wp_raise; cbv beta
      | |- wp (http_or_500 _ _) _ _ _ => apply wp_http_or_500; cbv beta
      end
    | hook
    | wp_quiet_step
    | lazymatch goal with
      | |- wp (bind _ _) _ _ _ => apply wp_bind
      | |- wp (try_except _ _) _ _ _ => apply wp_try
      | |- wp (match ?x with _ => _ end) _ _ _ => destruct x
      end
    | solve [close] ].

Section Loaders.
Context {ML : MeshLib} {Ext : External}.

Lemma inv_stable a b c : stable (inv a b c).
Proof. intros s s' Hg Ht. unfold inv, loads_ok. by rewrite Hg, Ht. Qed.

Lemma inv_weaken (a b c a' b' c' : bool) s :
  inv a b c s → (a' → a) → (b' → b) → (c' → c) → inv a' b' c' s.
Proof. unfold inv. intros (Hl & Ha & Hb & Hc) ? ? ?. repeat split; intros; intuition. Qed.

Lemma inv_intro (a b c : bool) s :
  loads_ok s →
  (a → triposg_pipe (globals s) = None) →
  (b → hunyuan3d_pipe (globals s) = None ∧ hunyuan3d_text2img (globals s) = None) →
  (c → hunyuan3d_paint (globals s) = None) →
  inv a b c s.
Proof. by unfold inv. Qed.

Lemma loads_ok_snoc s g w ev :
  loads_ok s → event_ok ev →
  loads_ok {| globals := g; world := w; trace := trace s ++ [ev] |}.
Proof. unfold loads_ok; simpl. intros. apply Forall_app; auto. Qed.

Lemma get_triposg_models_inv a b :
  hoare (inv a b true) get_triposg_models (λ _, inv false b true) (inv false b true).
Proof.
  intros s (Hl & _ & Hg & Hp).
  unfold wp, get_triposg_models, bind, get_globals, ext, set_globals, emit, ret; simpl.
  destruct (triposg_pipe (globals s)); simpl; [by apply inv_intro|].
  destruct (load_triposg (world s)) as [[pipe rmbg| |[rm|]] w]; simpl;
    apply inv_intro; simpl; try done.
  apply loads_ok_snoc; [done|]. simpl. unfold resident; simpl.
  rewrite (Hp I). by intros [? ?].
Qed.

Lemma unload_triposg_inv a b c :
  hoare (inv a b c) unload_triposg (λ _, inv true b c) (inv true b c).
Proof.
  intros s (Hl & _ & Hg & Hp).
  unfold wp, unload_triposg, bind, get_globals, set_globals, ret; simpl.
  case_bool_decide as Hd; simpl; apply inv_intro; simpl; try done.
  intros _. destruct (triposg_pipe (globals s)); [|done]. destruct Hd. by left.
Qed.

Lemma get_hunyuan3d_model_inv b :
  hoare (inv true b true) get_hunyuan3d_model
        (λ _, inv true false true) (inv true false true).
Proof.
  intros s (Hl & Ht & _ & Hp).
  unfold wp, get_hunyuan3d_model, bind, get_globals, ext, set_globals, emit, ret; simpl.
  destruct (hunyuan3d_pipe (globals s)); simpl; [by apply inv_intro|].
  destruct (load_hunyuan3d_shape (world s)) as [[pipe|] w]; simpl;
    apply inv_intro; simpl; try done.
  apply loads_ok_snoc; [done|]. simpl. unfold resident; simpl.
  rewrite (Hp I), (Ht I). split; by intros [? ?].
Qed.

Lemma get_hunyuan3d_text2img_inv b :
  hoare (inv true b true) get_hunyuan3d_text2img
        (λ _, inv true false true) (inv true false true).
Proof.
  intros s (Hl & Ht & _ & Hp).
  unfold wp, get_hunyuan3d_text2img, bind, get_globals, ext, set_globals, emit, ret; simpl.
  destruct (hunyuan3d_text2img (globals s)); simpl; [by apply inv_intro|].
  destruct (load_hunyuan3d_text2img (world s)) as [[pipe|] w]; simpl;
    apply inv_intro; simpl; try done.
  apply loads_ok_snoc; [done|]. simpl. unfold resident; simpl.
  rewrite (Hp I), (Ht I). split; by intros [? ?].
Qed.

Lemma not_is_Some_None {A} (o : option A) : ¬ is_Some o → o = None.
Proof. destruct o; [intros []; eauto|done]. Qed.

Lemma unload_hunyuan3d_inv a b c :
  hoare (inv a b c) unload_hunyuan3d (λ _, inv a true c) (inv a true c).
Proof.
  intros s (Hl & Ht & _ & Hp).
  unfold wp, unload_hunyuan3d, bind, get_globals, set_globals, ret; simpl.
  repeat (case_bool_decide; simpl); apply inv_intro; simpl; try done;
    intros _; split; by try apply not_is_Some_None.
Qed.

Lemma get_hunyuan3d_paint_inv c :
  hoare (inv true true c) get_hunyuan3d_paint
        (λ _, inv true true false) (inv true true false).
Proof.
  intros s (Hl & Ht & Hg & _). destruct (Hg I) as [Hg1 Hg2].
  unfold wp, get_hunyuan3d_paint, bind, get_globals, ext, set_globals, emit, ret; simpl.
  destruct (hunyuan3d_paint (globals s)); simpl; [by apply inv_intro|].
  destruct (load_hunyuan3d_paint (world s)) as [[pipe|] w]; simpl;
    apply inv_intro; simpl; try done.
  apply loads_ok_snoc; [done|]. simpl. unfold resident.
  intros [] [? Hk]; simpl in Hk; try done; rewrite ?(Ht I), ?Hg1, ?Hg2 in Hk; done.
Qed.

Lemma unload_hunyuan3d_paint_inv a b c :
  hoare (inv a b c) unload_hunyuan3d_paint (λ _, inv a b true) (inv a b true).
Proof.
  intros s (Hl & Ht & Hg & _).
  unfold wp, unload_hunyuan3d_paint, bind, get_globals, set_globals, ret; simpl.
  case_bool_decide as Hd; simpl; apply inv_intro; simpl; try done.
  intros _. by apply not_is_Some_None.
Qed.


Lemma emit_inv a b c ev :
  event_ok ev → hoare (inv a b c) (emit ev) (λ _, inv a b c) (inv a b c).
Proof. intros Hev s (Hl & Ht & Hg & Hp). apply inv_intro; simpl; try done. by apply loads_ok_snoc. Qed.

End Loaders.

#[local] Hint Resolve inv_stable : stable.

Ltac inv_close :=
  first [ eassumption | eapply inv_weaken; [eassumption | simpl; tauto ..] | exact I ].

Ltac inv_hook :=
  first
    [ wp_call get_triposg_models_inv inv_close
    | wp_call unload_triposg_inv inv_close
    | wp_call get_hunyuan3d_model_inv inv_close
    | wp_call get_hunyuan3d_text2img_inv inv_close
    | wp_call unload_hunyuan3d_inv inv_close
    | wp_call get_hunyuan3d_paint_inv inv_close
    | wp_call unload_hunyuan3d_paint_inv inv_close
    | wp_call emit_inv inv_close ].

Section Requests.
Context {ML : MeshLib} {Ext : External}.

Abbreviation Inv := (inv false false true).

Lemma generate_3d_inv file steps guidance seed cap :
  hoare Inv (generate_3d file steps guidance seed cap) (λ _, Inv) Inv.
Proof. intros s Hs. unfold generate_3d. wp_walk inv_hook inv_close. Qed.

Lemma _generate_from_bytes_inv data steps guidance :
  hoare Inv (_generate_from_bytes data steps guidance) (λ _, Inv) Inv.
Proof. intros s Hs. unfold _generate_from_bytes. wp_walk inv_hook inv_close. Qed.

Lemma _generate_hunyuan3d_inv prompt image seed cap :
  hoare (inv true false true) (_generate_hunyuan3d prompt image seed cap)
        (λ _, inv true false true) (inv true false true).
Proof. intros s Hs. unfold _generate_hunyuan3d. wp_walk inv_hook inv_close. Qed.

Lemma generate_text_3d_inv prompt seed cap :
  hoare Inv (generate_text_3d prompt seed cap) (λ _, Inv) Inv.
Proof.
  intros s Hs. unfold generate_text_3d.
  wp_walk ltac:(first [inv_hook | wp_call _generate_hunyuan3d_inv inv_close]) inv_close.
Qed.

Lemma rig_bot_inv req : hoare Inv (rig_bot req) (λ _, Inv) Inv.
Proof. intros s Hs. unfold rig_bot. wp_walk inv_hook inv_close. Qed.

Lemma paint_bot_inv req : hoare Inv (paint_bot req) (λ _, Inv) Inv.
Proof. intros s Hs. unfold paint_bot. wp_walk inv_hook inv_close. Qed.

Lemma generate_from_image_inv req eng image_path :
  hoare Inv (generate_from_image req eng image_path) (λ _, Inv) Inv.
Proof.
  intros s Hs. unfold generate_from_image.
  wp_walk ltac:(first [ inv_hook
                      | wp_call _generate_hunyuan3d_inv inv_close
                      | wp_call _generate_from_bytes_inv inv_close ]) inv_close.
Qed.

Lemma resolve_base_inv req : hoare Inv (resolve_base req) (λ _, Inv) Inv.
Proof.
  intros s Hs. unfold resolve_base.
  wp_walk ltac:(first [ inv_hook
                      | wp_call _generate_hunyuan3d_inv inv_close
                      | wp_call generate_from_image_inv inv_close ]) inv_close.
Qed.

Lemma resolve_attachment_inv req att : hoare Inv (resolve_attachment req att) (λ _, Inv) Inv.
Proof.
  intros s Hs. unfold resolve_attachment.
  wp_walk ltac:(first [ inv_hook
                      | wp_call _generate_hunyuan3d_inv inv_close
                      | wp_call generate_from_image_inv inv_close ]) inv_close.
Qed.

Lemma attachments_loop_inv req base_mesh atts :
  ∀ acc, hoare Inv (attachments_loop req base_mesh atts acc) (λ _, Inv) Inv.
Proof.
  induction atts as [|att rest IH]; intros acc s Hs; simpl.
  - by apply wp_ret.
  - wp_walk ltac:(first [ wp_call resolve_attachment_inv inv_close
                        | wp_call IH inv_close ]) inv_close.
Qed.

Lemma merge_stage_inv req meshes generated :
  hoare Inv (merge_stage req meshes generated) (λ _, Inv) Inv.
Proof. intros s Hs. unfold merge_stage. wp_walk inv_hook inv_close. Qed.

Lemma rig_stage_inv req result : hoare Inv (rig_stage req result) (λ _, Inv) Inv.
Proof.
  intros s Hs. unfold rig_stage.
  wp_walk ltac:(first [wp_call rig_bot_inv inv_close]) inv_close.
Qed.

Lemma paint_stage_inv req ref result :
  hoare Inv (paint_stage req ref result) (λ _, Inv) Inv.
Proof.
  intros s Hs. unfold paint_stage.
  wp_walk ltac:(first [wp_call paint_bot_inv inv_close]) inv_close.
Qed.

Lemma assemble_bot_inv req : hoare Inv (assemble_bot req) (λ _, Inv) Inv.
Proof.
  intros s Hs. unfold assemble_bot, assemble_body, assemble_parts.
  wp_walk ltac:(first [ wp_call resolve_base_inv inv_close
                      | wp_call attachments_loop_inv inv_close
                      | wp_call merge_stage_inv inv_close
                      | wp_call rig_stage_inv inv_close
                      | wp_call paint_stage_inv inv_close ]) inv_close.
Qed.

Lemma serve_inv r s : Inv s → Inv (serve r s).
Proof.
  intros Hs. destruct r; simpl; apply hoare_snd; try done.
  - apply generate_3d_inv.
  - apply generate_text_3d_inv.
  - intros s' Hs'. cbv beta in *. wp_walk fail inv_close.
  - intros s' Hs'. cbv beta in *. wp_walk fail inv_close.
  - apply assemble_bot_inv.
  - apply rig_bot_inv.
  - apply paint_bot_inv.
Qed.

Lemma serve_all_inv rs : ∀ s, Inv s → Inv (serve_all rs s).
Proof. induction rs as [|r rs IH]; simpl; [done|]. intros s Hs. by apply IH, serve_inv. Qed.

Lemma boot_inv w : Inv (boot w).
Proof. apply inv_intro; simpl; try done. constructor. Qed.

(** C1 (as amended): whatever requests the server has answered since
    start-up, Hunyuan3D-Paint is not resident between requests, and every
    load that happened left beside the loaded model only what the call
    sites allow: nothing beside Paint, neither TripoSG nor Paint beside a
    Hunyuan3D shape or text-to-image model, no Paint beside TripoSG. *)
Theorem residency_exclusive_where_enforced (w : World) (rs : list Request) :
  let s := serve_all rs (boot w) in
  ¬ resident Hunyuan3DPaint (globals s)
  ∧ ∀ k after, EvLoad k after ∈ trace s → load_ok k after.
Proof.
  intros s. destruct (serve_all_inv rs (boot w) (boot_inv w)) as (Hl & _ & _ & Hp).
  fold s in Hl, Hp. split.
  - unfold resident; simpl. rewrite (Hp I). by intros [? ?].
  - intros k after Hin. unfold loads_ok in Hl. rewrite Forall_forall in Hl.
    apply (Hl _ Hin).
Qed.

End Requests.

(** ** Loaders and slot placement *)

Section Direct.
Context {ML : MeshLib} {Ext : External}.

(** C9: a loader called while its model is resident returns the handle
    it finds and leaves the server as it is: handles, world and trace
    (so no load happened). *)
Theorem acquire_idempotent (k : ModelKind) (s : Server) (pipe : Pipe) :
  handle k (globals s) = Some pipe → acquire k s = (Ok (Some pipe), s).
Proof.
  destruct k; simpl; intros Hk;
    unfold get_triposg_models, get_hunyuan3d_model, get_hunyuan3d_text2img,
      get_hunyuan3d_paint, bind, get_globals; simpl; by rewrite Hk.
Qed.

Lemma get_triposg_models_resident (s : Server) (pipe : Pipe) :
  triposg_pipe (globals s) = Some pipe →
  get_triposg_models s = (Ok (Some pipe, rmbg_net (globals s)), s).
Proof. intros Hk. unfold get_triposg_models, bind, get_globals; simpl. by rewrite Hk. Qed.

Lemma acquire_leaves_resident (k : ModelKind) (s s1 : Server) (pipe : Pipe) :
  acquire k s = (Ok (Some pipe), s1) → handle k (globals s1) = Some pipe.
Proof.
  destruct k; simpl;
    unfold get_triposg_models, get_hunyuan3d_model, get_hunyuan3d_text2img,
      get_hunyuan3d_paint, bind, get_globals, ext, set_globals, emit, ret; simpl.
  - destruct (triposg_pipe (globals s)) eqn:E; simpl; [congruence|].
    destruct (load_triposg (world s)) as [[p r| |[r|]] w]; simpl; intros [= <- <-]; done.
  - destruct (hunyuan3d_pipe (globals s)) eqn:E; simpl; [congruence|].
    destruct (load_hunyuan3d_shape (world s)) as [[p|] w]; simpl; intros [= <- <-]; done.
  - destruct (hunyuan3d_text2img (globals s)) eqn:E; simpl; [congruence|].
    destruct (load_hunyuan3d_text2img (world s)) as [[p|] w]; simpl; intros [= <- <-]; done.
  - destruct (hunyuan3d_paint (globals s)) eqn:E; simpl; [congruence|].
    destruct (load_hunyuan3d_paint (world s)) as [[p|] w]; simpl; intros [= <- <-]; done.
Qed.

Lemma slot_position_defined (b : Vec3 * Vec3) (sl : PlaceSpec.SlotName) :
  slot_position_of_bounds b (PlaceSpec.name sl) = PlaceSpec.place b sl.
Proof.
  unfold slot_position_of_bounds, PlaceSpec.place. destruct b as [bb_min bb_max].
  rewrite decide_True by (rewrite SLOT_MAP_defined; eauto).
  by rewrite SLOT_MAP_defined.
Qed.

Lemma slot_position_undefined (b : Vec3 * Vec3) (slot : string) :
  (∀ sl, slot ≠ PlaceSpec.name sl) →
  slot_position_of_bounds b slot = slot_position_of_bounds b "top".
Proof.
  intros Hne. unfold slot_position_of_bounds. destruct b as [bb_min bb_max].
  rewrite (decide_False (P:=is_Some (SLOT_MAP !! slot)))
    by (rewrite SLOT_MAP_undefined by done; by intros [? ?]).
  change "top" with (PlaceSpec.name PlaceSpec.top).
  rewrite decide_True by (rewrite SLOT_MAP_defined; eauto). done.
Qed.

(** C2: on a mesh with bounding box [(min, max)], [get_slot_position]
    returns [min + (max - min) * fractions] (float64, componentwise) for
    each of the twelve slots, answers any other name as it answers
    ["top"], and puts ["head"] of the box (0,0,0)-(2,4,2) at (1,4,1). *)
Theorem get_slot_position_places (base_mesh : Mesh) (b : Vec3 * Vec3) :
  bounds base_mesh = Some b →
  (∀ sl, get_slot_position base_mesh (PlaceSpec.name sl) = Ok (PlaceSpec.place b sl))
  ∧ (∀ slot, (∀ sl, slot ≠ PlaceSpec.name sl) →
       get_slot_position base_mesh slot = Ok (PlaceSpec.place b PlaceSpec.top))
  ∧ (b = (Vec.mk 0 0 0, Vec.mk 2 4 2) →
       get_slot_position base_mesh "head" = Ok (Vec.mk 1 4 1)).
Proof.
  intros Hb. unfold get_slot_position. rewrite Hb. split_and!.
  - intros sl. by rewrite slot_position_defined.
  - intros slot Hne. rewrite slot_position_undefined by done.
    change "top" with (PlaceSpec.name PlaceSpec.top). by rewrite slot_position_defined.
  - intros ->. f_equal.
Qed.


End Direct.

(** ** Merge *)

Section Stages.
Context {ML : MeshLib} {Ext : External}.






End Stages.

(** ** Rig *)

Section Rig.
Context {ML : MeshLib} {Ext : External}.

Lemma unload_triposg_world s :
  ∃ g, unload_triposg s = (Ok (), {| globals := g; world := world s; trace := trace s |}).
Proof.
  unfold unload_triposg, bind, get_globals, set_globals, ret; simpl.
  case_bool_decide; eauto. destruct s; eauto.
Qed.

(** C8: once the input and the UniRig environment are found, the tool
    is run with [timeout=300]; its expiry makes the call fail with a 504,
    a non-zero exit code with a 500 carrying the tail of stderr, and
    with exit code 0 the answer has a rigged path exactly when the
    declared output file exists afterwards. *)
Theorem rig_bot_tool_outcome (req : RigRequest) (s : Server) :
  let glb := disk_path (rig_glb_path req) (world s) in
  let output_glb := OUTPUT_DIR // (rig_output_name req ++ ".glb") in
  let cmd := [unirig_python; UNIRIG_DIR // "rig_bot.py";
              "--input=" ++ glb; "--output=" ++ output_glb] in
  path_exists glb (world s) = true →
  path_exists unirig_python (world s) = true →
  path_exists (UNIRIG_DIR // "rig_bot.py") (world s) = true →
  match subprocess_run cmd UNIRIG_DIR 300 (world s) with
  | (TimeoutExpired, _) =>
      (rig_bot req s).1 = Raise (HTTPException 504 "Rigging timed out (300s limit)")
  | (RunFailed e, _) => ∃ e', (rig_bot req s).1 = Raise e'
  | (Completed returncode _ stderr, w') =>
      if bool_decide (returncode = 0%Z) then
        if path_exists output_glb w' then
          match getsize output_glb w' with
          | Ok size =>
              ∃ resp, (rig_bot req s).1 = Ok resp
                ∧ rigged_path resp
                  = Some ("/parts/generated/" ++ rig_output_name req ++ ".glb")
                ∧ rig_file_size resp = Some size
          | Raise _ => ∃ e', (rig_bot req s).1 = Raise e'
          end
        else ∃ resp, (rig_bot req s).1 = Ok resp ∧ rigged_path resp = None
      else
        (rig_bot req s).1
        = Raise (HTTPException 500
                   ("UniRig rigging failed: " ++
                    (if truthy stderr then str_tail 500 stderr else "unknown error")))
  end.
Proof.
  intros glb output_glb cmd Hglb Henv Hwrap.
  assert (rig_bot req s
          = let '(result, w') := subprocess_run cmd UNIRIG_DIR 300 (world s) in
            let s' := {| globals := globals (unload_triposg s).2; world := w';
                         trace := trace s |} in
            match result with
            | TimeoutExpired =>
                (Raise (HTTPException 504 "Rigging timed out (300s limit)"), s')
            | RunFailed e => http_or_500 "Rigging failed: " e s'
            | Completed returncode _ stderr =>
                if bool_decide (returncode ≠ 0%Z) then
                  (Raise (HTTPException 500
                     ("UniRig rigging failed: " ++
                      (if truthy stderr then str_tail 500 stderr else "unknown error"))), s')
                else if path_exists output_glb w' then
                  match getsize output_glb w' with
                  | Ok size =>
                      (Ok {| glb_input := rig_glb_path req;
                             rig_response_name := rig_output_name req;
                             rigged_path :=
                               Some ("/parts/generated/" ++ rig_output_name req ++ ".glb");
                             rig_file_size := Some size; rig_message := None |}, s')
                  | Raise e => http_or_500 "Rigging failed: " e s'
                  end
                else
                  (Ok {| glb_input := rig_glb_path req;
                         rig_response_name := rig_output_name req;
                         rigged_path := None; rig_file_size := None;
                         rig_message :=
                           Some "UniRig completed but output GLB not generated" |}, s')
            end) as ->.
  { unfold rig_bot. unfold bind at 1. rewrite resolve_public_run. fold glb.
    unfold bind at 1, ask at 1. rewrite Hglb; simpl.
    unfold bind at 1. destruct (unload_triposg_world s) as [g ->].
    unfold try_except, bind, ask, ask_r, ext, raise, ret; simpl.
    rewrite Henv; simpl. rewrite Hwrap; simpl. fold output_glb. fold cmd.
    destruct (subprocess_run cmd UNIRIG_DIR 300 (world s)) as [[rc out err| |e] w'];
      simpl; [|done..].
    case_bool_decide; simpl; [done|].
    destruct (path_exists output_glb w'); simpl; [|done].
    by destruct (getsize output_glb w'). }
  destruct (subprocess_run cmd UNIRIG_DIR 300 (world s)) as [[rc out err| |e] w']; simpl.
  - destruct (decide (rc = 0%Z)) as [->|Hrc].
    + rewrite (bool_decide_true (0 = 0)%Z) by done.
      rewrite (bool_decide_false (0 ≠ 0)%Z) by (intros Hn; by apply Hn).
      destruct (path_exists output_glb w'); simpl; [|by eauto].
      destruct (getsize output_glb w') as [size|e]; simpl; [by eauto|].
      destruct e; simpl; eauto.
    + rewrite (bool_decide_false (rc = 0%Z)), (bool_decide_true (rc ≠ 0%Z)) by done.
      done.
  - done.
  - destruct e; simpl; eauto.
Qed.

End Rig.

(** ** Assemble *)

Section Assemble.
Context {ML : MeshLib} {Ext : External}.

(** What steps 1 to 3 hand to the optional stages. *)
Lemma merge_stage_result req meshes generated s result s' :
  merge_stage req meshes generated s = (Ok result, s') →
  merged_path result = "/parts/generated/" ++ output_name req ++ ".glb"
  ∧ parts_generated result = generated
  ∧ rigged result = None ∧ rig_error result = None
  ∧ painted result = None ∧ paint_error result = None.
Proof.
  unfold merge_stage. intros H.
  repeat (apply bind_ok in H as (? & ? & _ & H)).
  by injection H as <- _.
Qed.

Lemma assemble_parts_result req s ref result s' :
  assemble_parts req s = (Ok (ref, result), s') →
  merged_path result = "/parts/generated/" ++ output_name req ++ ".glb"
  ∧ rigged result = None ∧ rig_error result = None
  ∧ painted result = None ∧ paint_error result = None.
Proof.
  unfold assemble_parts. intros H.
  apply bind_ok in H as ([[base_path base_ref] gen0] & ? & _ & H).
  do 3 (apply bind_ok in H as (? & ? & _ & H)).
  apply bind_ok in H as ([meshes gen] & ? & _ & H).
  apply bind_ok in H as (r & ? & Hm & H).
  injection H as _ <- _. apply merge_stage_result in Hm. tauto.
Qed.

(** The paint stage never raises, and leaves the rig fields alone. *)
Lemma paint_stage_total req ref result s :
  painted result = None →
  ∃ final s', paint_stage req ref result s = (Ok final, s')
    ∧ rigged final = rigged result ∧ rig_error final = rig_error result
    ∧ match painted final with
      | Some p => merged_path final = painted_path p
      | None => merged_path final = merged_path result
      end
    ∧ (auto_paint req = false → final = result).
Proof.
  intros Hnone. unfold paint_stage. destruct (auto_paint req).
  - unfold try_except, bind, ret.
    match goal with |- context [paint_bot ?r s] => destruct (paint_bot r s) as [[p|e] s'] end.
    + eexists _, _. split; [done|]. by simpl.
    + eexists _, _. split; [done|]. simpl. by rewrite Hnone.
  - eexists _, _. split; [done|]. by rewrite Hnone.
Qed.

Lemma rig_bot_without_output (req : RigRequest) (s : Server) (out err : string) (w' : World) :
  let glb := disk_path (rig_glb_path req) (world s) in
  let output_glb := OUTPUT_DIR // (rig_output_name req ++ ".glb") in
  let cmd := [unirig_python; UNIRIG_DIR // "rig_bot.py";
              "--input=" ++ glb; "--output=" ++ output_glb] in
  path_exists glb (world s) = true →
  path_exists unirig_python (world s) = true →
  path_exists (UNIRIG_DIR // "rig_bot.py") (world s) = true →
  subprocess_run cmd UNIRIG_DIR 300 (world s) = (Completed 0 out err, w') →
  path_exists output_glb w' = false →
  ∃ s2,
    rig_bot req s
    = (Ok {| glb_input := rig_glb_path req; rig_response_name := rig_output_name req;
             rigged_path := None; rig_file_size := None;
             rig_message := Some "UniRig completed but output GLB not generated" |}, s2).
Proof.
  intros glb output_glb cmd Hglb Henv Hwrap Hrun Hout.
  unfold rig_bot. unfold bind at 1. rewrite resolve_public_run. fold glb.
  unfold bind at 1, ask at 1. rewrite Hglb; simpl.
  unfold bind at 1. destruct (unload_triposg_world s) as [g ->].
  unfold try_except, bind, ask, ask_r, ext, raise, ret; simpl.
  rewrite Henv; simpl. rewrite Hwrap; simpl. fold output_glb. fold cmd.
  rewrite Hrun; simpl.
  rewrite Hout. eauto.
Qed.

(** C6 (as amended): when the rig stage raises, whatever the error, the
    assembly still answers normally; the error text is under
    ["rig_error"], there is no ["rigged"] entry, and ["merged_path"] is
    the un-rigged merged mesh, or its painted copy when the paint stage
    that follows succeeds.  When [rig_bot] answers, the answer goes under
    ["rigged"] and there is no ["rig_error"]; that is what happens when
    the tool exits with 0 and its output file is not there: the entry
    under ["rigged"] has a null path and a message. *)
Theorem rig_error_is_recorded (req : AssembleRequest) (s s1 : Server)
    (ref : string) (result : AssemblyResult) :
  auto_rig req = true →
  assemble_parts req s = (Ok (ref, result), s1) →
  let rig_req := {| rig_glb_path := "/parts/generated/" ++ output_name req ++ ".glb";
                    rig_output_name := output_name req ++ "_rigged" |} in
  (∀ e s2, rig_bot rig_req s1 = (Raise e, s2) →
     ∃ final s3,
       assemble_bot req s = (Ok final, s3)
       ∧ rig_error final = Some (str_exn e)
       ∧ rigged final = None
       ∧ match painted final with
         | Some p => merged_path final = painted_path p
         | None => merged_path final = "/parts/generated/" ++ output_name req ++ ".glb"
         end
       ∧ (auto_paint req = false → final = with_rig_error (str_exn e) result))
  ∧ (∀ answer s2, rig_bot rig_req s1 = (Ok answer, s2) →
       ∃ final s3,
         assemble_bot req s = (Ok final, s3)
         ∧ rigged final = Some answer
         ∧ rig_error final = None
         ∧ (auto_paint req = false → final = with_rigged answer result))
  ∧ (∀ out err w',
       let glb := disk_path (rig_glb_path rig_req) (world s1) in
       let output_glb := OUTPUT_DIR // (rig_output_name rig_req ++ ".glb") in
       path_exists glb (world s1) = true →
       path_exists unirig_python (world s1) = true →
       path_exists (UNIRIG_DIR // "rig_bot.py") (world s1) = true →
       subprocess_run [unirig_python; UNIRIG_DIR // "rig_bot.py";
                       "--input=" ++ glb; "--output=" ++ output_glb]
         UNIRIG_DIR 300 (world s1) = (Completed 0 out err, w') →
       path_exists output_glb w' = false →
       ∃ final s3,
         assemble_bot req s = (Ok final, s3)
         ∧ rigged final
           = Some {| glb_input := rig_glb_path rig_req;
                     rig_response_name := rig_output_name rig_req;
                     rigged_path := None; rig_file_size := None;
                     rig_message := Some "UniRig completed but output GLB not generated" |}
         ∧ rig_error final = None).
Proof.
  intros Hrig Hparts rig_req.
  destruct (assemble_parts_result _ _ _ _ _ Hparts) as (Hpath & Hr & Hre & Hp & _).
  assert (∀ answer s2, rig_bot rig_req s1 = (Ok answer, s2) →
    ∃ final s3,
      assemble_bot req s = (Ok final, s3)
      ∧ rigged final = Some answer
      ∧ rig_error final = None
      ∧ (auto_paint req = false → final = with_rigged answer result)) as Hanswer.
  { intros answer s2 Hok.
    destruct (paint_stage_total req ref (with_rigged answer result) s2 Hp)
      as (final & s3 & Hpaint & Hrg & Hrge & _ & Hoff).
    exists final, s3. split_and!; [|by rewrite Hrg|by rewrite Hrge|done].
    unfold assemble_bot, try_except, assemble_body. unfold bind at 1. rewrite Hparts.
    unfold bind at 1. unfold rig_stage. rewrite Hrig. unfold try_except, bind at 1.
    fold rig_req. rewrite Hok. unfold ret at 1. by rewrite Hpaint. }
  split_and!.
  - intros e s2 Hfail.
    destruct (paint_stage_total req ref (with_rig_error (str_exn e) result) s2 Hp)
      as (final & s3 & Hpaint & Hrg & Hrge & Hmp & Hoff).
    exists final, s3. split_and!.
    + unfold assemble_bot, try_except, assemble_body. unfold bind at 1. rewrite Hparts.
      unfold bind at 1. unfold rig_stage. rewrite Hrig. unfold try_except, bind at 1.
      fold rig_req. rewrite Hfail. unfold ret at 1. by rewrite Hpaint.
    + by rewrite Hrge.
    + by rewrite Hrg.
    + destruct (painted final); [done|]. by rewrite Hmp.
    + done.
  - apply Hanswer.
  - intros out err w' glb output_glb Hglb Henv Hwrap Hrun Hout.
    destruct (rig_bot_without_output rig_req s1 out err w' Hglb Henv Hwrap Hrun Hout)
      as (s2 & Hok).
    destruct (Hanswer _ _ Hok) as (final & s3 & Hfinal & Hrg & Hrge & _). eauto.
Qed.

(** *** Skipped attachments *)

Lemma find_image_nothing s :
  find_image "" "" s = (Ok "", s).
Proof. done. Qed.

Lemma attachments_loop_skip req base_mesh att rest acc s :
  glb_path att = "" → text_prompt att = "" → image_path att = "" →
  search_query att = "" →
  attachments_loop req base_mesh (att :: rest) acc s
  = attachments_loop req base_mesh rest acc s.
Proof.
  intros Hg Ht Hi Hq. simpl. unfold resolve_attachment. rewrite Hg, Ht, Hi, Hq. simpl.
  unfold bind, find_image, ret. simpl. done.
Qed.

Lemma attachments_loop_skip_search req base_mesh att rest acc s :
  glb_path att = "" → text_prompt att = "" → image_path att = "" →
  (image_search (search_query att) true (world s)).1 = SearchNoResults →
  ∃ s', attachments_loop req base_mesh (att :: rest) acc s
        = attachments_loop req base_mesh rest acc s'
      ∧ globals s' = globals s ∧ trace s' = trace s.
Proof.
  intros Hg Ht Hi Hs. simpl. unfold resolve_attachment. rewrite Hg, Ht, Hi. simpl.
  unfold bind at 1 2, find_image. simpl.
  destruct (truthy (search_query att)); simpl.
  - unfold bind at 1, search_image, bind at 1, ext.
    destruct (image_search (search_query att) true (world s)) as [o w]. simpl in *.
    subst o. simpl. eauto.
  - eauto.
Qed.

Lemma attachments_loop_drop req base_mesh att before after :
  glb_path att = "" → text_prompt att = "" → image_path att = "" →
  search_query att = "" →
  ∀ acc s,
    attachments_loop req base_mesh (before ++ att :: after) acc s
    = attachments_loop req base_mesh (before ++ after) acc s.
Proof.
  intros Hg Ht Hi Hq. induction before as [|a before IH]; intros acc s.
  - by apply attachments_loop_skip.
  - simpl. apply bind_ext; [done|]. intros [[path gen]|] s'; [|apply IH].
    apply bind_ext; [done|]. intros loaded s1.
    apply bind_ext; [done|]. intros m s2.
    apply bind_ext; [done|]. intros m' s3. apply IH.
Qed.

Lemma attachments_loop_req atts req :
  ∀ base_mesh l acc s,
    attachments_loop (with_attachments atts req) base_mesh l acc s
    = attachments_loop req base_mesh l acc s.
Proof.
  intros base_mesh l. induction l as [|a l IH]; intros acc s; [done|].
  simpl. apply bind_ext; [done|]. intros [[path gen]|] s'; [|apply IH].
  apply bind_ext; [done|]. intros loaded s1.
  apply bind_ext; [done|]. intros m s2.
  apply bind_ext; [done|]. intros m' s3. apply IH.
Qed.

Lemma assemble_bot_same_loop req atts atts' :
  (∀ base_mesh acc s,
     attachments_loop req base_mesh atts acc s
     = attachments_loop req base_mesh atts' acc s) →
  ∀ s, assemble_bot (with_attachments atts req) s
       = assemble_bot (with_attachments atts' req) s.
Proof.
  intros Hloop s. unfold assemble_bot, try_except.
  assert (assemble_body (with_attachments atts req) s
          = assemble_body (with_attachments atts' req) s) as ->; [|done].
  unfold assemble_body. apply bind_ext; [|done].
  unfold assemble_parts. apply bind_ext; [done|]. intros [[base_path ref] gen] s1.
  apply bind_ext; [done|]. intros loaded s2.
  apply bind_ext; [done|]. intros base_mesh s3.
  apply bind_ext; [done|]. intros _ s4.
  apply bind_ext; [|done]. simpl. rewrite !attachments_loop_req. apply Hloop.
Qed.

(** C3: an attachment with no GLB path, no text prompt, no image path
    and no image from a search is passed over; nothing is appended for
    it, no model is touched, and the loop goes on with the next
    attachment; with no search query either, the whole assembly answers
    exactly as it does for the request without that attachment, so it
    succeeds whenever that one does and lists the same generated
    parts. *)
Theorem attachment_without_source_skipped (req : AssembleRequest) (att : AttachmentPart) :
  glb_path att = "" → text_prompt att = "" → image_path att = "" →
  (∀ base_mesh rest acc s,
     search_query att = ""
     ∨ (image_search (search_query att) true (world s)).1 = SearchNoResults →
     ∃ s', attachments_loop req base_mesh (att :: rest) acc s
           = attachments_loop req base_mesh rest acc s'
         ∧ globals s' = globals s ∧ trace s' = trace s)
  ∧ (search_query att = "" →
     ∀ before after s,
       assemble_bot (with_attachments (before ++ att :: after) req) s
       = assemble_bot (with_attachments (before ++ after) req) s).
Proof.
  intros Hg Ht Hi. split.
  - intros base_mesh rest acc s [Hq|Hs].
    + exists s. by rewrite attachments_loop_skip.
    + by apply attachments_loop_skip_search.
  - intros Hq before after s. apply assemble_bot_same_loop.
    intros. by apply attachments_loop_drop.
Qed.

End Assemble.

(** ** Paint *)

Section Paint.
Context {ML : MeshLib} {Ext : External}.

Lemma anything_stable : stable anything.
Proof. done. Qed.

Lemma paint_released_stable : stable paint_released.
Proof. intros s s' Hg _. unfold paint_released. by rewrite Hg. Qed.

Lemma hoare_anything {A} (m : M A) : hoare anything m (λ _, anything) anything.
Proof. intros s _. by apply wp_forall. Qed.

Lemma unload_hunyuan3d_paint_released :
  hoare anything unload_hunyuan3d_paint (λ _, paint_released) paint_released.
Proof.
  intros s _. unfold wp, unload_hunyuan3d_paint, bind, get_globals, set_globals, ret; simpl.
  case_bool_decide as Hd; simpl; [done|]. unfold paint_released.
  destruct (hunyuan3d_paint (globals s)); [|done]. destruct Hd; eauto.
Qed.

Lemma emit_anything ev : hoare anything (emit ev) (λ _, anything) anything.
Proof. apply hoare_anything. Qed.

Hint Resolve anything_stable paint_released_stable : stable.

Lemma paint_bot_found_releases req s :
  path_exists (disk_path (paint_glb_path req) (world s)) (world s) = true →
  wp (paint_bot req) (λ _, paint_released) paint_released s.
Proof.
  intros Hfound. unfold wp, paint_bot. unfold bind at 1. rewrite resolve_public_run.
  unfold bind at 1, ask at 1. rewrite Hfound. simpl.
  match goal with |- context [try_except ?b ?h s] => change (wp (try_except b h) (λ _, paint_released) paint_released s) end.
  assert (anything s) as Hs by done.
  wp_walk ltac:(first [ wp_call unload_hunyuan3d_paint_released ltac:(done)
                      | wp_call (hoare_anything unload_hunyuan3d) ltac:(done)
                      | wp_call (hoare_anything unload_triposg) ltac:(done)
                      | wp_call (hoare_anything get_hunyuan3d_paint) ltac:(done)
                      | wp_call emit_anything ltac:(done) ])
          ltac:(first [eassumption | exact I]).
Qed.

Lemma paint_bot_missing req s :
  path_exists (disk_path (paint_glb_path req) (world s)) (world s) = false →
  paint_bot req s
  = (Raise (HTTPException 404 ("GLB not found: " ++ paint_glb_path req)), s).
Proof.
  intros Hmiss. unfold paint_bot. unfold bind at 1. rewrite resolve_public_run.
  unfold bind at 1, ask at 1. by rewrite Hmiss.
Qed.

(** C7: a paint call that finds its GLB ends with Hunyuan3D-Paint not
    resident, whether it returns or raises and whatever was resident
    when it began; one that does not find it answers 404 and changes
    nothing.  Paint is therefore never left resident by a call that
    began without it. *)
Theorem paint_bot_releases (req : PaintRequest) (s : Server) :
  let found := path_exists (disk_path (paint_glb_path req) (world s)) (world s) in
  (found = true → hunyuan3d_paint (globals (paint_bot req s).2) = None)
  ∧ (found = false →
     paint_bot req s
     = (Raise (HTTPException 404 ("GLB not found: " ++ paint_glb_path req)), s))
  ∧ (hunyuan3d_paint (globals s) = None →
     hunyuan3d_paint (globals (paint_bot req s).2) = None).
Proof.
  intros found.
  assert (found = true → hunyuan3d_paint (globals (paint_bot req s).2) = None) as Hyes.
  { intros Hfound. pose proof (paint_bot_found_releases req s Hfound) as Hwp.
    unfold wp in Hwp. by destruct (paint_bot req s) as [[?|?] ?]. }
  split_and!; [done|apply paint_bot_missing|].
  intros Hnone. destruct found eqn:Hf; [by apply Hyes|].
  by rewrite (paint_bot_missing req s Hf).
Qed.

End Paint.

(** ** What the paint back end is given *)

Section PaintInput.
Context {ML : MeshLib} {Ext : External}.

Lemma decimate_for_paint_run mesh s :
  ∃ passed, decimate_for_paint mesh s = (Ok passed, s)
          ∧ paint_input mesh passed (world s).
Proof.
  unfold decimate_for_paint, paint_input. case_bool_decide; [|by eexists].
  unfold try_except, ask_r, ret.
  destruct (simplify_quadric_decimation mesh MAX_PAINT_FACES (world s)); by eexists.
Qed.

Lemma wp_decimate mesh (Q : Mesh → Server → Prop) (R : Server → Prop) s :
  (∀ passed, paint_input mesh passed (world s) → Q passed s) →
  wp (decimate_for_paint mesh) Q R s.
Proof.
  intros HQ. unfold wp. destruct (decimate_for_paint_run mesh s) as (passed & -> & Hin).
  by apply HQ.
Qed.

Lemma grown_refl E s : grown E s s.
Proof. exists []. by rewrite app_nil_r. Qed.

Lemma grown_stable E s0 : stable (grown E s0).
Proof. intros s s' _ Ht (evs & Hevs & HE). exists evs. by rewrite Ht. Qed.

Lemma grown_snoc E s0 s s' ev :
  grown E s0 s → E ev → trace s' = app (trace s) [ev] → grown E s0 s'.
Proof.
  intros (evs & Hevs & HE) Hev Ht. exists (app evs [ev]). split.
  - by rewrite Ht, Hevs, app_assoc.
  - apply Forall_app; auto.
Qed.

Lemma emit_grown E s0 ev :
  E ev → hoare (grown E s0) (emit ev) (λ _, grown E s0) (grown E s0).
Proof. intros Hev s Hs. unfold wp, emit. by eapply grown_snoc. Qed.

Lemma unload_triposg_grown E s0 :
  hoare (grown E s0) unload_triposg (λ _, grown E s0) (grown E s0).
Proof.
  intros s Hs. unfold wp, unload_triposg, bind, get_globals, set_globals, ret; simpl.
  case_bool_decide; simpl; [|done]. by eapply grown_stable.
Qed.

Lemma unload_hunyuan3d_grown E s0 :
  hoare (grown E s0) unload_hunyuan3d (λ _, grown E s0) (grown E s0).
Proof.
  intros s Hs. unfold wp, unload_hunyuan3d, bind, get_globals, set_globals, ret; simpl.
  repeat (case_bool_decide; simpl); try done; by eapply grown_stable.
Qed.

Lemma unload_hunyuan3d_paint_grown E s0 :
  hoare (grown E s0) unload_hunyuan3d_paint (λ _, grown E s0) (grown E s0).
Proof.
  intros s Hs. unfold wp, unload_hunyuan3d_paint, bind, get_globals, set_globals, ret; simpl.
  case_bool_decide; simpl; [|done]. by eapply grown_stable.
Qed.

Lemma get_hunyuan3d_paint_grown E s0 :
  (∀ k g, E (EvLoad k g)) →
  hoare (grown E s0) get_hunyuan3d_paint (λ _, grown E s0) (grown E s0).
Proof.
  intros HE s Hs.
  unfold wp, get_hunyuan3d_paint, bind, get_globals, ext, set_globals, emit, ret; simpl.
  destruct (hunyuan3d_paint (globals s)); simpl; [done|].
  destruct (load_hunyuan3d_paint (world s)) as [[pipe|] w]; simpl.
  - by eapply grown_snoc.
  - by eapply grown_stable.
Qed.

Hint Resolve grown_stable : stable.

(** Every paint event of a call records a mesh that comes from the mesh
    in the request's GLB in this way: unchanged when that has at most
    50,000 faces; otherwise the answer of quadric decimation asked for
    50,000 faces, or, when decimation raises, the original mesh. *)
Lemma paint_events_are_decimated (req : PaintRequest) (s : Server) :
  let glb := disk_path (paint_glb_path req) (world s) in
  ∃ evs, trace (paint_bot req s).2 = app (trace s) evs
       ∧ ∀ passed, EvPaint passed ∈ evs →
           ∃ w loaded mesh,
             trimesh_load glb w = Ok loaded ∧ extract_single_mesh loaded = Ok mesh
             ∧ paint_input mesh passed w.
Proof.
  intros glb.
  assert (grown (paint_event_ok glb) s (paint_bot req s).2) as (evs & Hevs & HE).
  { assert (wp (paint_bot req) (λ _, grown (paint_event_ok glb) s)
               (grown (paint_event_ok glb) s) s) as Hwp.
    2:{ unfold wp in Hwp. by destruct (paint_bot req s) as [[?|?] ?]. }
    unfold wp, paint_bot. unfold bind at 1. rewrite resolve_public_run. fold glb.
    unfold bind at 1, ask at 1.
    destruct (path_exists glb (world s)); simpl; [|apply grown_refl].
    match goal with
    | |- context [try_except ?b ?h s] =>
        change (wp (try_except b h) (λ _, grown (paint_event_ok glb) s)
                   (grown (paint_event_ok glb) s) s)
    end.
    pose proof (grown_refl (paint_event_ok glb) s) as Hs.
    wp_walk
      ltac:(first
        [ wp_call unload_hunyuan3d_grown ltac:(eassumption)
        | wp_call unload_triposg_grown ltac:(eassumption)
        | wp_call unload_hunyuan3d_paint_grown ltac:(eassumption)
        | wp_call get_hunyuan3d_paint_grown ltac:(first [eassumption | done])
        | lazymatch goal with
          | |- wp (ask_r (trimesh_load _)) _ _ _ => apply wp_ask_r; intros ? ?
          | |- wp (lift (extract_single_mesh _)) _ _ _ => apply wp_lift; intros ? ?
          | |- wp (decimate_for_paint _) _ _ _ => apply wp_decimate; intros ? ?
          | |- wp (emit (EvPaint _)) _ _ _ =>
              eapply wp_use;
              [ apply emit_grown | eassumption
              | cbv beta; intros ? ? ? | cbv beta; intros ? ? ]
          end ])
      ltac:(eassumption).
    - exact I.
    - simpl. eauto 10. }
  exists evs. split; [done|]. intros passed Hin. rewrite Forall_forall in HE.
  apply (HE _ Hin).
Qed.

End PaintInput.

Section Failures.
Context {ML : MeshLib} {Ext : External}.

Lemma http_only_http_or_500 {A} what e s : http_only (http_or_500 (A:=A) what e s).1.
Proof. by destruct e. Qed.

Lemma http_only_handler {A} (m : M A) (h : Exn → M A) s :
  (∀ e s', http_only (h e s').1) → http_only (try_except m h s).1.
Proof. intros Hh. unfold try_except. by destruct (m s) as [[a|e] s']. Qed.

Lemma http_only_try {A} (m : M A) what s :
  http_only (try_except m (http_or_500 what) s).1.
Proof. apply http_only_handler. intros. apply http_only_http_or_500. Qed.

Lemma get_triposg_models_returns s : ∃ r s', get_triposg_models s = (Ok r, s').
Proof.
  unfold get_triposg_models, bind, get_globals, ext, set_globals, emit, ret; simpl.
  destruct (triposg_pipe (globals s)); simpl; [by eauto|].
  destruct (load_triposg (world s)) as [[pipe rmbg| |[rm|]] w]; simpl; eauto.
Qed.

Lemma unload_hunyuan3d_paint_returns s : ∃ s', unload_hunyuan3d_paint s = (Ok (), s').
Proof.
  unfold unload_hunyuan3d_paint, bind, get_globals, set_globals, ret; simpl.
  case_bool_decide; eauto.
Qed.

(** X1: [generate_3d], [generate_text_3d], [search_image] and
    [assemble_bot] raise nothing but an [HTTPException]: all they do
    after their first checks sits inside handlers that let one through and
    wrap everything else in a 500. *)
Theorem endpoints_raise_http_only (s : Server) :
  (∀ file steps guidance seed cap, http_only (generate_3d file steps guidance seed cap s).1)
  ∧ (∀ prompt seed cap, http_only (generate_text_3d prompt seed cap s).1)
  ∧ (∀ query remove_bg, http_only (search_image query remove_bg s).1)
  ∧ (∀ req, http_only (assemble_bot req s).1).
Proof.
  split_and!.
  - intros. unfold generate_3d, bind.
    destruct (get_triposg_models_returns s) as ([pipe rmbg] & s' & ->).
    destruct pipe as [pipe|]; [|done]. by apply http_only_handler.
  - intros. unfold generate_text_3d. destruct (truthy (strip prompt)); [|done].
    apply http_only_try.
  - intros. unfold search_image, bind, ext.
    destruct (image_search query remove_bg (world s)) as [[| |img_id|e] w]; done.
  - intros. apply http_only_try.
Qed.

(** X2: [merge_parts] has no handler of its own: a part without a ["path"]
    key fails the request with the [KeyError] itself, which is no
    [HTTPException], before anything is read or written. *)
Theorem merge_parts_lets_key_error_through (req : MergeRequest)
    (part : gmap string JVal) (rest : list (gmap string JVal)) (s : Server) :
  parts req = part :: rest → part !! "path" = None →
  ∃ e, merge_parts req s = (Raise e, s) ∧ ¬ is_http e.
Proof.
  intros Hparts Hpath. exists (Exception "KeyError: path"). split; [|by intros []].
  unfold merge_parts. rewrite Hparts. simpl.
  unfold merge_part, part_path_of, bind, lift. by rewrite Hpath.
Qed.

Lemma merge_part_state i part combined s :
  (merge_part i part combined s).2 = s.
Proof.
  unfold merge_part, bind, lift, ask, ask_r, ret, raise.
  destruct (part_path_of part) as [path|e]; simpl; [|done].
  destruct (path_exists _ _); simpl; [|done].
  destruct (trimesh_load _ _); simpl; [|done].
  destruct (radians_of _); simpl; [|done].
  by destruct (compose_matrix _ _).
Qed.

Lemma merge_loop_state ps : ∀ i combined s, (merge_loop i ps combined s).2 = s.
Proof.
  induction ps as [|part ps IH]; intros i combined s; simpl; [done|].
  unfold bind. pose proof (merge_part_state i part combined s) as Hs.
  destruct (merge_part i part combined s) as [[c|e] s']; simpl in Hs; subst s'; [|done].
  apply IH.
Qed.

Lemma merge_loop_app before : ∀ after i combined combined' s,
  merge_loop i before combined s = (Ok combined', s) →
  merge_loop i (before ++ after) combined s
  = merge_loop (i + length before) after combined' s.
Proof.
  induction before as [|p before IH]; intros after i combined combined' s; simpl.
  - intros [= ->]. by rewrite Nat.add_0_r.
  - unfold bind at 1 2. pose proof (merge_part_state i p combined s) as Hs.
    destruct (merge_part i p combined s) as [[c|e] s']; simpl in Hs; subst s'; [|done].
    intros H. rewrite (IH after _ _ _ _ H). f_equal. lia.
Qed.

(** X3: a part whose file is missing fails the merge with a 404 that names
    the path as the request gave it; the parts after it are not looked at,
    nothing is exported and the server is left as it was. *)
Theorem merge_parts_missing_part (before after : list (gmap string JVal))
    (part : gmap string JVal) (name path : string) (s : Server) :
  is_ok (merge_loop 0 before [] s).1 = true →
  part !! "path" = Some (JStr path) →
  path_exists (PROJECT_ROOT // lstrip_slash path) (world s) = false →
  merge_parts {| parts := before ++ part :: after; merge_output_name := name |} s
  = (Raise (HTTPException 404 ("Part not found: " ++ path)), s).
Proof.
  intros Hbefore Hpath Hmiss. unfold merge_parts; simpl.
  pose proof (merge_loop_state before 0 [] s) as Hs.
  destruct (merge_loop 0 before [] s) as [[combined|e] s'] eqn:Hrun; [|done].
  simpl in Hs; subst s'. unfold bind at 1.
  rewrite (merge_loop_app _ _ _ _ _ _ Hrun). simpl.
  unfold bind at 1. unfold merge_part, part_path_of, bind, lift, ask.
  rewrite Hpath; simpl. by rewrite Hmiss.
Qed.

End Failures.

Section Answers.
Context {ML : MeshLib} {Ext : External}.

Hint Resolve grown_stable : stable.

Lemma ask_ok {A} (f : World → A) s a s' :
  ask f s = (Ok a, s') → s' = s ∧ a = f (world s).
Proof. unfold ask. by intros [= <- <-]. Qed.

Lemma ask_r_ok {A} (f : World → Result A) s a s' :
  ask_r f s = (Ok a, s') → s' = s ∧ f (world s) = Ok a.
Proof. unfold ask_r. by intros [= -> <-]. Qed.

Lemma lift_ok {A} (r : Result A) s a s' :
  lift r s = (Ok a, s') → s' = s ∧ r = Ok a.
Proof. unfold lift. by intros [= -> <-]. Qed.

Lemma rig_stage_returns req result s :
  ∃ staged s', rig_stage req result s = (Ok staged, s')
    ∧ merged_path staged = merged_path result ∧ file_size staged = file_size result
    ∧ parts_generated staged = parts_generated result
    ∧ result_vertices staged = result_vertices result
    ∧ result_faces staged = result_faces result
    ∧ painted staged = painted result ∧ paint_error staged = paint_error result
    ∧ (rigged staged = rigged result ∨ rig_error staged = rig_error result)
    ∧ (auto_rig req = false → staged = result ∧ s' = s).
Proof.
  unfold rig_stage. destruct (auto_rig req).
  - unfold try_except, bind, ret.
    match goal with |- context [rig_bot ?r s] => destruct (rig_bot r s) as [[p|e] s'] end;
      eexists _, _; (split; [done|]); simpl; split_and!; auto; done.
  - eexists _, _. split; [done|]. split_and!; auto.
Qed.

Lemma paint_stage_request req ref result :
  paint_stage req ref result
  = if auto_paint req then
      try_except
        (paint_result <- paint_bot (auto_paint_request req ref result) ;;
         ret (with_painted paint_result result))
        (λ paint_err, ret (with_paint_error (str_exn paint_err) result))
    else ret result.
Proof. done. Qed.

(** X4: the paint stage of an assembly paints the file under ["merged_path"]
    and names exactly one reference: the image saved with a base made
    from text when there is one, and otherwise a search query that is
    never empty. *)
Theorem paint_stage_names_one_reference (req : AssembleRequest) (ref : string)
    (result : AssemblyResult) :
  let sent := auto_paint_request req ref result in
  paint_stage req ref result
  = (if auto_paint req then
       try_except
         (paint_result <- paint_bot sent ;; ret (with_painted paint_result result))
         (λ paint_err, ret (with_paint_error (str_exn paint_err) result))
     else ret result)
  ∧ paint_glb_path sent = merged_path result
  ∧ truthy (paint_search sent) = negb (truthy (paint_image_path sent))
  ∧ (ref = "" → paint_search_query req = "" → base_description req = "" →
     paint_search sent = "3D robot texture material").
Proof.
  intros sent. split_and!; [done..| |].
  - unfold sent, auto_paint_request; simpl. destruct (truthy ref); simpl; [done|].
    destruct (truthy (paint_search_query req)) eqn:Hq; [done|].
    by destruct (truthy (base_description req)) eqn:Hd.
  - intros -> Hq Hd. unfold sent, auto_paint_request; simpl. by rewrite Hq, Hd.
Qed.

(** X5: once the parts are merged the assembly cannot fail any more: the rig
    and paint stages turn every error into an entry of the answer, which
    keeps the counts and the generated parts of the merge; a stage that
    was not asked for leaves no entry. *)
Theorem optional_stages_cannot_fail (req : AssembleRequest) (s s1 : Server)
    (ref : string) (result : AssemblyResult) :
  assemble_parts req s = (Ok (ref, result), s1) →
  ∃ final s',
    assemble_bot req s = (Ok final, s')
    ∧ parts_generated final = parts_generated result
    ∧ result_vertices final = result_vertices result
    ∧ result_faces final = result_faces result
    ∧ (rigged final = None ∨ rig_error final = None)
    ∧ (painted final = None ∨ paint_error final = None)
    ∧ (auto_rig req = false → rigged final = None ∧ rig_error final = None)
    ∧ (auto_paint req = false →
       painted final = None ∧ paint_error final = None
       ∧ merged_path final = "/parts/generated/" ++ output_name req ++ ".glb"
       ∧ file_size final = file_size result).
Proof.
  intros Hparts.
  destruct (assemble_parts_result _ _ _ _ _ Hparts) as (Hpath & Hr & Hre & Hp & Hpe).
  destruct (rig_stage_returns req result s1)
    as (staged & s2 & Hrig & Hm & Hsz & Hgen & Hv & Hf & Hsp & Hspe & Hone & Hoff).
  assert (∃ final s',
    paint_stage req ref staged s2 = (Ok final, s')
    ∧ (final = staged
       ∨ (auto_paint req = true ∧ ∃ p, final = with_painted p staged)
       ∨ (auto_paint req = true ∧ ∃ msg, final = with_paint_error msg staged)))
    as (final & s' & Hpaint & Hfinal).
  { rewrite paint_stage_request. destruct (auto_paint req).
    - unfold try_except, bind, ret.
      destruct (paint_bot (auto_paint_request req ref staged) s2) as [[p|e] s'];
        eexists _, _; (split; [done|]); eauto.
    - eexists _, _. split; [done|]. eauto. }
  exists final, s'. split.
  { unfold assemble_bot, try_except, assemble_body. unfold bind at 1. rewrite Hparts.
    unfold bind at 1. rewrite Hrig. by rewrite Hpaint. }
  rewrite Hr, Hre in Hone. rewrite Hp in Hsp. rewrite Hpe in Hspe.
  destruct Hfinal as [->|[[Hon [p ->]]|[Hon [msg ->]]]]; simpl;
    rewrite ?Hgen, ?Hv, ?Hf, ?Hsp, ?Hspe; split_and!; auto; try congruence.
  - intros Hroff. destruct (Hoff Hroff) as [-> _]. done.
  - intros _. by rewrite Hm, Hsz, Hpath.
  - intros Hroff. destruct (Hoff Hroff) as [-> _]. done.
  - intros Hroff. destruct (Hoff Hroff) as [-> _]. done.
Qed.

(** X6: when the paint stage fails the assembly still answers: the error text
    is under ["paint_error"], there is no ["painted"] entry, and
    ["merged_path"] stays the merged file, which is also the file that was
    sent to be painted, rigged or not. *)
Theorem paint_error_is_recorded (req : AssembleRequest) (s s1 s2 s3 : Server)
    (ref : string) (result staged : AssemblyResult) (e : Exn) :
  auto_paint req = true →
  assemble_parts req s = (Ok (ref, result), s1) →
  rig_stage req result s1 = (Ok staged, s2) →
  paint_bot (auto_paint_request req ref staged) s2 = (Raise e, s3) →
  assemble_bot req s = (Ok (with_paint_error (str_exn e) staged), s3)
  ∧ paint_glb_path (auto_paint_request req ref staged)
    = "/parts/generated/" ++ output_name req ++ ".glb"
  ∧ merged_path (with_paint_error (str_exn e) staged)
    = "/parts/generated/" ++ output_name req ++ ".glb"
  ∧ painted (with_paint_error (str_exn e) staged) = None.
Proof.
  intros Hon Hparts Hrig Hfail.
  destruct (assemble_parts_result _ _ _ _ _ Hparts) as (Hpath & _ & _ & Hp & _).
  destruct (rig_stage_returns req result s1)
    as (staged' & s2' & Hrig' & Hm & _ & _ & _ & _ & Hsp & _).
  rewrite Hrig in Hrig'. injection Hrig' as <- <-.
  split_and!.
  - unfold assemble_bot, try_except, assemble_body. unfold bind at 1. rewrite Hparts.
    unfold bind at 1. rewrite Hrig. rewrite paint_stage_request, Hon.
    unfold try_except, bind. by rewrite Hfail.
  - simpl. by rewrite Hm.
  - simpl. by rewrite Hm.
  - simpl. by rewrite Hsp.
Qed.

(** X7: without a base GLB, image or search query the assembly is refused
    with a 400 and nothing else happens; a base text prompt does not count
    as a source unless the base engine is ["hunyuan3d"]. *)
Theorem assemble_without_base_source (req : AssembleRequest) (s : Server) :
  base_glb_path req = "" →
  base_text_prompt req = "" ∨ base_engine req ≠ "hunyuan3d" →
  base_image_path req = "" → base_search_query req = "" →
  assemble_bot req s
  = (Raise (HTTPException 400
       "No base mesh source: provide glb_path, text_prompt, image_path, or search_query"), s).
Proof.
  intros Hg Ht Hi Hq.
  unfold assemble_bot, try_except, assemble_body, assemble_parts.
  unfold bind at 1 2. unfold resolve_base. rewrite Hg, Hi, Hq. simpl.
  assert (truthy (base_text_prompt req) && is_hunyuan3d (base_engine req) = false) as ->.
  { destruct Ht as [->|Hne]; [done|]. unfold is_hunyuan3d.
    rewrite bool_decide_false by done. apply andb_false_r. }
  done.
Qed.

(** X8: an attachment with no GLB, image or search query is skipped even when
    it carries a text prompt, unless its engine is ["hunyuan3d"]. *)
Theorem attachment_text_prompt_needs_hunyuan3d (req : AssembleRequest) (base_mesh : Mesh)
    (att : AttachmentPart) (rest : list AttachmentPart)
    (acc : list Mesh * list GeneratedPart) (s : Server) :
  glb_path att = "" → engine att ≠ "hunyuan3d" →
  image_path att = "" → search_query att = "" →
  attachments_loop req base_mesh (att :: rest) acc s
  = attachments_loop req base_mesh rest acc s.
Proof.
  intros Hg He Hi Hq. simpl. unfold resolve_attachment. rewrite Hg, Hi, Hq. simpl.
  unfold is_hunyuan3d. rewrite bool_decide_false by done. rewrite andb_false_r.
  done.
Qed.

Lemma attachments_loop_files req base_mesh atts :
  Forall (λ att, truthy (glb_path att) = true) atts →
  ∀ acc s meshes generated s',
    attachments_loop req base_mesh atts acc s = (Ok (meshes, generated), s') →
    s' = s ∧ generated = acc.2 ∧ length meshes = (length acc.1 + length atts)%nat.
Proof.
  induction 1 as [|att atts Hatt _ IH]; intros acc s meshes generated s'; simpl.
  - unfold ret. destruct acc. intros [= <- <- <-]. by rewrite Nat.add_0_r.
  - intros H. apply bind_ok in H as (source & s1 & Hsrc & H).
    unfold resolve_attachment in Hsrc. rewrite Hatt in Hsrc.
    apply bind_ok in Hsrc as (found & s0 & Hask & Hsrc).
    apply ask_ok in Hask as [-> _]. destruct found; [|done].
    injection Hsrc as <- <-.
    apply bind_ok in H as (loaded & s1 & H1 & H). apply ask_r_ok in H1 as [-> _].
    apply bind_ok in H as (m & s1 & H1 & H). apply lift_ok in H1 as [-> _].
    apply bind_ok in H as (m' & s1 & H1 & H). apply lift_ok in H1 as [-> _].
    apply IH in H as (-> & -> & ->). simpl. rewrite app_nil_r, length_app. simpl.
    split_and!; [done..|lia].
Qed.

Lemma merge_stage_silent req meshes generated s :
  trace (merge_stage req meshes generated s).2 = trace s.
Proof.
  assert (grown (λ _, False) s (merge_stage req meshes generated s).2)
    as (evs & Hevs & HE).
  { apply (hoare_snd _ (grown (λ _, False) s)); [|apply grown_refl].
    intros s0 Hs0. unfold merge_stage.
    wp_walk ltac:(first [ wp_call (unload_hunyuan3d_grown (λ _ : Event, False) s) ltac:(eassumption)
                        | wp_call (unload_triposg_grown (λ _ : Event, False) s) ltac:(eassumption) ])
            ltac:(eassumption). }
  destruct evs as [|ev evs]; [by rewrite Hevs, app_nil_r|].
  by apply Forall_cons in HE as [[] _].
Qed.

(** X9: an assembly whose base and attachments all name GLB files loads no
    model and generates nothing: the answer lists no generated part, there
    is no reference image for the paint stage, and the trace is as it
    was. *)
Theorem assemble_from_files_generates_nothing (req : AssembleRequest) (s s' : Server)
    (ref : string) (result : AssemblyResult) :
  truthy (base_glb_path req) = true →
  Forall (λ att, truthy (glb_path att) = true) (attachments req) →
  assemble_parts req s = (Ok (ref, result), s') →
  parts_generated result = [] ∧ ref = "" ∧ trace s' = trace s.
Proof.
  intros Hbase Hatts H. unfold assemble_parts in H.
  apply bind_ok in H as ([[base_path ref0] gen0] & s1 & Hb & H).
  unfold resolve_base in Hb. rewrite Hbase in Hb.
  apply bind_ok in Hb as (found & s0 & Hask & Hb). apply ask_ok in Hask as [-> _].
  destruct found; [|done]. injection Hb as <- <- <- <-.
  apply bind_ok in H as (loaded & s1 & H1 & H). apply ask_r_ok in H1 as [-> _].
  apply bind_ok in H as (m & s1 & H1 & H). apply lift_ok in H1 as [-> _].
  apply bind_ok in H as (u & s1 & H1 & H). apply lift_ok in H1 as [-> _].
  apply bind_ok in H as ([meshes gen] & s1 & Hloop & H).
  apply (attachments_loop_files _ _ _ Hatts) in Hloop as (-> & -> & _). simpl in H.
  apply bind_ok in H as (res & s1 & Hmerge & H). injection H as <- <- <-.
  pose proof (merge_stage_silent req meshes [] s) as Ht. rewrite Hmerge in Ht.
  destruct (merge_stage_result _ _ _ _ _ _ Hmerge) as (_ & Hgen & _).
  done.
Qed.

End Answers.

(** ** What a call leaves alone *)

Section KeepsRules.
Context {ML : MeshLib} {Ext : External}.

Lemma keeps_quiet {A B} (f : Globals → B) (m : M A) : quiet m → keeps f m.
Proof. intros Hm s. by destruct (Hm s) as [-> _]. Qed.

Lemma keeps_bind {A B C} (f : Globals → C) (m : M A) (k : A → M B) :
  keeps f m → (∀ a, keeps f (k a)) → keeps f (bind m k).
Proof.
  intros Hm Hk s. unfold bind. specialize (Hm s).
  destruct (m s) as [[a|e] s']; simpl in *; [|done]. by rewrite Hk.
Qed.

Lemma keeps_try {A C} (f : Globals → C) (m : M A) (h : Exn → M A) :
  keeps f m → (∀ e, keeps f (h e)) → keeps f (try_except m h).
Proof.
  intros Hm Hh s. unfold try_except. specialize (Hm s).
  destruct (m s) as [[a|e] s']; simpl in *; [done|]. by rewrite Hh.
Qed.

Lemma keeps_proj {A B C} (f : Globals → B) (h : B → C) (m : M A) :
  keeps f m → keeps (λ g, h (f g)) m.
Proof. intros Hm s. by rewrite Hm. Qed.

Lemma keeps_get_triposg_models :
  keeps hunyuan_handles get_triposg_models.
Proof.
  intros s. unfold get_triposg_models, bind, get_globals, ext, set_globals, emit, ret; simpl.
  destruct (triposg_pipe (globals s)); simpl; [done|].
  by destruct (load_triposg (world s)) as [[pipe rmbg| |[rm|]] w].
Qed.

Lemma keeps_unload_triposg : keeps hunyuan_handles unload_triposg.
Proof.
  intros s. unfold unload_triposg, bind, get_globals, set_globals, ret; simpl.
  by case_bool_decide.
Qed.

Lemma keeps_get_hunyuan3d_model :
  keeps (λ g, (triposg_handles g, hunyuan3d_paint g)) get_hunyuan3d_model.
Proof.
  intros s. unfold get_hunyuan3d_model, bind, get_globals, ext, set_globals, emit, ret; simpl.
  destruct (hunyuan3d_pipe (globals s)); simpl; [done|].
  by destruct (load_hunyuan3d_shape (world s)) as [[pipe|] w].
Qed.

Lemma keeps_get_hunyuan3d_text2img :
  keeps (λ g, (triposg_handles g, hunyuan3d_paint g)) get_hunyuan3d_text2img.
Proof.
  intros s.
  unfold get_hunyuan3d_text2img, bind, get_globals, ext, set_globals, emit, ret; simpl.
  destruct (hunyuan3d_text2img (globals s)); simpl; [done|].
  by destruct (load_hunyuan3d_text2img (world s)) as [[pipe|] w].
Qed.

Lemma keeps_unload_hunyuan3d :
  keeps (λ g, (triposg_handles g, hunyuan3d_paint g)) unload_hunyuan3d.
Proof.
  intros s. unfold unload_hunyuan3d, bind, get_globals, set_globals, ret; simpl.
  by repeat (case_bool_decide; simpl).
Qed.

End KeepsRules.

Create HintDb keeps.
#[local] Hint Extern 1 (keeps _ _) => (apply keeps_quiet; solve [quiet_walk]) : keeps.
#[local] Hint Resolve keeps_get_triposg_models keeps_unload_triposg : keeps.
#[local] Hint Extern 2 (keeps hunyuan3d_paint get_triposg_models) =>
  exact (keeps_proj hunyuan_handles snd _ keeps_get_triposg_models) : keeps.
#[local] Hint Extern 2 (keeps hunyuan3d_paint unload_triposg) =>
  exact (keeps_proj hunyuan_handles snd _ keeps_unload_triposg) : keeps.
#[local] Hint Extern 2 (keeps hunyuan3d_paint get_hunyuan3d_model) =>
  exact (keeps_proj _ snd _ keeps_get_hunyuan3d_model) : keeps.
#[local] Hint Extern 2 (keeps hunyuan3d_paint get_hunyuan3d_text2img) =>
  exact (keeps_proj _ snd _ keeps_get_hunyuan3d_text2img) : keeps.
#[local] Hint Extern 2 (keeps hunyuan3d_paint unload_hunyuan3d) =>
  exact (keeps_proj _ snd _ keeps_unload_hunyuan3d) : keeps.
#[local] Hint Extern 2 (keeps triposg_handles get_hunyuan3d_model) =>
  exact (keeps_proj _ fst _ keeps_get_hunyuan3d_model) : keeps.
#[local] Hint Extern 2 (keeps triposg_handles get_hunyuan3d_text2img) =>
  exact (keeps_proj _ fst _ keeps_get_hunyuan3d_text2img) : keeps.

(** Walk a computation built from pieces that keep [f]. *)
Ltac keeps_walk :=
  repeat first
    [ solve [eauto with keeps]
    | lazymatch goal with
      | |- ∀ _, _ => intro
      | |- keeps _ (bind _ _) => apply keeps_bind
      | |- keeps _ (try_except _ _) => apply keeps_try
      | |- keeps _ (match ?x with _ => _ end) => destruct x
      end ].

Section Frames.
Context {ML : MeshLib} {Ext : External}.

(** X10: generating with TripoSG, from an upload or inside an assembly, leaves
    the three Hunyuan3D handles as they are: it releases none of those
    models, so they stay resident beside TripoSG. *)
Theorem triposg_generation_keeps_hunyuan3d (file : Bytes) (steps : Z) (guidance : float)
    (seed faces_cap : Z) :
  keeps hunyuan_handles (generate_3d file steps guidance seed faces_cap)
  ∧ keeps hunyuan_handles (_generate_from_bytes file steps guidance).
Proof. split; [unfold generate_3d|unfold _generate_from_bytes]; keeps_walk. Qed.

Lemma keeps_generate_hunyuan3d_triposg prompt image seed cap :
  keeps triposg_handles (_generate_hunyuan3d prompt image seed cap).
Proof. unfold _generate_hunyuan3d. keeps_walk. Qed.

Lemma keeps_generate_hunyuan3d_paint prompt image seed cap :
  keeps hunyuan3d_paint (_generate_hunyuan3d prompt image seed cap).
Proof. unfold _generate_hunyuan3d. keeps_walk. Qed.

Lemma keeps_generate_from_bytes_paint data steps guidance :
  keeps hunyuan3d_paint (_generate_from_bytes data steps guidance).
Proof. unfold _generate_from_bytes. keeps_walk. Qed.

End Frames.

(** ** What is resident after a call *)

Section Released.
Context {ML : MeshLib} {Ext : External}.

Lemma globals_idle (g : Globals) :
  triposg_handles g = (None, None) → hunyuan_handles g = (None, None, None) → g = no_models.
Proof. destruct g. unfold triposg_handles, hunyuan_handles, no_models; simpl. congruence. Qed.

Lemma unload_triposg_run s :
  ∃ s', unload_triposg s = (Ok (), s')
    ∧ triposg_handles (globals s') = (None, None)
    ∧ hunyuan_handles (globals s') = hunyuan_handles (globals s)
    ∧ world s' = world s ∧ trace s' = trace s.
Proof.
  unfold unload_triposg, bind, get_globals, set_globals, ret; simpl.
  case_bool_decide as Hd; eexists; (split; [done|]); simpl; [done|].
  split_and!; try done. unfold triposg_handles.
  destruct (triposg_pipe (globals s)); [destruct Hd; eauto|].
  destruct (rmbg_net (globals s)); [destruct Hd; eauto|]. done.
Qed.

Lemma unload_hunyuan3d_run s :
  ∃ s', unload_hunyuan3d s = (Ok (), s')
    ∧ hunyuan3d_released s'
    ∧ triposg_handles (globals s') = triposg_handles (globals s)
    ∧ hunyuan3d_paint (globals s') = hunyuan3d_paint (globals s)
    ∧ world s' = world s ∧ trace s' = trace s.
Proof.
  unfold unload_hunyuan3d, hunyuan3d_released, bind, get_globals, set_globals, ret; simpl.
  repeat (case_bool_decide; simpl); eexists; (split; [done|]); simpl;
    split_and!; try done; by apply not_is_Some_None.
Qed.

Lemma unload_hunyuan3d_paint_run s :
  ∃ s', unload_hunyuan3d_paint s = (Ok (), s')
    ∧ hunyuan3d_paint (globals s') = None
    ∧ triposg_handles (globals s') = triposg_handles (globals s)
    ∧ hunyuan3d_pipe (globals s') = hunyuan3d_pipe (globals s)
    ∧ hunyuan3d_text2img (globals s') = hunyuan3d_text2img (globals s)
    ∧ world s' = world s ∧ trace s' = trace s.
Proof.
  unfold unload_hunyuan3d_paint, bind, get_globals, set_globals, ret; simpl.
  case_bool_decide; eexists; (split; [done|]); simpl; split_and!; try done.
  by apply not_is_Some_None.
Qed.

(** X11: each unloader is idempotent: called again on the state it left, it
    changes nothing. *)
Theorem unloaders_idempotent (s : Server) :
  unload_triposg (unload_triposg s).2 = (Ok (), (unload_triposg s).2)
  ∧ unload_hunyuan3d (unload_hunyuan3d s).2 = (Ok (), (unload_hunyuan3d s).2)
  ∧ unload_hunyuan3d_paint (unload_hunyuan3d_paint s).2
    = (Ok (), (unload_hunyuan3d_paint s).2).
Proof.
  split_and!.
  - destruct (unload_triposg_run s) as (s' & -> & Ht & _). simpl.
    unfold triposg_handles in Ht. injection Ht as Hp Hr.
    unfold unload_triposg, bind, get_globals, ret; simpl. rewrite Hp, Hr.
    rewrite bool_decide_false; [done|]. by intros [[? ?]|[? ?]].
  - destruct (unload_hunyuan3d_run s) as (s' & -> & [Hp Hi] & _). simpl.
    unfold unload_hunyuan3d, bind, get_globals, ret; simpl.
    case_bool_decide as H1; [rewrite Hp in H1; by destruct H1|]. simpl.
    case_bool_decide as H2; [rewrite Hi in H2; by destruct H2|]. done.
  - destruct (unload_hunyuan3d_paint_run s) as (s' & -> & Hp & _). simpl.
    unfold unload_hunyuan3d_paint, bind, get_globals, ret; simpl. rewrite Hp.
    rewrite bool_decide_false; [done|]. by intros [? ?].
Qed.

Lemma shutdown_run s :
  ∃ s', shutdown s = (Ok (), s')
    ∧ shape_models_released s'
    ∧ hunyuan3d_paint (globals s') = hunyuan3d_paint (globals s)
    ∧ world s' = world s ∧ trace s' = trace s.
Proof.
  unfold shutdown, bind.
  destruct (unload_triposg_run s) as (s1 & -> & Ht1 & Hh1 & Hw1 & Htr1).
  destruct (unload_hunyuan3d_run s1) as (s2 & -> & Hrel & Ht2 & Hp2 & Hw2 & Htr2).
  exists s2. split; [done|]. unfold shape_models_released. split_and!; try congruence.
  rewrite Hp2. unfold hunyuan_handles in Hh1. congruence.
Qed.

(** X12: the teardown of [lifespan] releases TripoSG, its background remover
    and the two Hunyuan3D generation models, and leaves Hunyuan3D-Paint
    as it is; after any sequence of requests since start-up that is
    enough: nothing is resident any more. *)
Theorem shutdown_leaves_nothing (s : Server) (w : World) (rs : list Request) :
  (∃ s', shutdown s = (Ok (), s')
     ∧ shape_models_released s'
     ∧ hunyuan3d_paint (globals s') = hunyuan3d_paint (globals s))
  ∧ globals (shutdown (serve_all rs (boot w))).2 = no_models.
Proof.
  split.
  - destruct (shutdown_run s) as (s' & Hrun & Hrel & Hp & _). eauto.
  - destruct (serve_all_inv rs (boot w) (boot_inv w)) as (_ & _ & _ & Hp).
    destruct (shutdown_run (serve_all rs (boot w))) as (s' & -> & [Ht [Hs Hi]] & Hp' & _).
    simpl. apply globals_idle; [done|]. unfold hunyuan_handles.
    rewrite Hs, Hi, Hp'. by rewrite Hp.
Qed.

Lemma idle_stable : stable idle.
Proof. intros s s' Hg _. unfold idle. by rewrite Hg. Qed.

Lemma hunyuan3d_released_stable : stable hunyuan3d_released.
Proof. intros s s' Hg _. unfold hunyuan3d_released. by rewrite Hg. Qed.

Lemma shape_models_released_stable : stable shape_models_released.
Proof.
  intros s s' Hg _. unfold shape_models_released, hunyuan3d_released. by rewrite Hg.
Qed.

Lemma idle_shape_models_released s : idle s → shape_models_released s.
Proof. unfold idle, shape_models_released, hunyuan3d_released. by intros ->. Qed.

Lemma keeps_hoare {A} (m : M A) :
  keeps hunyuan3d_paint m → hoare paint_released m (λ _, paint_released) paint_released.
Proof.
  intros Hm s Hs. unfold wp. specialize (Hm s). unfold paint_released in *.
  destruct (m s) as [[a|e] s']; simpl in *; congruence.
Qed.

Lemma unload_hunyuan3d_released :
  hoare anything unload_hunyuan3d (λ _, hunyuan3d_released) (λ _, False).
Proof. intros s _. unfold wp. by destruct (unload_hunyuan3d_run s) as (s' & -> & Hrel & _). Qed.

Lemma unload_triposg_released :
  hoare hunyuan3d_released unload_triposg (λ _, shape_models_released) (λ _, False).
Proof.
  intros s [Hs Hi]. unfold wp.
  destruct (unload_triposg_run s) as (s' & -> & Ht & Hh & _).
  unfold hunyuan_handles in Hh. injection Hh as Hs' Hi' _. split; [done|].
  split; congruence.
Qed.

Lemma get_hunyuan3d_paint_released :
  hoare shape_models_released get_hunyuan3d_paint
        (λ _, shape_models_released) shape_models_released.
Proof.
  intros s Hs.
  unfold wp, get_hunyuan3d_paint, bind, get_globals, ext, set_globals, emit, ret; simpl.
  destruct (hunyuan3d_paint (globals s)); simpl; [done|].
  by destruct (load_hunyuan3d_paint (world s)) as [[pipe|] w].
Qed.

Lemma emit_shape_models_released ev :
  hoare shape_models_released (emit ev) (λ _, shape_models_released) (λ _, False).
Proof. by intros s Hs. Qed.

Lemma unload_hunyuan3d_paint_idle :
  hoare shape_models_released unload_hunyuan3d_paint (λ _, idle) (λ _, False).
Proof.
  intros s [Ht [Hs Hi]]. unfold wp.
  destruct (unload_hunyuan3d_paint_run s) as (s' & -> & Hp & Ht' & Hs' & Hi' & _).
  apply globals_idle; [congruence|]. unfold hunyuan_handles. congruence.
Qed.

Lemma unload_triposg_idle : hoare idle unload_triposg (λ _, idle) (λ _, False).
Proof.
  intros s Hs. unfold wp. destruct (unload_triposg_run s) as (s' & -> & Ht & Hh & _).
  apply globals_idle; [done|]. rewrite Hh. by rewrite Hs.
Qed.

End Released.

#[local] Hint Resolve idle_stable hunyuan3d_released_stable shape_models_released_stable
  anything_stable paint_released_stable grown_stable : stable.

Ltac released_close :=
  first [ eassumption | exact I | apply idle_shape_models_released; eassumption ].

(** Use the triple [lem] of a call that cannot raise. *)
Ltac wp_call_returns lem close :=
  lazymatch goal with
  | |- wp _ _ _ _ =>
      eapply wp_use;
      [ apply lem | solve [close] | cbv beta; intros ? ? ? | cbv beta; by intros ? [] ]
  end.

Ltac released_hook :=
  first
    [ wp_call_returns unload_hunyuan3d_paint_idle released_close
    | wp_call_returns unload_triposg_idle released_close
    | wp_call_returns unload_hunyuan3d_released released_close
    | wp_call_returns unload_triposg_released released_close
    | wp_call get_hunyuan3d_paint_released released_close
    | wp_call_returns emit_shape_models_released released_close
    | wp_call (hoare_anything unload_hunyuan3d_paint) released_close ].

Section Idle.
Context {ML : MeshLib} {Ext : External}.

Lemma paint_bot_idle req : hoare anything (paint_bot req) (λ _, idle) anything.
Proof. intros s Hs. unfold paint_bot. wp_walk released_hook released_close. Qed.

Lemma paint_bot_keeps_idle req : hoare idle (paint_bot req) (λ _, idle) idle.
Proof. intros s Hs. unfold paint_bot. wp_walk released_hook released_close. Qed.

Lemma rig_bot_keeps_idle req : hoare idle (rig_bot req) (λ _, idle) idle.
Proof. intros s Hs. unfold rig_bot. wp_walk released_hook released_close. Qed.

(** X13: a paint call that answers normally leaves no model resident at all:
    the shape models were released before Paint was loaded, and Paint as
    soon as the textured mesh was written. *)
Theorem paint_bot_success_leaves_nothing (req : PaintRequest) (s s' : Server)
    (resp : PaintResponse) :
  paint_bot req s = (Ok resp, s') → globals s' = no_models.
Proof.
  intros Hrun. pose proof (paint_bot_idle req s I) as H. unfold wp in H.
  by rewrite Hrun in H.
Qed.

End Idle.

Section AssembleIdle.
Context {ML : MeshLib} {Ext : External}.

Lemma keeps_generate_from_image_paint req eng image_path :
  keeps hunyuan3d_paint (generate_from_image req eng image_path).
Proof.
  unfold generate_from_image.
  pose proof keeps_generate_hunyuan3d_paint. pose proof keeps_generate_from_bytes_paint.
  keeps_walk.
Qed.

Lemma keeps_resolve_base_paint req : keeps hunyuan3d_paint (resolve_base req).
Proof.
  unfold resolve_base.
  pose proof keeps_generate_hunyuan3d_paint. pose proof keeps_generate_from_image_paint.
  keeps_walk.
Qed.

Lemma keeps_resolve_attachment_paint req att :
  keeps hunyuan3d_paint (resolve_attachment req att).
Proof.
  unfold resolve_attachment.
  pose proof keeps_generate_hunyuan3d_paint. pose proof keeps_generate_from_image_paint.
  keeps_walk.
Qed.

Lemma keeps_attachments_loop_paint req base_mesh atts :
  ∀ acc, keeps hunyuan3d_paint (attachments_loop req base_mesh atts acc).
Proof.
  pose proof keeps_resolve_attachment_paint.
  induction atts as [|att rest IH]; intros acc; simpl; keeps_walk.
Qed.

Lemma resolve_base_paint_released req :
  hoare paint_released (resolve_base req) (λ _, paint_released) paint_released.
Proof. apply keeps_hoare, keeps_resolve_base_paint. Qed.

Lemma attachments_loop_paint_released req base_mesh atts acc :
  hoare paint_released (attachments_loop req base_mesh atts acc)
        (λ _, paint_released) paint_released.
Proof. apply keeps_hoare, keeps_attachments_loop_paint. Qed.

Lemma merge_stage_idle req meshes generated :
  hoare paint_released (merge_stage req meshes generated) (λ _, idle) anything.
Proof.
  intros s Hs. unfold merge_stage. apply wp_bind. unfold wp at 1.
  destruct (unload_hunyuan3d_run s) as (s1 & -> & [Hs1 Hi1] & _ & Hp1 & _).
  apply wp_bind. unfold wp at 1.
  destruct (unload_triposg_run s1) as (s2 & -> & Ht2 & Hh2 & _).
  assert (idle s2) as Hidle.
  { apply globals_idle; [done|]. rewrite Hh2. unfold hunyuan_handles.
    rewrite Hs1, Hi1, Hp1. by rewrite Hs. }
  wp_walk fail released_close.
Qed.

Lemma assemble_parts_idle req :
  hoare paint_released (assemble_parts req) (λ _, idle) anything.
Proof.
  intros s Hs. unfold assemble_parts.
  wp_walk ltac:(first [ wp_call resolve_base_paint_released released_close
                      | wp_call attachments_loop_paint_released released_close
                      | wp_call merge_stage_idle released_close ])
          released_close.
Qed.

Lemma rig_stage_keeps_idle req result :
  hoare idle (rig_stage req result) (λ _, idle) idle.
Proof.
  intros s Hs. unfold rig_stage.
  wp_walk ltac:(first [wp_call rig_bot_keeps_idle released_close]) released_close.
Qed.

Lemma paint_stage_keeps_idle req ref result :
  hoare idle (paint_stage req ref result) (λ _, idle) idle.
Proof.
  intros s Hs. unfold paint_stage.
  wp_walk ltac:(first [wp_call paint_bot_keeps_idle released_close]) released_close.
Qed.

(** X14: an assembly that answers normally, started while Hunyuan3D-Paint is
    not resident, leaves no model resident at all, whatever it loaded to
    generate its parts and whatever became of the optional stages. *)
Theorem assemble_bot_success_leaves_nothing (req : AssembleRequest) (s s' : Server)
    (final : AssemblyResult) :
  hunyuan3d_paint (globals s) = None →
  assemble_bot req s = (Ok final, s') → globals s' = no_models.
Proof.
  intros Hp Hrun.
  assert (wp (assemble_bot req) (λ _, idle) anything s) as H.
  { assert (paint_released s) as Hs by done.
    unfold assemble_bot, assemble_body.
    wp_walk ltac:(first [ wp_call assemble_parts_idle released_close
                        | wp_call rig_stage_keeps_idle released_close
                        | wp_call paint_stage_keeps_idle released_close ])
            released_close. }
  unfold wp in H. by rewrite Hrun in H.
Qed.

(** X15: [rig_bot] answers 404 and changes nothing when it does not find the
    GLB; when it does, TripoSG and its background remover are released
    before the tool runs, the three Hunyuan3D handles stay as they are
    and nothing is loaded. *)
Theorem rig_bot_releases_triposg_only (req : RigRequest) (s : Server) :
  let found := path_exists (disk_path (rig_glb_path req) (world s)) (world s) in
  (found = false →
   rig_bot req s = (Raise (HTTPException 404 ("GLB not found: " ++ rig_glb_path req)), s))
  ∧ (found = true → triposg_handles (globals (rig_bot req s).2) = (None, None))
  ∧ hunyuan_handles (globals (rig_bot req s).2) = hunyuan_handles (globals s)
  ∧ trace (rig_bot req s).2 = trace s.
Proof.
  intros found. split_and!.
  - intros Hmiss. unfold rig_bot. unfold bind at 1. rewrite resolve_public_run.
    unfold bind at 1, ask at 1. fold found. by rewrite Hmiss.
  - intros Hfound. unfold rig_bot. unfold bind at 1. rewrite resolve_public_run.
    unfold bind at 1, ask at 1. fold found. rewrite Hfound. simpl.
    unfold bind at 1. destruct (unload_triposg_run s) as (s1 & -> & Ht & _).
    match goal with
    | |- context [try_except ?b ?h s1] =>
        assert (quiet (try_except b h)) as Hq by quiet_walk;
        destruct (Hq s1) as [-> _]
    end.
    done.
  - assert (keeps hunyuan_handles (rig_bot req)) as Hk by (unfold rig_bot; keeps_walk).
    apply Hk.
  - assert (grown (λ _, False) s (rig_bot req s).2) as (evs & Hevs & HE).
    { apply (hoare_snd _ (grown (λ _, False) s)); [|apply grown_refl].
      intros s0 Hs0. unfold rig_bot.
      wp_walk ltac:(first [ wp_call (unload_triposg_grown (λ _ : Event, False) s)
                              ltac:(eassumption) ])
              ltac:(eassumption). }
    destruct evs as [|ev evs]; [by rewrite Hevs, app_nil_r|].
    by apply Forall_cons in HE as [[] _].
Qed.

(** X16: a text-to-3D request whose prompt, stripped of white space as
    [str.strip] does it, is not empty ends with TripoSG and its background
    remover released, whatever else happens; and generating with
    Hunyuan3D never touches those two handles itself. *)
Theorem generate_text_3d_releases_triposg (prompt : string) (seed faces_cap : Z)
    (s : Server) :
  (truthy (strip prompt) = true →
   triposg_handles (globals (generate_text_3d prompt seed faces_cap s).2) = (None, None))
  ∧ (∀ p image, keeps triposg_handles (_generate_hunyuan3d p image seed faces_cap)).
Proof.
  split; [|intros; apply keeps_generate_hunyuan3d_triposg].
  intros Hp. unfold generate_text_3d. rewrite Hp. unfold try_except. unfold bind at 1.
  destruct (unload_triposg_run s) as (s1 & -> & Ht & _).
  pose proof (keeps_generate_hunyuan3d_triposg (Some (strip prompt)) None seed faces_cap s1)
    as Hk.
  destruct (_generate_hunyuan3d (Some (strip prompt)) None seed faces_cap s1)
    as [[r|e] s2]; simpl in *; [congruence|].
  assert (quiet (http_or_500 (A:=GenResult) "Text-to-3D generation failed: " e)) as Hq
    by quiet_walk.
  destruct (Hq s2) as [-> _]. congruence.
Qed.

End AssembleIdle.

(** ** Paint references, and models that do not load *)

Section References.
Context {ML : MeshLib} {Ext : External}.

Lemma bind_ext_at {A B} (m : M A) (k k' : A → M B) s :
  (∀ a s1, m s = (Ok a, s1) → k a s1 = k' a s1) → bind m k s = bind m k' s.
Proof. intros Hk. unfold bind. destruct (m s) as [[a|e] s1]; auto. Qed.

Lemma try_ext_at {A} (m m' : M A) (h : Exn → M A) s :
  m s = m' s → try_except m h s = try_except m' h s.
Proof. intros Hm. unfold try_except. by rewrite Hm. Qed.

Lemma open_reference_state web_path s : (open_reference web_path s).2 = s.
Proof.
  unfold open_reference, bind. rewrite resolve_public_run. unfold ask at 1.
  destruct (path_exists _ _); [|done]. unfold ask_r.
  destruct (image_open _ _); simpl; [|done]. unfold lift. by destruct (to_rgba _).
Qed.


(** X18: when the image path of a paint request leads to an image, the search
    query plays no part: the same request with any other query runs the
    same way and gets the same answer. *)
Theorem paint_bot_prefers_image_path (req : PaintRequest) (query : string) (s : Server)
    (img : Image) :
  truthy (paint_image_path req) = true →
  (open_reference (paint_image_path req) s).1 = Ok (Some img) →
  paint_bot (with_paint_search query req) s = paint_bot req s.
Proof.
  intros Htruthy Hopen.
  assert (open_reference (paint_image_path req) s = (Ok (Some img), s)) as Hrun.
  { pose proof (open_reference_state (paint_image_path req) s) as Hst.
    destruct (open_reference (paint_image_path req) s) as [r s1]. simpl in *.
    by subst. }
  unfold paint_bot. simpl. rewrite Htruthy.
  apply bind_ext_at. intros glb s1 H1. rewrite resolve_public_run in H1.
  injection H1 as <- <-.
  apply bind_ext_at. intros found s1 H1. apply ask_ok in H1 as [-> ->].
  destruct (negb _); [done|]. apply try_ext_at.
  apply bind_ext_at. intros ref s1 H1. rewrite Hrun in H1. by injection H1 as <- <-.
Qed.

(** X19: a TripoSG load that fails after the background remover was read
    leaves the remover resident: the caller is told that nothing is
    available, [/status] says TripoSG is not loaded, and the remover stays
    until the next [unload_triposg]. *)
Theorem triposg_partial_load_keeps_rmbg (s : Server) (rmbg : Pipe) (w' : World) :
  triposg_pipe (globals s) = None →
  load_triposg (world s) = (TripoLoadFailed (Some rmbg), w') →
  ∃ s',
    get_triposg_models s = (Ok (None, None), s')
    ∧ triposg_handles (globals s') = (None, Some rmbg)
    ∧ hunyuan_handles (globals s') = hunyuan_handles (globals s)
    ∧ world s' = w' ∧ trace s' = trace s
    ∧ (∃ report, status s' = (Ok report, s') ∧ triposg_loaded report = false)
    ∧ triposg_handles (globals (unload_triposg s').2) = (None, None).
Proof.
  intros Hp Hload. eexists. split.
  { unfold get_triposg_models, bind, get_globals, ext, set_globals, ret; simpl.
    rewrite Hp, Hload. done. }
  simpl. split_and!; try done. by eexists.
Qed.

(** X20: a Hunyuan3D model that does not load makes the generation fail with
    a 503 and is not remembered as missing: the handles stay as they were,
    so the next call tries again; when it is the text-to-image model that
    is missing, the shape model loaded for the call stays resident. *)
Theorem hunyuan3d_unavailable (prompt : option string) (image : option Image)
    (seed faces_cap : Z) (s : Server) (w' : World) :
  (hunyuan3d_pipe (globals s) = None →
   load_hunyuan3d_shape (world s) = (None, w') →
   _generate_hunyuan3d prompt image seed faces_cap s
   = (Raise (HTTPException 503 "Hunyuan3D model not available. Check installation."),
      {| globals := globals s; world := w'; trace := trace s |}))
  ∧ (is_Some (hunyuan3d_pipe (globals s)) →
     hunyuan3d_text2img (globals s) = None →
     image = None → truthy (default "" prompt) = true →
     load_hunyuan3d_text2img (world s) = (None, w') →
     _generate_hunyuan3d prompt image seed faces_cap s
     = (Raise (HTTPException 503
          "HunyuanDiT text-to-image model not available. Provide an image instead of a text prompt."),
        {| globals := globals s; world := w'; trace := trace s |})).
Proof.
  split.
  - intros Hp Hload. unfold _generate_hunyuan3d. unfold bind at 1.
    unfold get_hunyuan3d_model, bind, get_globals, ext, ret; simpl.
    by rewrite Hp, Hload.
  - intros [pipe Hp] Hi -> Hprompt Hload. unfold _generate_hunyuan3d. unfold bind at 1.
    unfold get_hunyuan3d_model at 1. unfold bind at 1, get_globals at 1.
    rewrite Hp. unfold ret at 1. rewrite Hprompt.
    unfold bind at 1 2. unfold get_hunyuan3d_text2img, bind, get_globals, ext, ret; simpl.
    by rewrite Hi, Hload.
Qed.

Lemma get_hunyuan3d_model_resident s (pipe : Pipe) s' :
  get_hunyuan3d_model s = (Ok (Some pipe), s') → shape_resident s'.
Proof.
  unfold get_hunyuan3d_model, shape_resident, bind, get_globals, ext, set_globals, emit, ret.
  simpl. destruct (hunyuan3d_pipe (globals s)) eqn:E; simpl.
  - intros [= <- <-]. rewrite E. eauto.
  - destruct (load_hunyuan3d_shape (world s)) as [[p|] w]; simpl; intros [= <- <-]; simpl.
    eauto.
Qed.

Lemma ext_r_ok {A} (f : World → Result A * World) s a s' :
  ext_r f s = (Ok a, s') →
  globals s' = globals s ∧ trace s' = trace s ∧ f (world s) = (Ok a, world s').
Proof. unfold ext_r. destruct (f (world s)) as [r w]. by intros [= -> <-]. Qed.

(** X21: what a Hunyuan3D generation answers: the engine is ["hunyuan3d"],
    the part id starts with ["h3d_"] and names the GLB path, and a
    reference image for painting is recorded exactly when a prompt was
    given, under a name made from the part id. *)
Theorem hunyuan3d_result_shape (prompt : option string) (image : option Image)
    (seed faces_cap : Z) (s s' : Server) (r : GenResult) :
  _generate_hunyuan3d prompt image seed faces_cap s = (Ok r, s') →
  gen_engine r = Some "hunyuan3d"
  ∧ (∃ uuid, part_id r = "h3d_" ++ uuid)
  ∧ gen_glb_path r = "/parts/generated/" ++ part_id r ++ ".glb"
  ∧ ref_image_path r
    = (if truthy (default "" prompt)
       then Some ("/parts/generated/" ++ ("paintref_" ++ part_id r) ++ ".png") else None).
Proof.
  unfold _generate_hunyuan3d. intros H.
  apply bind_ok in H as (pipe & s1 & _ & H). destruct pipe as [pipe|]; [|done].
  apply bind_ok in H as (img & s2 & _ & H). destruct img as [img|]; [|done].
  apply bind_ok in H as (rgba & s3 & _ & H).
  apply bind_ok in H as (sm & s4 & _ & H).
  destruct (truthy (default "" prompt)).
  - apply bind_ok in H as (u & s5 & _ & H). injection H as <- _.
    simpl. split_and!; eauto.
  - injection H as <- _. simpl. split_and!; eauto.
Qed.

End References.

(** ** Paths *)

Section Paths.
Context {ML : MeshLib} {Ext : External}.

Lemma append_assoc (a b c : string) : (a ++ b) ++ c = a ++ (b ++ c).
Proof.
  induction a as [|ch a IH]; [done|].
  change (String ch ((a ++ b) ++ c) = String ch (a ++ (b ++ c))). by rewrite IH.
Qed.

Lemma truthy_append_r (a b : string) : truthy b = true → truthy (a ++ b) = true.
Proof. destruct a; [done|]. done. Qed.

Lemma public_generated (name : string) :
  truthy name = true →
  PROJECT_ROOT // "public" // ("parts/generated/" ++ name) = OUTPUT_DIR // name.
Proof.
  intros Hname. unfold OUTPUT_DIR, pjoin. rewrite Hname.
  change (truthy ("parts/generated/" ++ name)) with true. cbn [truthy].
  rewrite !append_assoc. done.
Qed.

Lemma root_generated_differs (name : string) :
  truthy name = true →
  PROJECT_ROOT // ("parts/generated/" ++ name) ≠ OUTPUT_DIR // name.
Proof.
  intros Hname. unfold OUTPUT_DIR, pjoin. rewrite Hname. cbn [truthy String.append].
  rewrite !append_assoc. intros Heq. apply String.app_inj in Heq. done.
Qed.

Lemma disk_path_generated (name : string) (w : World) :
  truthy name = true → path_exists (OUTPUT_DIR // name) w = true →
  disk_path ("/parts/generated/" ++ name) w = OUTPUT_DIR // name.
Proof.
  intros Hname Hex. unfold disk_path.
  change (lstrip_slash ("/parts/generated/" ++ name)) with ("parts/generated/" ++ name).
  rewrite public_generated by done. by rewrite Hex.
Qed.

(** X22: [serve_generated] answers with the file of that name in the output
    directory, or 404; when it is there, it is the very file [rig_bot]
    and [paint_bot] read for the web path ["/parts/generated/<name>"]. *)
Theorem serve_generated_serves_what_rig_and_paint_read (filename : string) (s : Server) :
  truthy filename = true →
  if path_exists (OUTPUT_DIR // filename) (world s) then
    serve_generated filename s = (Ok (OUTPUT_DIR // filename), s)
    ∧ disk_path ("/parts/generated/" ++ filename) (world s) = OUTPUT_DIR // filename
  else
    serve_generated filename s
    = (Raise (HTTPException 404 ("File not found: " ++ filename)), s).
Proof.
  intros Hname. unfold serve_generated, bind, ask.
  destruct (path_exists (OUTPUT_DIR // filename) (world s)) eqn:Hex; simpl; [|done].
  split; [done|]. by apply disk_path_generated.
Qed.

Lemma try_ok {A} (m : M A) what s a s' :
  try_except m (http_or_500 what) s = (Ok a, s') → m s = (Ok a, s').
Proof. unfold try_except. destruct (m s) as [[a'|e] s1]; [done|]. by destruct e. Qed.

Lemma ext_ok {A} (f : World → A * World) s a s' :
  ext f s = (Ok a, s') →
  globals s' = globals s ∧ trace s' = trace s ∧ f (world s) = (a, world s').
Proof. unfold ext. destruct (f (world s)) as [r w]. by intros [= -> <-]. Qed.

(** X23: a rig answer that carries a rigged path names a file that
    [serve_generated] finds right away: the path is
    ["/parts/generated/<output_name>.glb"] and the file of that name is in
    the output directory. *)
Theorem rigged_file_can_be_served (req : RigRequest) (s s' : Server) (resp : RigResponse)
    (p : string) :
  rig_bot req s = (Ok resp, s') → rigged_path resp = Some p →
  p = "/parts/generated/" ++ (rig_output_name req ++ ".glb")
  ∧ serve_generated (rig_output_name req ++ ".glb") s'
    = (Ok (OUTPUT_DIR // (rig_output_name req ++ ".glb")), s').
Proof.
  unfold rig_bot. intros H Hp.
  apply bind_ok in H as (glb & s1 & _ & H).
  apply bind_ok in H as (found & s2 & _ & H). destruct (negb found); [done|].
  apply bind_ok in H as (u & s3 & _ & H). apply try_ok in H.
  apply bind_ok in H as (has_env & s4 & _ & H). destruct (negb has_env); [done|].
  apply bind_ok in H as (has_wrapper & s5 & _ & H). destruct (negb has_wrapper); [done|].
  apply bind_ok in H as (result & s6 & _ & H).
  destruct result as [rc out err| |e]; [|done..].
  case_bool_decide; [done|].
  apply bind_ok in H as (written & s7 & Hask & H). apply ask_ok in Hask as [-> Hw].
  destruct written.
  - apply bind_ok in H as (size & s7 & Hsz & H). apply ask_r_ok in Hsz as [-> _].
    injection H as <- <-. simpl in Hp. injection Hp as <-. split; [done|].
    unfold serve_generated, bind, ask. by rewrite <- Hw.
  - injection H as <- _. done.
Qed.

(** X24: the GLB path a generation answers with leads [rig_bot] and
    [paint_bot] to the file under [public/] where it was saved, but
    [assemble_bot] and [merge_parts] resolve paths from the project root:
    given that path as the base GLB, an assembly looks at another file and
    answers 404 when there is none. *)
Theorem generated_path_resolves_under_public_only (prefix : string) (eng : option string)
    (sm : SavedMesh) (w : World) :
  let r := gen_result prefix eng sm in
  (path_exists (generated_file r) w = true →
   disk_path (gen_glb_path r) w = generated_file r)
  ∧ PROJECT_ROOT // lstrip_slash (gen_glb_path r) ≠ generated_file r
  ∧ (∀ req s,
       base_glb_path req = gen_glb_path r →
       path_exists (PROJECT_ROOT // lstrip_slash (gen_glb_path r)) (world s) = false →
       assemble_bot req s
       = (Raise (HTTPException 404 ("Base GLB not found: " ++ gen_glb_path r)), s)).
Proof.
  intros r.
  assert (truthy (part_id r ++ ".glb") = true) as Hname by by apply truthy_append_r.
  split_and!.
  - intros Hex. by apply disk_path_generated.
  - apply (root_generated_differs _ Hname).
  - intros req s Hbase Hmiss.
    unfold assemble_bot, try_except, assemble_body, assemble_parts.
    unfold bind at 1 2. unfold resolve_base. rewrite Hbase.
    change (truthy (gen_glb_path r)) with true. cbv iota.
    unfold bind at 1, ask at 1. by rewrite Hmiss.
Qed.

(** X25: in an assembly an image found by searching is opened from
    [parts/generated/] under the project root, which is not where the
    search saved it ([OUTPUT_DIR], under [public/]); when the file is not
    there too, the assembly fails with a 500. *)
Theorem assemble_opens_searched_image_outside_public (req : AssembleRequest) (s : Server)
    (img_id msg : string) (w' : World) :
  base_glb_path req = "" → base_text_prompt req = "" → base_image_path req = "" →
  truthy (base_search_query req) = true →
  image_search (base_search_query req) true (world s) = (SearchFound img_id, w') →
  let opened := PROJECT_ROOT // ("parts/generated/" ++ (img_id ++ ".png")) in
  (if is_hunyuan3d (base_engine req)
   then image_open opened w' = Raise (Exception msg)
   else read_bytes opened w' = Raise (Exception msg)) →
  opened ≠ OUTPUT_DIR // (img_id ++ ".png")
  ∧ (assemble_bot req s).1 = Raise (HTTPException 500 ("Assembly failed: " ++ msg)).
Proof.
  intros Hg Ht Hi Hq Hsearch opened Hopen. split.
  { apply root_generated_differs. by apply truthy_append_r. }
  unfold assemble_bot, try_except, assemble_body, assemble_parts.
  unfold bind at 1 2. unfold resolve_base. rewrite Hg, Ht, Hi. cbn [truthy andb].
  unfold bind at 1. unfold find_image. rewrite Hq. cbn [truthy negb andb].
  unfold bind at 1. unfold search_image. unfold bind at 1, ext at 1. rewrite Hsearch.
  unfold ret at 1 2. cbn [default from_option id].
  change (truthy ("/parts/generated/" ++ img_id ++ ".png")) with true. cbn [negb].
  unfold bind at 1. unfold generate_from_image.
  change (lstrip_slash ("/parts/generated/" ++ img_id ++ ".png"))
    with ("parts/generated/" ++ (img_id ++ ".png")). fold opened.
  destruct (is_hunyuan3d (base_engine req)).
  - unfold bind at 1.
    match goal with |- context [unload_triposg ?s1] =>
      destruct (unload_triposg_run s1) as (s2 & -> & _ & _ & Hw & _) end.
    unfold bind at 1, ask_r at 1. rewrite Hw. simpl. by rewrite Hopen.
  - unfold bind at 1, ask_r at 1. simpl. by rewrite Hopen.
Qed.

End Paths.

(** ** Slots *)

(** X26: mirrored slots sit at the same height and depth, and the slots on the
    centre line share their x coordinate, whatever the bounding box. *)
Theorem mirrored_slots_are_level (b : Vec3 * Vec3) :
  let p := slot_position_of_bounds b in
  (Vec.y (p "left_hand") = Vec.y (p "right_hand")
   ∧ Vec.z (p "left_hand") = Vec.z (p "right_hand"))
  ∧ (Vec.y (p "left_arm") = Vec.y (p "right_arm")
     ∧ Vec.z (p "left_arm") = Vec.z (p "right_arm"))
  ∧ (Vec.y (p "left_leg") = Vec.y (p "right_leg")
     ∧ Vec.z (p "left_leg") = Vec.z (p "right_leg"))
  ∧ (Vec.y (p "chest_front") = Vec.y (p "chest_back")
     ∧ Vec.x (p "chest_front") = Vec.x (p "chest_back"))
  ∧ (∀ sl, sl ∈ ["head"; "waist"; "top"; "bottom"; "chest_front"; "chest_back"] →
       Vec.x (p sl) = Vec.x (p "head")).
Proof.
  intros p. subst p.
  pose proof (λ sl, slot_position_defined b sl) as Hs.
  pose proof (Hs PlaceSpec.head) as Hhead.
  pose proof (Hs PlaceSpec.left_hand) as H1. pose proof (Hs PlaceSpec.right_hand) as H2.
  pose proof (Hs PlaceSpec.left_arm) as H3. pose proof (Hs PlaceSpec.right_arm) as H4.
  pose proof (Hs PlaceSpec.left_leg) as H5. pose proof (Hs PlaceSpec.right_leg) as H6.
  pose proof (Hs PlaceSpec.chest_front) as H7. pose proof (Hs PlaceSpec.chest_back) as H8.
  pose proof (Hs PlaceSpec.waist) as H9. pose proof (Hs PlaceSpec.top) as H10.
  pose proof (Hs PlaceSpec.bottom) as H11.
  cbn [PlaceSpec.name] in *.
  split_and!; try (rewrite ?H1, ?H2, ?H3, ?H4, ?H5, ?H6, ?H7, ?H8; reflexivity).
  intros sl Hin. repeat (apply elem_of_cons in Hin as [->|Hin]);
    [rewrite ?Hhead, ?H7, ?H8, ?H9, ?H10, ?H11; reflexivity..|].
  by apply elem_of_nil in Hin.
Qed.

(** ** Prompts *)

Section Prompts.
Context {ML : MeshLib} {Ext : External}.
















End Prompts.

(** ** What [/status] tells *)

Section Beside.
Context {ML : MeshLib} {Ext : External}.

Lemma text2img_beside_shape_stable : stable text2img_beside_shape.
Proof. intros s s' Hg _. unfold text2img_beside_shape. by rewrite Hg. Qed.

Lemma shape_resident_stable : stable shape_resident.
Proof. intros s s' Hg _. unfold shape_resident. by rewrite Hg. Qed.

Lemma shape_resident_beside s : shape_resident s → text2img_beside_shape s.
Proof. unfold shape_resident, text2img_beside_shape. intros [p Hp] Hn. congruence. Qed.

Lemma hunyuan3d_released_beside s : hunyuan3d_released s → text2img_beside_shape s.
Proof. by intros [_ Hi] _. Qed.

Lemma beside_same s s' :
  hunyuan3d_pipe (globals s') = hunyuan3d_pipe (globals s) →
  hunyuan3d_text2img (globals s') = hunyuan3d_text2img (globals s) →
  text2img_beside_shape s → text2img_beside_shape s'.
Proof. unfold text2img_beside_shape. intros -> ->. done. Qed.

Lemma beside_get_triposg_models :
  hoare text2img_beside_shape get_triposg_models
        (λ _, text2img_beside_shape) (λ _, False).
Proof.
  intros s Hs. unfold wp. pose proof (keeps_get_triposg_models s) as Hk.
  destruct (get_triposg_models_returns s) as (r & s' & Hrun). rewrite Hrun in *.
  simpl in Hk. unfold hunyuan_handles in Hk. injection Hk as Hp Hi _.
  by apply (beside_same s).
Qed.

Lemma beside_unload_triposg :
  hoare text2img_beside_shape unload_triposg (λ _, text2img_beside_shape) (λ _, False).
Proof.
  intros s Hs. unfold wp. destruct (unload_triposg_run s) as (s' & -> & _ & Hk & _).
  unfold hunyuan_handles in Hk. injection Hk as Hp Hi _.
  by apply (beside_same s).
Qed.

Lemma beside_get_hunyuan3d_model :
  hoare text2img_beside_shape get_hunyuan3d_model
        (λ r s, match r with Some _ => shape_resident s | None => text2img_beside_shape s end)
        (λ _, False).
Proof.
  intros s Hs.
  unfold wp, get_hunyuan3d_model, bind, get_globals, ext, set_globals, emit, ret; simpl.
  destruct (hunyuan3d_pipe (globals s)) eqn:E; simpl; [by unfold shape_resident; rewrite E|].
  destruct (load_hunyuan3d_shape (world s)) as [[pipe|] w]; simpl; [by eexists|].
  unfold text2img_beside_shape in *. simpl. done.
Qed.

Lemma resident_get_hunyuan3d_text2img :
  hoare shape_resident get_hunyuan3d_text2img (λ _, shape_resident) (λ _, False).
Proof.
  intros s Hs.
  unfold wp, get_hunyuan3d_text2img, bind, get_globals, ext, set_globals, emit, ret; simpl.
  destruct (hunyuan3d_text2img (globals s)); simpl; [done|].
  by destruct (load_hunyuan3d_text2img (world s)) as [[pipe|] w].
Qed.

Lemma beside_unload_hunyuan3d :
  hoare anything unload_hunyuan3d (λ _, text2img_beside_shape) (λ _, False).
Proof.
  intros s _. unfold wp. destruct (unload_hunyuan3d_run s) as (s' & -> & Hrel & _).
  by apply hunyuan3d_released_beside.
Qed.

Lemma beside_get_hunyuan3d_paint :
  hoare text2img_beside_shape get_hunyuan3d_paint
        (λ _, text2img_beside_shape) (λ _, False).
Proof.
  intros s Hs.
  unfold wp, get_hunyuan3d_paint, bind, get_globals, ext, set_globals, emit, ret; simpl.
  destruct (hunyuan3d_paint (globals s)); simpl; [done|].
  by destruct (load_hunyuan3d_paint (world s)) as [[pipe|] w].
Qed.

Lemma beside_unload_hunyuan3d_paint :
  hoare text2img_beside_shape unload_hunyuan3d_paint
        (λ _, text2img_beside_shape) (λ _, False).
Proof.
  intros s Hs. unfold wp.
  destruct (unload_hunyuan3d_paint_run s) as (s' & -> & _ & _ & Hp & Hi & _).
  by apply (beside_same s).
Qed.

Lemma beside_emit ev :
  hoare text2img_beside_shape (emit ev) (λ _, text2img_beside_shape) (λ _, False).
Proof. by intros s Hs. Qed.

End Beside.

#[local] Hint Resolve text2img_beside_shape_stable shape_resident_stable : stable.

Ltac beside_close :=
  first [ eassumption | exact I | apply shape_resident_beside; eassumption ].

Ltac beside_hook :=
  first
    [ lazymatch goal with
      | |- wp get_hunyuan3d_model _ _ _ =>
          eapply wp_use;
          [ apply beside_get_hunyuan3d_model | solve [beside_close]
          | let H := fresh "H" in intros [?|] ? H; cbv beta iota in H |- *
          | cbv beta; by intros ? [] ]
      end
    | wp_call_returns beside_get_triposg_models beside_close
    | wp_call_returns beside_unload_triposg beside_close
    | wp_call_returns resident_get_hunyuan3d_text2img beside_close
    | wp_call_returns beside_unload_hunyuan3d beside_close
    | wp_call_returns beside_get_hunyuan3d_paint beside_close
    | wp_call_returns beside_unload_hunyuan3d_paint beside_close
    | wp_call_returns beside_emit beside_close ].

Section Status.
Context {ML : MeshLib} {Ext : External}.

Abbreviation Beside := text2img_beside_shape.

Lemma generate_3d_beside file steps guidance seed cap :
  hoare Beside (generate_3d file steps guidance seed cap) (λ _, Beside) Beside.
Proof. intros s Hs. unfold generate_3d. wp_walk beside_hook beside_close. Qed.

Lemma _generate_from_bytes_beside data steps guidance :
  hoare Beside (_generate_from_bytes data steps guidance) (λ _, Beside) Beside.
Proof. intros s Hs. unfold _generate_from_bytes. wp_walk beside_hook beside_close. Qed.

Lemma _generate_hunyuan3d_beside prompt image seed cap :
  hoare Beside (_generate_hunyuan3d prompt image seed cap) (λ _, Beside) Beside.
Proof. intros s Hs. unfold _generate_hunyuan3d. wp_walk beside_hook beside_close. Qed.

Lemma generate_text_3d_beside prompt seed cap :
  hoare Beside (generate_text_3d prompt seed cap) (λ _, Beside) Beside.
Proof.
  intros s Hs. unfold generate_text_3d.
  wp_walk ltac:(first [beside_hook | wp_call _generate_hunyuan3d_beside beside_close])
          beside_close.
Qed.

Lemma rig_bot_beside req : hoare Beside (rig_bot req) (λ _, Beside) Beside.
Proof. intros s Hs. unfold rig_bot. wp_walk beside_hook beside_close. Qed.

Lemma paint_bot_beside req : hoare Beside (paint_bot req) (λ _, Beside) Beside.
Proof. intros s Hs. unfold paint_bot. wp_walk beside_hook beside_close. Qed.

Lemma generate_from_image_beside req eng image_path :
  hoare Beside (generate_from_image req eng image_path) (λ _, Beside) Beside.
Proof.
  intros s Hs. unfold generate_from_image.
  wp_walk ltac:(first [ beside_hook
                      | wp_call _generate_hunyuan3d_beside beside_close
                      | wp_call _generate_from_bytes_beside beside_close ]) beside_close.
Qed.

Lemma resolve_base_beside req : hoare Beside (resolve_base req) (λ _, Beside) Beside.
Proof.
  intros s Hs. unfold resolve_base.
  wp_walk ltac:(first [ beside_hook
                      | wp_call _generate_hunyuan3d_beside beside_close
                      | wp_call generate_from_image_beside beside_close ]) beside_close.
Qed.

Lemma resolve_attachment_beside req att :
  hoare Beside (resolve_attachment req att) (λ _, Beside) Beside.
Proof.
  intros s Hs. unfold resolve_attachment.
  wp_walk ltac:(first [ beside_hook
                      | wp_call _generate_hunyuan3d_beside beside_close
                      | wp_call generate_from_image_beside beside_close ]) beside_close.
Qed.

Lemma attachments_loop_beside req base_mesh atts :
  ∀ acc, hoare Beside (attachments_loop req base_mesh atts acc) (λ _, Beside) Beside.
Proof.
  induction atts as [|att rest IH]; intros acc s Hs; simpl.
  - by apply wp_ret.
  - wp_walk ltac:(first [ wp_call resolve_attachment_beside beside_close
                        | wp_call IH beside_close ]) beside_close.
Qed.

Lemma assemble_bot_beside req : hoare Beside (assemble_bot req) (λ _, Beside) Beside.
Proof.
  intros s Hs.
  unfold assemble_bot, assemble_body, assemble_parts, merge_stage, rig_stage, paint_stage.
  wp_walk ltac:(first [ beside_hook
                      | wp_call resolve_base_beside beside_close
                      | wp_call attachments_loop_beside beside_close
                      | wp_call rig_bot_beside beside_close
                      | wp_call paint_bot_beside beside_close ]) beside_close.
Qed.

Lemma serve_beside r s : Beside s → Beside (serve r s).
Proof.
  intros Hs. destruct r; simpl; apply hoare_snd; try done.
  - apply generate_3d_beside.
  - apply generate_text_3d_beside.
  - intros s' Hs'. cbv beta in *. wp_walk fail beside_close.
  - intros s' Hs'. cbv beta in *. wp_walk fail beside_close.
  - apply assemble_bot_beside.
  - apply rig_bot_beside.
  - apply paint_bot_beside.
Qed.

Lemma serve_all_beside rs : ∀ s, Beside s → Beside (serve_all rs s).
Proof. induction rs as [|r rs IH]; simpl; [done|]. intros s Hs. by apply IH, serve_beside. Qed.

(** X28: whatever requests were answered since start-up, [/status] changes
    nothing, always lists both engines, and when it says that Hunyuan3D is
    not loaded then none of the three Hunyuan3D models is resident: the
    text-to-image model is only ever held beside the shape model, and
    Paint never between requests. *)
Theorem status_tells_hunyuan3d (w : World) (rs : list Request) :
  let s := serve_all rs (boot w) in
  ∃ report,
    status s = (Ok report, s)
    ∧ engines_available report = ["triposg"; "hunyuan3d"]
    ∧ (hunyuan3d_loaded report = false → hunyuan_handles (globals s) = (None, None, None))
    ∧ (triposg_loaded report = true ↔ resident TripoSG (globals s)).
Proof.
  intros s. eexists. split; [done|]. simpl. split_and!; [done| |].
  - intros Hoff. apply bool_decide_eq_false in Hoff. apply not_is_Some_None in Hoff.
    assert (Beside s) as Hb by (by apply serve_all_beside).
    destruct (serve_all_inv rs (boot w) (boot_inv w)) as (_ & _ & _ & Hp).
    unfold hunyuan_handles. fold s in Hp. by rewrite Hoff, (Hb Hoff), Hp.
  - apply bool_decide_eq_true.
Qed.

End Status.

(** ** What the paint back end is invoked on *)

Section PaintCall.
Context {ML : MeshLib} {Ext : External}.

Lemma unload_hunyuan3d_returns s : ∃ s', unload_hunyuan3d s = (Ok (), s').
Proof. destruct (unload_hunyuan3d_run s) as (s' & Hrun & _). eauto. Qed.

Lemma paint_bot_invokes (req : PaintRequest) (s s0 s3 : Server) (ref_image : Image)
    (paint_pipe : Pipe) (loaded : Loaded) (mesh : Mesh) :
  let glb := disk_path (paint_glb_path req) (world s) in
  let output_path := OUTPUT_DIR // (paint_output_name req ++ ".glb") in
  path_exists glb (world s) = true →
  paint_reference req s = (Ok (Some ref_image), s0) →
  get_hunyuan3d_paint (unload_triposg (unload_hunyuan3d s0).2).2 = (Ok (Some paint_pipe), s3) →
  trimesh_load glb (world s3) = Ok loaded →
  extract_single_mesh loaded = Ok mesh →
  ∃ passed,
    paint_input mesh passed (world s3)
    ∧ (paint_bot req s).1
      = match paint_call paint_pipe passed ref_image (world s3) with
        | (Raise e, _) => Raise (wrapped "Painting failed: " e)
        | (Ok (textured_mesh, secs), w1) =>
            match textured_export textured_mesh output_path w1 with
            | (Raise e, _) => Raise (wrapped "Painting failed: " e)
            | (Ok _, w2) =>
                match getsize output_path w2 with
                | Raise e => Raise (wrapped "Painting failed: " e)
                | Ok size =>
                    Ok {| painted_path := "/parts/generated/" ++ paint_output_name req ++ ".glb";
                          paint_file_size := size;
                          elapsed := secs;
                          reference_image :=
                            if truthy (paint_image_path req) then paint_image_path req
                            else paint_search req |}
                end
            end
        end.
Proof.
  intros glb output_path Hglb Href Hpipe Hload Hext.
  destruct (decimate_for_paint_run mesh s3) as (passed & Hdec & Hin).
  exists passed. split; [done|].
  assert (∀ e s', (bind unload_hunyuan3d_paint
                     (λ _, http_or_500 (A:=PaintResponse) "Painting failed: " e) s').1
                  = Raise (wrapped "Painting failed: " e)) as Hhandler.
  { intros e s'. unfold bind. destruct (unload_hunyuan3d_paint_returns s') as [s2 ->].
    by destruct e. }
  unfold paint_reference in Href.
  apply bind_ok in Href as (first_ref & sa & Hfirst & Hsecond).
  unfold paint_bot. unfold bind at 1. rewrite resolve_public_run. fold glb.
  unfold bind at 1, ask at 1. rewrite Hglb. cbn [negb].
  unfold try_except. unfold bind at 1. rewrite Hfirst.
  unfold bind at 1. rewrite Hsecond.
  unfold bind at 1. destruct (unload_hunyuan3d_returns s0) as [sb Hb]. rewrite Hb in *.
  cbn [snd] in Hpipe.
  unfold bind at 1. destruct (unload_triposg_run sb) as (sc & Hc & _). rewrite Hc in *.
  cbn [snd] in Hpipe. unfold bind at 1. rewrite Hpipe.
  unfold bind at 1, ask_r at 1. rewrite Hload.
  unfold bind at 1, lift at 1. rewrite Hext.
  unfold bind at 1. rewrite Hdec.
  unfold bind at 1, emit at 1. unfold bind at 1, ext_r at 1. cbn [world].
  destruct (paint_call paint_pipe passed ref_image (world s3)) as [[[textured secs]|e] w1];
    [|apply Hhandler].
  unfold bind at 1, ext_r at 1. cbn [world]. fold output_path.
  destruct (textured_export textured output_path w1) as [[[]|e] w2]; [|apply Hhandler].
  unfold bind at 1, ask_r at 1. cbn [world].
  destruct (getsize output_path w2) as [size|e]; [|apply Hhandler].
  unfold bind at 1.
  match goal with
  | |- context [unload_hunyuan3d_paint ?st] =>
      destruct (unload_hunyuan3d_paint_returns st) as [s4 ->]
  end.
  done.
Qed.

(** C5 (as amended): once the GLB is found, a reference image is there,
    Paint has loaded and the GLB has given its mesh, the paint back end
    is invoked on this mesh: the mesh of the GLB when that has at most
    50,000 faces; otherwise the answer of quadric decimation asked for
    50,000 faces, or, when decimation raises, the mesh of the GLB as it
    is.  What [paint_bot] answers is made from what the back end returns
    for that mesh. *)
Theorem paint_input_is_decimated (req : PaintRequest) (s s0 s3 : Server)
    (ref_image : Image) (paint_pipe : Pipe) (loaded : Loaded) (mesh : Mesh) :
  let glb := disk_path (paint_glb_path req) (world s) in
  let output_path := OUTPUT_DIR // (paint_output_name req ++ ".glb") in
  path_exists glb (world s) = true →
  paint_reference req s = (Ok (Some ref_image), s0) →
  get_hunyuan3d_paint (unload_triposg (unload_hunyuan3d s0).2).2 = (Ok (Some paint_pipe), s3) →
  trimesh_load glb (world s3) = Ok loaded →
  extract_single_mesh loaded = Ok mesh →
  let passed :=
    if bool_decide (len_faces mesh > 50000)%Z then
      match simplify_quadric_decimation mesh 50000 (world s3) with
      | Ok simplified => simplified
      | Raise _ => mesh
      end
    else mesh in
  (paint_bot req s).1
  = match paint_call paint_pipe passed ref_image (world s3) with
    | (Raise e, _) => Raise (wrapped "Painting failed: " e)
    | (Ok (textured_mesh, secs), w1) =>
        match textured_export textured_mesh output_path w1 with
        | (Raise e, _) => Raise (wrapped "Painting failed: " e)
        | (Ok _, w2) =>
            match getsize output_path w2 with
            | Raise e => Raise (wrapped "Painting failed: " e)
            | Ok size =>
                Ok {| painted_path := "/parts/generated/" ++ paint_output_name req ++ ".glb";
                      paint_file_size := size;
                      elapsed := secs;
                      reference_image :=
                        if truthy (paint_image_path req) then paint_image_path req
                        else paint_search req |}
            end
        end
    end.
Proof.
  intros glb output_path Hglb Href Hpipe Hload Hext passed.
  destruct (paint_bot_invokes req s s0 s3 ref_image paint_pipe loaded mesh
              Hglb Href Hpipe Hload Hext) as (passed' & Hin & ->).
  assert (passed' = passed) as ->; [|done].
  unfold paint_input, MAX_PAINT_FACES in Hin. subst passed.
  case_bool_decide; [|done].
  by destruct (simplify_quadric_decimation mesh 50000 (world s3)).
Qed.

End PaintCall.

(** ** Concrete runs *)

Import Sim.

Lemma acquire_idempotent_witness :
  let s := (generate_text_3d "robot" 42 (-1) (boot (studio TimeoutExpired false))).2 in
  handle Hunyuan3DShape (globals s) = Some Hunyuan3DShape
  ∧ acquire Hunyuan3DShape s = (Ok (Some Hunyuan3DShape), s).
Proof.
  intros s. split; [reflexivity|]. apply (acquire_idempotent Hunyuan3DShape s). reflexivity.
Defined.

Lemma get_slot_position_places_witness :
  bounds box = Some (Vec.mk 0 0 0, Vec.mk 2 4 2)
  ∧ get_slot_position box "head" = Ok (Vec.mk 1 4 1).
Proof.
  split; [reflexivity|].
  apply (get_slot_position_places box (Vec.mk 0 0 0, Vec.mk 2 4 2)); reflexivity.
Defined.


Lemma attachment_without_source_skipped_witness :
  glb_path nothing = "" ∧ text_prompt nothing = "" ∧ image_path nothing = ""
  ∧ search_query nothing = ""
  ∧ assemble_bot (with_attachments ([hat] ++ nothing :: []) (assemble_req [] false))
      (boot (studio TimeoutExpired false))
    = assemble_bot (with_attachments ([hat] ++ []) (assemble_req [] false))
        (boot (studio TimeoutExpired false)).
Proof.
  do 4 (split; [reflexivity|]).
  apply (attachment_without_source_skipped (assemble_req [] false) nothing); reflexivity.
Defined.


Lemma rig_bot_tool_outcome_witness :
  let s := boot (studio TimeoutExpired false) in
  path_exists (disk_path (rig_glb_path rig_req) (world s)) (world s) = true
  ∧ path_exists unirig_python (world s) = true
  ∧ path_exists (UNIRIG_DIR // "rig_bot.py") (world s) = true
  ∧ (rig_bot rig_req s).1 = Raise (HTTPException 504 "Rigging timed out (300s limit)").
Proof.
  intros s. do 3 (split; [reflexivity|]).
  apply (rig_bot_tool_outcome rig_req s); reflexivity.
Defined.

Lemma rig_error_is_recorded_witness :
  let req := assemble_req [hat] true in
  (let s := boot (studio (Completed 1 "" "out of memory") false) in
   auto_rig req = true
   ∧ ∃ final s3,
       assemble_bot req s = (Ok final, s3)
       ∧ rig_error final = Some "500: UniRig rigging failed: out of memory"
       ∧ rigged final = None
       ∧ merged_path final = "/parts/generated/assembled_bot.glb")
  ∧ (let s := boot (studio (Completed 0 "" "") false) in
     ∃ final s3,
       assemble_bot req s = (Ok final, s3)
       ∧ rigged_path <$> rigged final = Some None
       ∧ rig_message <$> rigged final
         = Some (Some "UniRig completed but output GLB not generated")
       ∧ rig_error final = None).
Proof.
  intros req.
  pose (result := {| merged_path := "/parts/generated/assembled_bot.glb";
                     result_vertices := 8; result_faces := 4; parts_generated := [];
                     file_size := 1024; rigged := None; rig_error := None;
                     painted := None; paint_error := None |}).
  split.
  - intros s. split; [reflexivity|].
    pose (e := HTTPException 500 "UniRig rigging failed: out of memory").
    destruct (rig_error_is_recorded req s _ "" result eq_refl
                (run_eq _ _ ltac:(vm_compute; reflexivity))) as (Hraise & _ & _).
    destruct (Hraise e _ (run_eq _ _ ltac:(vm_compute; reflexivity)))
      as (final & s3 & Hrun & Herr & Hrig & _ & Hoff).
    exists final, s3. rewrite (Hoff eq_refl) in Hrun |- *.
    split_and!; [exact Hrun|vm_compute; reflexivity|reflexivity..].
  - intros s.
    destruct (rig_error_is_recorded req s _ "" result eq_refl
                (run_eq _ _ ltac:(vm_compute; reflexivity))) as (_ & _ & Hquiet).
    destruct (Hquiet "" "" _ eq_refl eq_refl eq_refl (run_eq _ _ ltac:(vm_compute; reflexivity))
                eq_refl)
      as (final & s3 & Hrun & Hrig & Herr).
    exists final, s3. rewrite Hrig. split_and!; [exact Hrun|reflexivity|reflexivity|exact Herr].
Defined.

Lemma paint_bot_releases_witness :
  let s := boot (studio TimeoutExpired false) in
  path_exists (disk_path "/parts/base.glb" (world s)) (world s) = true
  ∧ hunyuan3d_paint (globals (paint_bot (paint_req "/parts/base.glb") s).2) = None.
Proof.
  intros s. split; [reflexivity|].
  apply (paint_bot_releases (paint_req "/parts/base.glb") s). reflexivity.
Defined.

Lemma paint_input_is_decimated_witness :
  let req := paint_req "/parts/generated/big.glb" in
  let s := boot workshop in
  len_faces big = 80000%Z
  ∧ match simplify_quadric_decimation big 50000 (world s) with
    | Ok passed =>
        len_faces passed = 50000%Z
        ∧ (paint_bot req s).1
          = match paint_call Hunyuan3DPaint passed ref_file (world s) with
            | (Ok (textured_mesh, secs), _) =>
                Ok {| painted_path := "/parts/generated/painted_bot.glb";
                      paint_file_size := 1024; elapsed := secs;
                      reference_image := "/parts/generated/ref.png" |}
            | (Raise e, _) => Raise e
            end
    | Raise _ => False
    end.
Proof.
  intros req s. split; [vm_compute; reflexivity|].
  set (s3 := (get_hunyuan3d_paint (unload_triposg (unload_hunyuan3d s).2).2).2).
  assert (paint_reference req s = (Ok (Some ref_file), s)) as Href
    by (apply run_eq; vm_compute; reflexivity).
  assert (get_hunyuan3d_paint (unload_triposg (unload_hunyuan3d s).2).2
          = (Ok (Some Hunyuan3DPaint), s3)) as Hpipe
    by (apply run_eq; vm_compute; reflexivity).
  assert (trimesh_load (disk_path (paint_glb_path req) (world s)) (world s3)
          = Ok (LoadedTrimesh big)) as Hload by reflexivity.
  rewrite (paint_input_is_decimated req s s s3 ref_file Hunyuan3DPaint (LoadedTrimesh big) big
             eq_refl Href Hpipe Hload eq_refl).
  vm_compute. split; reflexivity.
Defined.

(** C1, as stated, fails: after one text-to-3D request two kinds of model
    are resident together. *)
Lemma two_kinds_resident_after_text_to_3d :
  resident_kinds
    (globals (serve_all [PostGenerateText "robot" 42 (-1)] (boot (studio TimeoutExpired false))))
  = [Hunyuan3DShape; Hunyuan3DText2Img].
Proof. vm_compute. reflexivity. Qed.

(** C5, as stated, fails: with decimation raising, the paint back end is
    invoked on all 80,000 faces, and the mesh it returns for them is what
    is written out. *)
Lemma paint_invoked_above_the_ceiling :
  let s' := (paint_bot (paint_req "/parts/generated/big.glb") (boot gallery)).2 in
  len_faces big = 80000%Z
  ∧ painted_faces (trace s') = [80000%Z]
  ∧ match trimesh_load (OUTPUT_DIR // "painted_bot.glb") (world s') with
    | Ok (LoadedTrimesh m) => len_faces m = 80000%Z
    | _ => False
    end.
Proof. intros s'. split_and!; vm_compute; reflexivity. Qed.

(** C6, as stated, fails: when the tool exits with 0 and writes no output,
    the assembly answers without any ["rig_error"]; the run is under
    ["rigged"], with a null path and a message. *)
Lemma missing_rig_output_is_no_rig_error :
  match (assemble_bot (assemble_req [hat] true)
           (boot (studio (Completed 0 "" "") false))).1 with
  | Ok final =>
      rig_error final = None
      ∧ rigged_path <$> rigged final = Some None
      ∧ rig_message <$> rigged final
        = Some (Some "UniRig completed but output GLB not generated")
  | Raise _ => False
  end.
Proof. vm_compute. split_and!; reflexivity. Qed.

(** *** Further runs *)

Lemma merge_parts_lets_key_error_through_witness :
  let req := {| parts := [∅]; merge_output_name := "merged_bot" |} in
  let s := boot (studio TimeoutExpired false) in
  ∃ e, merge_parts req s = (Raise e, s) ∧ ¬ is_http e.
Proof.
  intros req s. apply (merge_parts_lets_key_error_through req ∅ [] s); reflexivity.
Defined.

Lemma merge_parts_missing_part_witness :
  let s := boot (studio TimeoutExpired false) in
  is_ok (merge_loop 0 [bare_part] [] s).1 = true
  ∧ merge_parts {| parts := [bare_part] ++ lost_part :: [bare_part];
                   merge_output_name := "merged_bot" |} s
    = (Raise (HTTPException 404 "Part not found: /public/parts/lost.glb"), s).
Proof.
  intros s. split; [vm_compute; reflexivity|].
  apply (merge_parts_missing_part [bare_part] [bare_part] lost_part "merged_bot"
           "/public/parts/lost.glb" s); vm_compute; reflexivity.
Defined.

Lemma optional_stages_cannot_fail_witness :
  let req := assemble_req [hat] true in
  let s := boot (studio TimeoutExpired false) in
  is_ok (assemble_parts req s).1 = true
  ∧ ∃ final s',
      assemble_bot req s = (Ok final, s')
      ∧ parts_generated final = [] ∧ painted final = None ∧ paint_error final = None.
Proof.
  intros req s. split; [vm_compute; reflexivity|].
  pose (result := {| merged_path := "/parts/generated/assembled_bot.glb";
                     result_vertices := 8; result_faces := 4; parts_generated := [];
                     file_size := 1024; rigged := None; rig_error := None;
                     painted := None; paint_error := None |}).
  destruct (optional_stages_cannot_fail req s _ "" result
              (run_eq _ _ ltac:(vm_compute; reflexivity)))
    as (final & s' & Hrun & Hgen & _ & _ & _ & _ & _ & Hoff).
  exists final, s'. destruct (Hoff eq_refl) as (Hp & Hpe & _).
  split_and!; [exact Hrun|exact Hgen|exact Hp|exact Hpe].
Defined.

Lemma paint_error_is_recorded_witness :
  let s := boot (studio TimeoutExpired false) in
  auto_paint painted_req = true
  ∧ ∃ final s',
      assemble_bot painted_req s = (Ok final, s')
      ∧ paint_error final
        = Some "400: No reference image provided. Please supply image_path or search_query for texture guidance."
      ∧ merged_path final = "/parts/generated/assembled_bot.glb".
Proof.
  intros s. split; [reflexivity|].
  pose (result := {| merged_path := "/parts/generated/assembled_bot.glb";
                     result_vertices := 8; result_faces := 4; parts_generated := [];
                     file_size := 1024; rigged := None; rig_error := None;
                     painted := None; paint_error := None |}).
  pose (e := HTTPException 400
          "No reference image provided. Please supply image_path or search_query for texture guidance.").
  destruct (paint_error_is_recorded painted_req s _ _ _ "" result result e eq_refl
              (run_eq _ _ ltac:(vm_compute; reflexivity))
              (run_eq _ _ ltac:(vm_compute; reflexivity))
              (run_eq _ _ ltac:(vm_compute; reflexivity)))
    as (Hrun & _ & Hpath & _).
  eexists _, _. split_and!; [exact Hrun|vm_compute; reflexivity|reflexivity].
Defined.

Lemma assemble_without_base_source_witness :
  let s := boot (studio TimeoutExpired false) in
  base_text_prompt prompt_only_req = "a humanoid robot"
  ∧ assemble_bot prompt_only_req s
    = (Raise (HTTPException 400
         "No base mesh source: provide glb_path, text_prompt, image_path, or search_query"), s).
Proof.
  intros s. split; [reflexivity|].
  apply (assemble_without_base_source prompt_only_req s); try reflexivity.
  right. discriminate.
Defined.

Lemma attachment_text_prompt_needs_hunyuan3d_witness :
  let s := boot (studio TimeoutExpired false) in
  text_prompt sword = "a rusty sword"
  ∧ attachments_loop (assemble_req [] false) box [sword; hat] ([box], []) s
    = attachments_loop (assemble_req [] false) box [hat] ([box], []) s.
Proof.
  intros s. split; [reflexivity|].
  apply (attachment_text_prompt_needs_hunyuan3d (assemble_req [] false) box sword [hat]
           ([box], []) s); try reflexivity.
  discriminate.
Defined.

Lemma assemble_from_files_generates_nothing_witness :
  let req := assemble_req [hat] false in
  let s := boot (studio TimeoutExpired false) in
  is_ok (assemble_parts req s).1 = true
  ∧ trace (assemble_parts req s).2 = [].
Proof.
  intros req s. split; [vm_compute; reflexivity|].
  pose (result := {| merged_path := "/parts/generated/assembled_bot.glb";
                     result_vertices := 8; result_faces := 4; parts_generated := [];
                     file_size := 1024; rigged := None; rig_error := None;
                     painted := None; paint_error := None |}).
  apply (assemble_from_files_generates_nothing req s _ "" result eq_refl).
  - repeat constructor.
  - apply run_eq. vm_compute. reflexivity.
Defined.

Lemma paint_bot_success_leaves_nothing_witness :
  let s := (generate_text_3d "robot" 42 (-1) (boot (studio TimeoutExpired false))).2 in
  resident_kinds (globals s) = [Hunyuan3DShape; Hunyuan3DText2Img]
  ∧ globals (paint_bot (paint_req "/parts/base.glb") s).2 = no_models.
Proof.
  intros s. split; [vm_compute; reflexivity|].
  pose (resp := {| painted_path := "/parts/generated/painted_bot.glb";
                   paint_file_size := 1024; elapsed := 1.5;
                   reference_image := "/parts/generated/ref.png" |}).
  apply (paint_bot_success_leaves_nothing (paint_req "/parts/base.glb") s _ resp).
  apply run_eq. vm_compute. reflexivity.
Defined.

Lemma assemble_bot_success_leaves_nothing_witness :
  let s := (generate_text_3d "robot" 42 (-1) (boot (studio TimeoutExpired false))).2 in
  resident_kinds (globals s) = [Hunyuan3DShape; Hunyuan3DText2Img]
  ∧ globals (assemble_bot (assemble_req [hat] false) s).2 = no_models.
Proof.
  intros s. split; [vm_compute; reflexivity|].
  pose (result := {| merged_path := "/parts/generated/assembled_bot.glb";
                     result_vertices := 8; result_faces := 4; parts_generated := [];
                     file_size := 1024; rigged := None; rig_error := None;
                     painted := None; paint_error := None |}).
  apply (assemble_bot_success_leaves_nothing (assemble_req [hat] false) s _ result eq_refl).
  apply run_eq. vm_compute. reflexivity.
Defined.


Lemma paint_bot_prefers_image_path_witness :
  let s := boot (studio TimeoutExpired false) in
  paint_bot (with_paint_search "rusty metal" (paint_req "/parts/base.glb")) s
  = paint_bot (paint_req "/parts/base.glb") s.
Proof.
  intros s.
  apply (paint_bot_prefers_image_path (paint_req "/parts/base.glb") "rusty metal" s ref_file);
    vm_compute; reflexivity.
Defined.

Lemma triposg_partial_load_keeps_rmbg_witness :
  let E := Machine.external (TripoLoadFailed (Some TripoSG)) true true true in
  let s := boot (Ext:=E) (studio TimeoutExpired false) in
  ∃ s',
    get_triposg_models (Ext:=E) s = (Ok (None, None), s')
    ∧ triposg_handles (Ext:=E) (globals s') = (None, Some TripoSG).
Proof.
  intros E s.
  destruct (triposg_partial_load_keeps_rmbg (Ext:=E) s TripoSG (world s) eq_refl eq_refl)
    as (s' & Hrun & Hh & _).
  exists s'. split; [exact Hrun|exact Hh].
Defined.

Lemma hunyuan3d_unavailable_witness :
  let E := Machine.external (TripoLoaded TripoSG TripoSG) true false true in
  let s := boot (Ext:=E) (studio TimeoutExpired false) in
  let s1 := (get_hunyuan3d_model (Ext:=E) s).2 in
  handle (Ext:=E) Hunyuan3DShape (globals s1) = Some Hunyuan3DShape
  ∧ (_generate_hunyuan3d (Ext:=E) (Some "robot") None 42 (-1) s1).1
    = Raise (HTTPException 503
        "HunyuanDiT text-to-image model not available. Provide an image instead of a text prompt.").
Proof.
  intros E s s1. split; [reflexivity|].
  destruct (hunyuan3d_unavailable (Ext:=E) (Some "robot") None 42 (-1) s1 (world s1))
    as [_ H].
  rewrite H; [reflexivity|by eexists|reflexivity..].
Defined.

Lemma hunyuan3d_result_shape_witness :
  let s := boot (studio TimeoutExpired false) in
  ∃ r s',
    _generate_hunyuan3d (Some "robot") None 42 (-1) s = (Ok r, s')
    ∧ part_id r = "h3d_00000000"
    ∧ ref_image_path r = Some "/parts/generated/paintref_h3d_00000000.png".
Proof.
  intros s.
  pose (r := with_ref_image_path "/parts/generated/paintref_h3d_00000000.png"
               (gen_result "h3d_" (Some "hunyuan3d")
                  {| saved_uuid := "00000000"; saved_vertices := 4; saved_faces := 2;
                     saved_elapsed := 1.5 |})).
  assert (_generate_hunyuan3d (Some "robot") None 42 (-1) s
          = (Ok r, (_generate_hunyuan3d (Some "robot") None 42 (-1) s).2)) as Hrun
    by (apply run_eq; vm_compute; reflexivity).
  destruct (hunyuan3d_result_shape _ _ _ _ _ _ _ Hrun) as (_ & _ & _ & Href).
  eexists r, _. split_and!; [exact Hrun|reflexivity|exact Href].
Defined.

Lemma serve_generated_serves_what_rig_and_paint_read_witness :
  let s := boot (studio TimeoutExpired false) in
  serve_generated "ref.png" s = (Ok ref_file, s)
  ∧ disk_path "/parts/generated/ref.png" (world s) = ref_file.
Proof.
  intros s.
  pose proof (serve_generated_serves_what_rig_and_paint_read "ref.png" s eq_refl) as H.
  assert (path_exists (OUTPUT_DIR // "ref.png") (world s) = true) as Hex by reflexivity.
  rewrite Hex in H. exact H.
Defined.

Lemma rigged_file_can_be_served_witness :
  let s := boot (studio (Completed 0 "" "") true) in
  let s' := (rig_bot rig_req s).2 in
  serve_generated "rigged_bot.glb" s' = (Ok (OUTPUT_DIR // "rigged_bot.glb"), s').
Proof.
  intros s s'.
  pose (resp := {| glb_input := "/parts/base.glb"; rig_response_name := "rigged_bot";
                   rigged_path := Some "/parts/generated/rigged_bot.glb";
                   rig_file_size := Some 1024%Z; rig_message := None |}).
  apply (rigged_file_can_be_served rig_req s s' resp "/parts/generated/rigged_bot.glb");
    [|reflexivity].
  apply run_eq. vm_compute. reflexivity.
Defined.

Lemma assemble_opens_searched_image_outside_public_witness :
  let s := boot searching in
  let w' := (image_search "humanoid robot" true (world s)).2 in
  path_exists (OUTPUT_DIR // "ref_1.png") w' = true
  ∧ (assemble_bot searched_req s).1
    = Raise (HTTPException 500
        "Assembly failed: FileNotFoundError: /srv/battle-bots/parts/generated/ref_1.png").
Proof.
  intros s w'. split; [reflexivity|].
  apply (assemble_opens_searched_image_outside_public searched_req s "ref_1"
           "FileNotFoundError: /srv/battle-bots/parts/generated/ref_1.png" w');
    reflexivity.
Defined.

Lemma generate_text_3d_releases_triposg_witness :
  let s := (generate_3d "upload" 50 7 42 (-1) (boot (studio TimeoutExpired false))).2 in
  triposg_handles (globals s) = (Some TripoSG, Some TripoSG)
  ∧ triposg_handles (globals (generate_text_3d "robot" 42 (-1) s).2) = (None, None).
Proof.
  intros s. split; [reflexivity|].
  apply (generate_text_3d_releases_triposg "robot" 42 (-1) s). reflexivity.
Defined.

